(** * XRT software-emulation shim ([CpuemShim]): bookkeeping and forwarding

    A shallow embedding of
    [src/runtime_src/core/edge/sw_em/generic_pcie_hal2/shim.cxx]:
    the buffer-object registry, the per-bank allocation path, the chunked
    transfer engine, the completion poll of the streaming queues, the lazy
    launch of the device process and the binary-load entry point.

    Conventions of the embedding.
    - The object [CpuemShim] is a record; a member function is a function
      from the record to a result and the next record.
    - C++ unsigned integers are [Z] reduced with [u32], [u64] where the
      source computes in that width.  Pointers are addresses in [Z].
    - Everything the process does to the outside world (system calls through
      [systemUtil::makeSystemCall], [fork], socket construction, a message
      forwarded by one of the [*_RPC_CALL] macros, files written) is appended
      to the field [trace].  Writes to [mLogStream] are not recorded; whether
      the stream is open is.
    - What shim.cxx takes from other files (the memory manager of
      memorymanager.h, the sentinels and flag decoders of shim.h and
      em_defines.h, the RPC macros and what the peer answers through them,
      the configuration singleton) is a field of the class [Platform].
    - The static members [mBufferCount], [mFirstBinary] and
      [mFdToFileNameMap] and the namespace variable [isRemotePortMapped]
      are fields of the one object considered.
    - Loops without a bound in the source take a [fuel] argument. *)

From Stdlib Require Import ZArith Lia List String Ascii Bool.
From stdpp Require Import base option list sorting gmap strings pretty.

Local Open Scope string_scope.
Local Open Scope Z_scope.

(** ** Machine integers *)

Definition u32 (x : Z) : Z := x mod 2 ^ 32.
Definition u64 (x : Z) : Z := x mod 2 ^ 64.

(** ** Messages forwarded to the device process

    One constructor per [*_RPC_CALL] macro used by the modelled functions,
    carrying the arguments the call site passes. *)

Inductive RpcCall : Type :=
| xclLoadBitstream_RPC_CALL
    (xmlFile dlopenfilename deviceDirectory binaryDirectory : string)
    (verbose : bool)
| xclAllocDeviceBuffer_RPC_CALL (result size : Z) (noHostMemory : bool)
| xclFreeDeviceBuffer_RPC_CALL (offset : Z)
| xclWriteAddrKernelCtrl_RPC_CALL (space offset hostBuf size : Z)
| xclReadAddrKernelCtrl_RPC_CALL (space offset hostBuf size : Z)
| xclCopyBufferHost2Device_RPC_CALL (c_dest c_src c_size seek space : Z)
| xclCopyBufferDevice2Host_RPC_CALL (c_dest c_src c_size skip space : Z)
| xclSetupInstance_RPC_CALL
    (instanceBaseAddr : Z) (argFlowIdMap : gmap Z (Z * string))
| xclLoadXclbinContent_RPC_CALL
    (xmllength sharedliblength emuDataSize : Z) (keepdir : bool)
| xclPollCompletion_RPC_CALL (reqCounter : Z) (vaLenMap : gmap Z Z)
| xclClose_RPC_CALL.

Inductive systemOperation : Type :=
| CREATE | REMOVE | COPY | APPEND | UNZIP | PERMISSIONS.

Inductive Signal : Type := SIGSEGV | SIGFPE | SIGABRT | SIGUSR1 | SIGCHLD.

(** What the process does to its environment. *)
Inductive Event : Type :=
| EvSystemCall (operand1 : string) (op : systemOperation) (operand2 : string)
| EvSigaction (sn : Signal)
| EvSetenv (name value : string)
| EvFork (childArgs : list string)
| EvNewSocket (ctorArg : option bool)
| EvRpc (c : RpcCall)
| EvFileWrite (path : string) (length : Z)
| EvRemotePortMap
| EvPlLauncher (xclBinName : string)
| EvMunmapClose (fd : Z)
| EvSchedulerInit
| EvSchedulerFini.

(** The answer of the peer as a forwarding macro stores it into the local
    variables of its call site: a number ([ack], [numBytesProcessed], ...)
    and a string ([sFileName]). *)
Record Reply : Type := { r_val : Z; r_str : string }.

Record unix_socket : Type := { get_name : string }.

(** ** What the other files provide *)

Class Platform : Type := {
  (** [xclemulation::MemoryManager] (memorymanager.h).  [alloc] is handed
      the requested size and may round it up in place (the caller's
      comment: "size contains alignement + original size requested"); its
      result here is the address, the size it leaves, and the manager
      afterwards. *)
  MemoryManager : Type;
  mNull : Z;
  mm_alloc : MemoryManager -> Z -> Z * Z * MemoryManager;
  mm_free : MemoryManager -> Z -> MemoryManager;
  mm_start : MemoryManager -> Z;
  mm_size : MemoryManager -> Z;
  (** shim.h, em_defines.h *)
  mNullBO : Z;
  DDR_BUFFER_ALIGNMENT : Z;
  xocl_bo_ddr_idx : Z -> Z;
  no_host_memory : Z -> bool;
  xocl_bo_host_only : Z -> bool;
  (** the device process, as seen through the forwarding macros: its answer
      to a call, given everything that happened before *)
  peer_reply : list Event -> RpcCall -> Reply;
  (** unix_socket.h: the socket built after the given history *)
  new_unix_socket : option bool -> list Event -> unix_socket;
  (** the configuration singleton, the environment and the file system *)
  isDontRun : bool;
  isKeepRunDirEnabled : bool;
  getServerPort : Z;
  get_hal_logging : string;
  getenv : string -> option string;
  getpid : Z;
  GetCurrentDir : option string;
  fopen_wb_ok : string -> bool;
  dev_mem_ok : bool
}.

Inductive xclMemoryDomains : Type :=
| XCL_MEM_HOST_RAM | XCL_MEM_DEVICE_RAM | XCL_MEM_DEVICE_BRAM
| XCL_MEM_SVM | XCL_MEM_CMA | XCL_MEM_DEVICE_REG.

Inductive xclAddressSpace : Type :=
| XCL_ADDR_SPACE_DEVICE_FLAT | XCL_ADDR_SPACE_DEVICE_RAM | XCL_ADDR_KERNEL_CTRL
| XCL_ADDR_SPACE_DEVICE_PERFMON | XCL_ADDR_SPACE_DEVICE_REG
| XCL_ADDR_SPACE_DEVICE_CHECKER | XCL_ADDR_SPACE_MAX.

Definition xclAddressSpace_code (a : xclAddressSpace) : Z :=
  match a with
  | XCL_ADDR_SPACE_DEVICE_FLAT => 0 | XCL_ADDR_SPACE_DEVICE_RAM => 1
  | XCL_ADDR_KERNEL_CTRL => 2 | XCL_ADDR_SPACE_DEVICE_PERFMON => 3
  | XCL_ADDR_SPACE_DEVICE_REG => 4 | XCL_ADDR_SPACE_DEVICE_CHECKER => 5
  | XCL_ADDR_SPACE_MAX => 8
  end.

Definition is_XCL_ADDR_KERNEL_CTRL (a : xclAddressSpace) : bool :=
  match a with XCL_ADDR_KERNEL_CTRL => true | _ => false end.

Definition is_XCL_MEM_DEVICE_RAM (d : xclMemoryDomains) : bool :=
  match d with XCL_MEM_DEVICE_RAM => true | _ => false end.

(** ** Buffer objects and requests *)

Record drm_xocl_bo : Type := {
  bo_base : Z;
  bo_size : Z;
  bo_flags : Z;
  bo_filename : string;
  bo_userptr : Z;
  bo_buf : Z;
  bo_fd : Z
}.

Record xocl_create_bo : Type := {
  cb_size : Z;
  cb_handle : Z;
  cb_flags : Z
}.

Record xclReqCompletion : Type := {
  priv_data : Z;
  nbytes : Z
}.

(** An element of [mReqList]: sequence number, caller context, and the
    buffer-address-to-length map. *)
Record StreamReq : Type := {
  rq_counter : Z;
  rq_priv : Z;
  rq_vaLenMap : gmap Z Z
}.

(** ** The binary container

    [xclbininmemory] holds the bytes at the start of the image (at least
    the eight bytes of the magic field); the section table is read through
    [xclbin::get_axlf_section], which belongs to the container parser, so
    its result is a field.  The topology and connectivity sections are
    given as the tables the source casts them to; [xml_project_name] is
    what the XML reader extracts from the embedded metadata. *)

Inductive axlf_section_kind : Type :=
| BITSTREAM | EMBEDDED_METADATA | DEBUG_DATA | ASK_GROUP_TOPOLOGY
| EMULATION_DATA | CONNECTIVITY | AIE_METADATA.

Record axlf_section_header : Type := {
  m_sectionOffset : Z;
  m_sectionSize : Z
}.

Inductive MEM_TYPE : Type := MEM_DDR | MEM_STREAMING | MEM_OTHER.

Record mem_data : Type := {
  m_type : MEM_TYPE;
  route_id : Z;
  flow_id : Z;
  m_tag : string
}.

Record connection : Type := {
  arg_index : Z;
  mem_data_index : Z
}.

Record xclBin : Type := {
  xclbininmemory : list Z;
  get_axlf_section : axlf_section_kind -> option axlf_section_header;
  m_mem_data : list mem_data;
  m_connection : list connection;
  xml_project_name : string
}.

(** The bytes of a string literal, with the terminating NUL. *)
Fixpoint literal_bytes (lit : string) : list Z :=
  match lit with
  | EmptyString => [0]
  | String c rest => Z.of_nat (nat_of_ascii c) :: literal_bytes rest
  end.

(** [memcmp(buf, lit, n) == 0] *)
Definition memcmp_eq (buf : list Z) (lit : string) (n : nat) : bool :=
  bool_decide (take n buf = take n (literal_bytes lit)).

Definition s32 (x : Z) : Z := (x + 2 ^ 31) mod 2 ^ 32 - 2 ^ 31.

Definition ULLONG_MAX : Z := 2 ^ 64 - 1.

(** [std::hex] formatting of an unsigned counter. *)
Definition hex_digit (d : Z) : ascii :=
  nth (Z.to_nat d)
    ["0"; "1"; "2"; "3"; "4"; "5"; "6"; "7"; "8"; "9";
     "a"; "b"; "c"; "d"; "e"; "f"]%char "0"%char.

Fixpoint hex_digits (width : nat) (n : Z) (acc : string) : string :=
  match width with
  | O => acc
  | S width =>
      let acc := String (hex_digit (n mod 16)) acc in
      if n / 16 =? 0 then acc else hex_digits width (n / 16) acc
  end.

Definition to_hex (n : Z) : string := hex_digits 16 n "".

Section Shim.
Context {P : Platform}.

(** ** The shim object *)

Record CpuemShim : Type := {
  sock : option unix_socket;
  binaryCounter : Z;
  mBufferCount : Z;
  mXoclObjMap : gmap Z drm_xocl_bo;
  mDDRMemoryManager : list MemoryManager;
  mDDRBankCount : Z;
  mReqList : list StreamReq;
  mReqCounter : Z;
  message_size : Z;
  mLogStream_is_open : bool;
  mFirstBinary : bool;
  mIsKdsSwEmu : bool;
  mSWSch : bool;
  mFdToFileNameMap : gmap Z (string * Z * Z);
  isRemotePortMapped : bool;
  mDeviceIndex : Z;
  deviceName : string;
  deviceDirectory : string;
  files : list string;
  trace : list Event
}.

(** Field updates ([mSWSch] stands for the pair of pointers [mCore] and
    [mSWSch], which the source sets and clears together). *)
Definition with_sock (v : option unix_socket) (s : CpuemShim) : CpuemShim :=
  {| sock := v; binaryCounter := binaryCounter s;
     mBufferCount := mBufferCount s; mXoclObjMap := mXoclObjMap s;
     mDDRMemoryManager := mDDRMemoryManager s;
     mDDRBankCount := mDDRBankCount s; mReqList := mReqList s;
     mReqCounter := mReqCounter s; message_size := message_size s;
     mLogStream_is_open := mLogStream_is_open s;
     mFirstBinary := mFirstBinary s; mIsKdsSwEmu := mIsKdsSwEmu s;
     mSWSch := mSWSch s; mFdToFileNameMap := mFdToFileNameMap s;
     isRemotePortMapped := isRemotePortMapped s;
     mDeviceIndex := mDeviceIndex s; deviceName := deviceName s;
     deviceDirectory := deviceDirectory s; files := files s;
     trace := trace s |}.

Definition with_binaryCounter (v : Z) (s : CpuemShim) : CpuemShim :=
  {| sock := sock s; binaryCounter := v; mBufferCount := mBufferCount s;
     mXoclObjMap := mXoclObjMap s;
     mDDRMemoryManager := mDDRMemoryManager s;
     mDDRBankCount := mDDRBankCount s; mReqList := mReqList s;
     mReqCounter := mReqCounter s; message_size := message_size s;
     mLogStream_is_open := mLogStream_is_open s;
     mFirstBinary := mFirstBinary s; mIsKdsSwEmu := mIsKdsSwEmu s;
     mSWSch := mSWSch s; mFdToFileNameMap := mFdToFileNameMap s;
     isRemotePortMapped := isRemotePortMapped s;
     mDeviceIndex := mDeviceIndex s; deviceName := deviceName s;
     deviceDirectory := deviceDirectory s; files := files s;
     trace := trace s |}.

Definition with_registry (c : Z) (m : gmap Z drm_xocl_bo) (s : CpuemShim) : CpuemShim :=
  {| sock := sock s; binaryCounter := binaryCounter s; mBufferCount := c;
     mXoclObjMap := m; mDDRMemoryManager := mDDRMemoryManager s;
     mDDRBankCount := mDDRBankCount s; mReqList := mReqList s;
     mReqCounter := mReqCounter s; message_size := message_size s;
     mLogStream_is_open := mLogStream_is_open s;
     mFirstBinary := mFirstBinary s; mIsKdsSwEmu := mIsKdsSwEmu s;
     mSWSch := mSWSch s; mFdToFileNameMap := mFdToFileNameMap s;
     isRemotePortMapped := isRemotePortMapped s;
     mDeviceIndex := mDeviceIndex s; deviceName := deviceName s;
     deviceDirectory := deviceDirectory s; files := files s;
     trace := trace s |}.

Definition with_mDDRMemoryManager (v : list MemoryManager) (s : CpuemShim) : CpuemShim :=
  {| sock := sock s; binaryCounter := binaryCounter s;
     mBufferCount := mBufferCount s; mXoclObjMap := mXoclObjMap s;
     mDDRMemoryManager := v; mDDRBankCount := mDDRBankCount s;
     mReqList := mReqList s; mReqCounter := mReqCounter s;
     message_size := message_size s;
     mLogStream_is_open := mLogStream_is_open s;
     mFirstBinary := mFirstBinary s; mIsKdsSwEmu := mIsKdsSwEmu s;
     mSWSch := mSWSch s; mFdToFileNameMap := mFdToFileNameMap s;
     isRemotePortMapped := isRemotePortMapped s;
     mDeviceIndex := mDeviceIndex s; deviceName := deviceName s;
     deviceDirectory := deviceDirectory s; files := files s;
     trace := trace s |}.

Definition with_mReqList (v : list StreamReq) (s : CpuemShim) : CpuemShim :=
  {| sock := sock s; binaryCounter := binaryCounter s;
     mBufferCount := mBufferCount s; mXoclObjMap := mXoclObjMap s;
     mDDRMemoryManager := mDDRMemoryManager s;
     mDDRBankCount := mDDRBankCount s; mReqList := v;
     mReqCounter := mReqCounter s; message_size := message_size s;
     mLogStream_is_open := mLogStream_is_open s;
     mFirstBinary := mFirstBinary s; mIsKdsSwEmu := mIsKdsSwEmu s;
     mSWSch := mSWSch s; mFdToFileNameMap := mFdToFileNameMap s;
     isRemotePortMapped := isRemotePortMapped s;
     mDeviceIndex := mDeviceIndex s; deviceName := deviceName s;
     deviceDirectory := deviceDirectory s; files := files s;
     trace := trace s |}.

Definition with_trace (v : list Event) (s : CpuemShim) : CpuemShim :=
  {| sock := sock s; binaryCounter := binaryCounter s;
     mBufferCount := mBufferCount s; mXoclObjMap := mXoclObjMap s;
     mDDRMemoryManager := mDDRMemoryManager s;
     mDDRBankCount := mDDRBankCount s; mReqList := mReqList s;
     mReqCounter := mReqCounter s; message_size := message_size s;
     mLogStream_is_open := mLogStream_is_open s;
     mFirstBinary := mFirstBinary s; mIsKdsSwEmu := mIsKdsSwEmu s;
     mSWSch := mSWSch s; mFdToFileNameMap := mFdToFileNameMap s;
     isRemotePortMapped := isRemotePortMapped s;
     mDeviceIndex := mDeviceIndex s; deviceName := deviceName s;
     deviceDirectory := deviceDirectory s; files := files s; trace := v |}.

Definition with_files (v : list string) (s : CpuemShim) : CpuemShim :=
  {| sock := sock s; binaryCounter := binaryCounter s;
     mBufferCount := mBufferCount s; mXoclObjMap := mXoclObjMap s;
     mDDRMemoryManager := mDDRMemoryManager s;
     mDDRBankCount := mDDRBankCount s; mReqList := mReqList s;
     mReqCounter := mReqCounter s; message_size := message_size s;
     mLogStream_is_open := mLogStream_is_open s;
     mFirstBinary := mFirstBinary s; mIsKdsSwEmu := mIsKdsSwEmu s;
     mSWSch := mSWSch s; mFdToFileNameMap := mFdToFileNameMap s;
     isRemotePortMapped := isRemotePortMapped s;
     mDeviceIndex := mDeviceIndex s; deviceName := deviceName s;
     deviceDirectory := deviceDirectory s; files := v; trace := trace s |}.

Definition with_mLogStream_is_open (v : bool) (s : CpuemShim) : CpuemShim :=
  {| sock := sock s; binaryCounter := binaryCounter s;
     mBufferCount := mBufferCount s; mXoclObjMap := mXoclObjMap s;
     mDDRMemoryManager := mDDRMemoryManager s;
     mDDRBankCount := mDDRBankCount s; mReqList := mReqList s;
     mReqCounter := mReqCounter s; message_size := message_size s;
     mLogStream_is_open := v; mFirstBinary := mFirstBinary s;
     mIsKdsSwEmu := mIsKdsSwEmu s; mSWSch := mSWSch s;
     mFdToFileNameMap := mFdToFileNameMap s;
     isRemotePortMapped := isRemotePortMapped s;
     mDeviceIndex := mDeviceIndex s; deviceName := deviceName s;
     deviceDirectory := deviceDirectory s; files := files s;
     trace := trace s |}.

Definition with_mFirstBinary (v : bool) (s : CpuemShim) : CpuemShim :=
  {| sock := sock s; binaryCounter := binaryCounter s;
     mBufferCount := mBufferCount s; mXoclObjMap := mXoclObjMap s;
     mDDRMemoryManager := mDDRMemoryManager s;
     mDDRBankCount := mDDRBankCount s; mReqList := mReqList s;
     mReqCounter := mReqCounter s; message_size := message_size s;
     mLogStream_is_open := mLogStream_is_open s; mFirstBinary := v;
     mIsKdsSwEmu := mIsKdsSwEmu s; mSWSch := mSWSch s;
     mFdToFileNameMap := mFdToFileNameMap s;
     isRemotePortMapped := isRemotePortMapped s;
     mDeviceIndex := mDeviceIndex s; deviceName := deviceName s;
     deviceDirectory := deviceDirectory s; files := files s;
     trace := trace s |}.

Definition with_mSWSch (v : bool) (s : CpuemShim) : CpuemShim :=
  {| sock := sock s; binaryCounter := binaryCounter s;
     mBufferCount := mBufferCount s; mXoclObjMap := mXoclObjMap s;
     mDDRMemoryManager := mDDRMemoryManager s;
     mDDRBankCount := mDDRBankCount s; mReqList := mReqList s;
     mReqCounter := mReqCounter s; message_size := message_size s;
     mLogStream_is_open := mLogStream_is_open s;
     mFirstBinary := mFirstBinary s; mIsKdsSwEmu := mIsKdsSwEmu s;
     mSWSch := v; mFdToFileNameMap := mFdToFileNameMap s;
     isRemotePortMapped := isRemotePortMapped s;
     mDeviceIndex := mDeviceIndex s; deviceName := deviceName s;
     deviceDirectory := deviceDirectory s; files := files s;
     trace := trace s |}.

Definition with_mFdToFileNameMap (v : gmap Z (string * Z * Z)) (s : CpuemShim) : CpuemShim :=
  {| sock := sock s; binaryCounter := binaryCounter s;
     mBufferCount := mBufferCount s; mXoclObjMap := mXoclObjMap s;
     mDDRMemoryManager := mDDRMemoryManager s;
     mDDRBankCount := mDDRBankCount s; mReqList := mReqList s;
     mReqCounter := mReqCounter s; message_size := message_size s;
     mLogStream_is_open := mLogStream_is_open s;
     mFirstBinary := mFirstBinary s; mIsKdsSwEmu := mIsKdsSwEmu s;
     mSWSch := mSWSch s; mFdToFileNameMap := v;
     isRemotePortMapped := isRemotePortMapped s;
     mDeviceIndex := mDeviceIndex s; deviceName := deviceName s;
     deviceDirectory := deviceDirectory s; files := files s;
     trace := trace s |}.

Definition with_isRemotePortMapped (v : bool) (s : CpuemShim) : CpuemShim :=
  {| sock := sock s; binaryCounter := binaryCounter s;
     mBufferCount := mBufferCount s; mXoclObjMap := mXoclObjMap s;
     mDDRMemoryManager := mDDRMemoryManager s;
     mDDRBankCount := mDDRBankCount s; mReqList := mReqList s;
     mReqCounter := mReqCounter s; message_size := message_size s;
     mLogStream_is_open := mLogStream_is_open s;
     mFirstBinary := mFirstBinary s; mIsKdsSwEmu := mIsKdsSwEmu s;
     mSWSch := mSWSch s; mFdToFileNameMap := mFdToFileNameMap s;
     isRemotePortMapped := v; mDeviceIndex := mDeviceIndex s;
     deviceName := deviceName s; deviceDirectory := deviceDirectory s;
     files := files s; trace := trace s |}.

(** ** Effects *)

Definition emit (e : Event) (s : CpuemShim) : CpuemShim :=
  with_trace (trace s ++ [e]) s.

Definition makeSystemCall (operand1 : string) (op : systemOperation)
    (operand2 : string) (s : CpuemShim) : CpuemShim :=
  emit (EvSystemCall operand1 op operand2) s.

(** A forwarding macro: the message goes out, the answer comes back. *)
Definition rpc (c : RpcCall) (s : CpuemShim) : Reply * CpuemShim :=
  (peer_reply (trace s) c, emit (EvRpc c) s).

Definition to_string (n : Z) : string := pretty n.

(** ** Session supervisor *)

Definition parseIni : Z * bool :=
  let debugPort := getServerPort in
  (debugPort, negb (debugPort =? 0)).

Definition childArgv (debuggable passPort : bool) (debugPort : Z)
  : list string :=
  if debuggable then
    ["-debug"; "-ppid"; to_string getpid]
      ++ (if passPort then ["-port"; to_string debugPort] else [])
  else [].

(** [CpuemShim::launchDeviceProcess]; the [fork] is taken to succeed (the
    source asserts it), the five [sigaction] calls too.  The result is the
    value left in [binaryDirectory]. *)
Definition launchDeviceProcess (debuggable : bool) (s : CpuemShim)
  : string * CpuemShim :=
  let s := makeSystemCall (deviceDirectory s) CREATE "" s in
  let binaryDirectory :=
    deviceDirectory s +:+ "/binary_" +:+ to_string (binaryCounter s) in
  let s := makeSystemCall binaryDirectory CREATE "" s in
  let s := makeSystemCall binaryDirectory PERMISSIONS "777" s in
  let s := with_binaryCounter (u32 (binaryCounter s + 1)) s in
  match sock s with
  | Some _ => (binaryDirectory, s)
  | None =>
      let s := emit (EvSigaction SIGSEGV) s in
      let s := emit (EvSigaction SIGFPE) s in
      let s := emit (EvSigaction SIGABRT) s in
      let s := emit (EvSigaction SIGUSR1) s in
      let s := emit (EvSigaction SIGCHLD) s in
      let '(debugPort, passPort) := parseIni in
      let simDontRun := isDontRun in
      let s :=
        if negb simDontRun then
          let socket_id :=
            deviceName s +:+ "_" +:+ to_string (binaryCounter s) +:+ "_"
              +:+ to_string getpid in
          let s := emit (EvSetenv "EMULATION_SOCKETID" socket_id) s in
          emit (EvFork (childArgv debuggable passPort debugPort)) s
        else s in
      let sk := new_unix_socket None (trace s) in
      let s := emit (EvNewSocket None) s in
      (binaryDirectory, with_sock (Some sk) s)
  end.

(** [CpuemShim::launchTempProcess] *)
Definition launchTempProcess (s : CpuemShim) : CpuemShim :=
  let '(binaryDirectory, s) := launchDeviceProcess false s in
  let xmlFile := "" in
  let tempdlopenfilename := "" in
  let verbose := mLogStream_is_open s in
  snd (rpc (xclLoadBitstream_RPC_CALL xmlFile tempdlopenfilename
              (deviceDirectory s) binaryDirectory verbose) s).

(** The guard [if(!sock) launchTempProcess();] that opens several member
    functions. *)
Definition ensure_launched (s : CpuemShim) : CpuemShim :=
  match sock s with
  | None => launchTempProcess s
  | Some _ => s
  end.

(** ** Region allocation through the banks *)

(** [CpuemShim::xclAllocDeviceBuffer2].  [size] and [sFileName] are
    reference parameters: the result carries the returned address, the value
    left in [size] and the value left in [sFileName]. *)
Definition xclAllocDeviceBuffer2 (size : Z) (domain : xclMemoryDomains)
    (flags : Z) (noHostMemory : bool) (sFileName : string) (s : CpuemShim)
  : Z * Z * string * CpuemShim :=
  let s := ensure_launched s in
  if negb (is_XCL_MEM_DEVICE_RAM domain) then (mNull, size, sFileName, s)
  else
    let size := if size =? 0 then DDR_BUFFER_ALIGNMENT else size in
    if Z.of_nat (length (mDDRMemoryManager s)) <=? flags
    then (mNull, size, sFileName, s)
    else
      match mDDRMemoryManager s !! Z.to_nat flags with
      | None => (mNull, size, sFileName, s)
      | Some bank =>
          let '(result, size, bank') := mm_alloc bank size in
          let s :=
            with_mDDRMemoryManager
              (<[Z.to_nat flags := bank']> (mDDRMemoryManager s)) s in
          if result =? mNull then (result, size, sFileName, s)
          else
            let '(r, s) :=
              rpc (xclAllocDeviceBuffer_RPC_CALL result size noHostMemory) s in
            let ack := negb (r_val r =? 0) in
            let sFileName := r_str r in
            if negb ack then (0, size, sFileName, s)
            else (result, size, sFileName, s)
      end.

Fixpoint free_in_banks (offset : Z) (banks : list MemoryManager)
  : list MemoryManager :=
  match banks with
  | [] => []
  | i :: rest =>
      (if offset <? u64 (mm_start i + mm_size i) then mm_free i offset else i)
        :: free_in_banks offset rest
  end.

(** [CpuemShim::xclFreeDeviceBuffer] *)
Definition xclFreeDeviceBuffer (offset : Z) (s : CpuemShim) : CpuemShim :=
  let s :=
    with_mDDRMemoryManager (free_in_banks offset (mDDRMemoryManager s)) s in
  match sock s with
  | Some _ => snd (rpc (xclFreeDeviceBuffer_RPC_CALL offset) s)
  | None => s
  end.

(** ** Buffer registry *)

(** [CpuemShim::xclGetBoByHandle]: [None] is the null pointer. *)
Definition xclGetBoByHandle (boHandle : Z) (s : CpuemShim)
  : option drm_xocl_bo :=
  mXoclObjMap s !! boHandle.

Definition xocl_ddr_channel_count (s : CpuemShim) : Z := mDDRBankCount s.

(** The bank index that [xoclCreateBo] passes down: [ddr] after the test
    against [ddr_count]. *)
Definition selected_bank (flags : Z) (s : CpuemShim) : Z :=
  let ddr := xocl_bo_ddr_idx flags in
  if xocl_ddr_channel_count s <=? ddr then 0 else ddr.

Definition set_handle (h : Z) (info : xocl_create_bo) : xocl_create_bo :=
  {| cb_size := cb_size info; cb_handle := h; cb_flags := cb_flags info |}.

(** [CpuemShim::xoclCreateBo]; [info] is updated in place, so it is
    returned next to the status. *)
Definition xoclCreateBo (info : xocl_create_bo) (s : CpuemShim)
  : Z * xocl_create_bo * CpuemShim :=
  let size := cb_size info in
  let ddr := xocl_bo_ddr_idx (cb_flags info) in
  if size =? 0 then (u64 (-1), info, s)
  else
    let ddr_count := xocl_ddr_channel_count s in
    let ddr := if ddr_count <=? ddr then 0 else ddr in
    let noHostMemory :=
      no_host_memory (cb_flags info) || xocl_bo_host_only (cb_flags info) in
    let '(base, size, sFileName, s) :=
      xclAllocDeviceBuffer2 size XCL_MEM_DEVICE_RAM ddr noHostMemory "" s in
    let xobj :=
      {| bo_base := base; bo_size := size; bo_flags := cb_flags info;
         bo_filename := sFileName; bo_userptr := 0; bo_buf := 0;
         bo_fd := -1 |} in
    if base =? mNull then (mNull, info, s)
    else
      let h := mBufferCount s in
      (0, set_handle h info,
       with_registry (u32 (h + 1)) (<[h := xobj]> (mXoclObjMap s)) s).

(** [CpuemShim::xclAllocBO] *)
Definition xclAllocBO (size : Z) (unused : Z) (flags : Z) (s : CpuemShim)
  : Z * CpuemShim :=
  let info := {| cb_size := size; cb_handle := mNullBO; cb_flags := flags |} in
  let '(result, info, s) := xoclCreateBo info s in
  (if negb (result =? 0) then mNullBO else cb_handle info, s).

(** [CpuemShim::xclFreeBO]; the function is [void], the result is [tt].
    The registry only ever holds pointers obtained from [make_unique], so
    the test [if(bo)] on a found entry succeeds. *)
Definition xclFreeBO (boHandle : Z) (s : CpuemShim) : unit * CpuemShim :=
  match mXoclObjMap s !! boHandle with
  | None => (tt, s)
  | Some bo =>
      let s := xclFreeDeviceBuffer (bo_base bo) s in
      (tt, with_registry (mBufferCount s) (delete boHandle (mXoclObjMap s)) s)
  end.

(** [CpuemShim::xclGetBOProperties], restricted to what it reports about
    the record: status, flags, size and physical address. *)
Definition xclGetBOProperties (boHandle : Z) (s : CpuemShim)
  : Z * option (Z * Z * Z) :=
  match xclGetBoByHandle boHandle s with
  | None => (-1, None)
  | Some bo => (0, Some (bo_flags bo, bo_size bo, bo_base bo))
  end.

(** ** Register access *)

(** [CpuemShim::xclWrite]; the result is a [size_t]. *)
Definition xclWrite (space : xclAddressSpace) (offset hostBuf size : Z)
    (s : CpuemShim) : Z * CpuemShim :=
  match sock s with
  | None => (size, s)
  | Some _ =>
      if negb (is_XCL_ADDR_KERNEL_CTRL space) then (u64 (-1), s)
      else if negb (size mod 4 =? 0) then (u64 (-1), s)
      else
        let '(_, s) :=
          rpc (xclWriteAddrKernelCtrl_RPC_CALL
                 (xclAddressSpace_code space) offset hostBuf size) s in
        (size, s)
  end.

(** [CpuemShim::xclRead] *)
Definition xclRead (space : xclAddressSpace) (offset hostBuf size : Z)
    (s : CpuemShim) : Z * CpuemShim :=
  match sock s with
  | None => (size, s)
  | Some _ =>
      if negb (is_XCL_ADDR_KERNEL_CTRL space) then (u64 (-1), s)
      else if negb (size =? 4) then (u64 (-1), s)
      else
        let '(_, s) :=
          rpc (xclReadAddrKernelCtrl_RPC_CALL
                 (xclAddressSpace_code space) offset hostBuf size) s in
        (size, s)
  end.

(** ** Transfer engine *)

Definition get_messagesize (s : CpuemShim) : Z := message_size s.

(** The size of the next chunk: [c_size] after the [if] of the loop body.
    [size] is a [size_t], [processed_bytes] and [messageSize] are
    [unsigned int]; the assignment to [c_size] truncates to 32 bits. *)
Definition chunk_size (size messageSize processed_bytes : Z) : Z :=
  if size - processed_bytes <? messageSize
  then u32 (size - processed_bytes)
  else messageSize.

(** One pass through the body of the [while] of
    [xclCopyBufferHost2Device]: the chunk is forwarded, what the peer
    answers is dropped, the 32-bit counter advances. *)
Definition h2d_body (dest src size seek messageSize : Z)
    (st : Z * CpuemShim) : Z * CpuemShim :=
  let '(processed_bytes, s) := st in
  let c_size := chunk_size size messageSize processed_bytes in
  let c_src := src + processed_bytes in
  let c_dest := u64 (dest + processed_bytes) in
  let space := 0 in
  let '(_, s) :=
    rpc (xclCopyBufferHost2Device_RPC_CALL c_dest c_src c_size seek space) s in
  (u32 (processed_bytes + c_size), s).

Fixpoint h2d_loop (fuel : nat) (dest src size seek messageSize : Z)
    (st : Z * CpuemShim) : option CpuemShim :=
  if fst st <? size then
    match fuel with
    | O => None
    | S fuel =>
        h2d_loop fuel dest src size seek messageSize
          (h2d_body dest src size seek messageSize st)
    end
  else Some (snd st).

(** [CpuemShim::xclCopyBufferHost2Device]; [None] when [fuel] passes
    through the loop do not reach its exit. *)
Definition xclCopyBufferHost2Device (fuel : nat) (dest src size seek : Z)
    (s : CpuemShim) : option (Z * CpuemShim) :=
  let s := ensure_launched s in
  let src := src + seek in
  let dest := u64 (dest + seek) in
  let messageSize := get_messagesize s in
  match h2d_loop fuel dest src size seek messageSize (0, s) with
  | None => None
  | Some s => Some (size, s)
  end.

Definition d2h_body (dest src size skip messageSize : Z)
    (st : Z * CpuemShim) : Z * CpuemShim :=
  let '(processed_bytes, s) := st in
  let c_size := chunk_size size messageSize processed_bytes in
  let c_dest := dest + processed_bytes in
  let c_src := u64 (src + processed_bytes) in
  let space := 0 in
  let '(_, s) :=
    rpc (xclCopyBufferDevice2Host_RPC_CALL c_dest c_src c_size skip space) s in
  (u32 (processed_bytes + c_size), s).

Fixpoint d2h_loop (fuel : nat) (dest src size skip messageSize : Z)
    (st : Z * CpuemShim) : option CpuemShim :=
  if fst st <? size then
    match fuel with
    | O => None
    | S fuel =>
        d2h_loop fuel dest src size skip messageSize
          (d2h_body dest src size skip messageSize st)
    end
  else Some (snd st).

(** [CpuemShim::xclCopyBufferDevice2Host] *)
Definition xclCopyBufferDevice2Host (fuel : nat) (dest src size skip : Z)
    (s : CpuemShim) : option (Z * CpuemShim) :=
  let dest := dest + skip in
  let s := ensure_launched s in
  let src := u64 (src + skip) in
  let messageSize := get_messagesize s in
  match d2h_loop fuel dest src size skip messageSize (0, s) with
  | None => None
  | Some s => Some (size, s)
  end.

Definition EIO : Z := 5.

Inductive xclBOSyncDirection : Type :=
| XCL_BO_SYNC_BO_TO_DEVICE | XCL_BO_SYNC_BO_FROM_DEVICE.

(** [CpuemShim::xclSyncBO]: the callers of the two copy functions compare
    the returned count with the requested size. *)
Definition xclSyncBO (fuel : nat) (boHandle : Z) (dir : xclBOSyncDirection)
    (size offset : Z) (s : CpuemShim) : option (Z * CpuemShim) :=
  match xclGetBoByHandle boHandle s with
  | None => Some (-1, s)
  | Some bo =>
      let buffer := if negb (bo_userptr bo =? 0) then bo_userptr bo
                    else bo_buf bo in
      match
        match dir with
        | XCL_BO_SYNC_BO_TO_DEVICE =>
            xclCopyBufferHost2Device fuel (bo_base bo) buffer size offset s
        | XCL_BO_SYNC_BO_FROM_DEVICE =>
            xclCopyBufferDevice2Host fuel buffer (bo_base bo) size offset s
        end
      with
      | None => None
      | Some (n, s) => Some (if negb (n =? size) then EIO else 0, s)
      end
  end.

(** [CpuemShim::xclWriteBO] *)
Definition xclWriteBO (fuel : nat) (boHandle src size seek : Z)
    (s : CpuemShim) : option (Z * CpuemShim) :=
  match xclGetBoByHandle boHandle s with
  | None => Some (u64 (-1), s)
  | Some bo =>
      match xclCopyBufferHost2Device fuel (bo_base bo) src size seek s with
      | None => None
      | Some (n, s) => Some (if negb (n =? size) then EIO else 0, s)
      end
  end.

(** [CpuemShim::xclReadBO] *)
Definition xclReadBO (fuel : nat) (boHandle dst size skip : Z)
    (s : CpuemShim) : option (Z * CpuemShim) :=
  match xclGetBoByHandle boHandle s with
  | None => Some (u64 (-1), s)
  | Some bo =>
      match xclCopyBufferDevice2Host fuel dst (bo_base bo) size skip s with
      | None => None
      | Some (n, s) => Some (if negb (n =? size) then EIO else 0, s)
      end
  end.

(** The cut of a transfer of [size] bytes into messages of [M] bytes as
    the interface describes it: [chunk_count] pieces, piece [k] at offset
    [k * M], all of length [M] except, possibly, a shorter last one. *)
Definition chunk_count (size M : Z) : Z := (size + M - 1) / M.

Definition chunk_at (size M k : Z) : Z * Z :=
  (k * M, Z.min M (size - k * M)).

Definition chunks (size M : Z) : list (Z * Z) :=
  chunk_at size M <$> seqZ 0 (chunk_count size M).

(** The message that carries the piece [c] of a transfer whose two sides
    start at [dest] and [src]. *)
Definition h2d_message (dest src seek : Z) (c : Z * Z) : Event :=
  EvRpc (xclCopyBufferHost2Device_RPC_CALL
           (u64 (dest + c.1)) (src + c.1) c.2 seek 0).

Definition d2h_message (dest src skip : Z) (c : Z * Z) : Event :=
  EvRpc (xclCopyBufferDevice2Host_RPC_CALL
           (dest + c.1) (u64 (src + c.1)) c.2 skip 0).

(** A peer answer that refuses the call: the acknowledgement is 0. *)
Definition refused (r : Reply) : Prop := r_val r = 0.

(** ** Streaming queues: completion poll *)

(** The inner [while] of [xclPollCompletion]: one scan of [mReqList] from
    [begin()] to [end()].  [comps] is the caller's array, indexed from 0
    and written without a bounds check; [actual] is [*actual].  The result
    lists the requests left in [mReqList]. *)
Fixpoint poll_scan (reqs : list StreamReq)
    (st : Z * gmap Z xclReqCompletion * CpuemShim)
  : list StreamReq * (Z * gmap Z xclReqCompletion * CpuemShim) :=
  match reqs with
  | [] => ([], st)
  | it :: rest =>
      let '(actual, comps, s) := st in
      let reqCounter := rq_counter it in
      let priv := rq_priv it in
      let vaLenMap := rq_vaLenMap it in
      let '(r, s) := rpc (xclPollCompletion_RPC_CALL reqCounter vaLenMap) s in
      let numBytesProcessed := u32 (r_val r) in
      if 0 <? numBytesProcessed then
        let c := {| priv_data := priv; nbytes := numBytesProcessed |} in
        poll_scan rest (actual + 1, <[actual := c]> comps, s)
      else
        let '(kept, st') := poll_scan rest (actual, comps, s) in
        (it :: kept, st')
  end.

Fixpoint poll_loop (fuel : nat) (min_compl : Z)
    (st : Z * gmap Z xclReqCompletion * CpuemShim)
  : option (Z * gmap Z xclReqCompletion * CpuemShim) :=
  let '(actual, comps, s) := st in
  if actual <? min_compl then
    match fuel with
    | O => None
    | S fuel =>
        let '(kept, (actual, comps, s)) := poll_scan (mReqList s) st in
        poll_loop fuel min_compl (actual, comps, with_mReqList kept s)
    end
  else Some st.

(** [CpuemShim::xclPollCompletion]: the result is the returned count
    (equal to [*actual]), the array [comps] and the next state.  The block
    that would have turned [timeout] into a [timespec] is commented out in
    the source; [max_compl] and [timeout] do not occur in the body. *)
Definition xclPollCompletion (fuel : nat) (min_compl max_compl : Z)
    (comps : gmap Z xclReqCompletion) (timeout : Z) (s : CpuemShim)
  : option (Z * gmap Z xclReqCompletion * CpuemShim) :=
  let actual := 0 in
  poll_loop fuel min_compl (actual, comps, s).

(** The message that asks the peer about the request [it], and what it
    means that the peer never reports [it] complete. *)
Definition poll_message (it : StreamReq) : RpcCall :=
  xclPollCompletion_RPC_CALL (rq_counter it) (rq_vaLenMap it).


(** ** Loading a binary *)

(** How a call that can stop the process, or loop on file names, ends. *)
Inductive res (A : Type) : Type :=
| Done (a : A) (s : CpuemShim)
| Exited (code : Z) (s : CpuemShim)
| Fault (s : CpuemShim)
| OutOfFuel.
Arguments Done {A} a s.
Arguments Exited {A} code s.
Arguments Fault {A} s.
Arguments OutOfFuel {A}.

Definition file_exists (name : string) (s : CpuemShim) : bool :=
  bool_decide (name ∈ files s).

Definition fwrite (path : string) (length : Z) (s : CpuemShim) : CpuemShim :=
  emit (EvFileWrite path length)
    (if file_exists path s then s else with_files (path :: files s) s).

(** The loop of [dumpXML] that appends an underscore until the name is
    free. *)
Fixpoint free_xml_name (fuel : nat) (fileLocation : string) (s : CpuemShim)
  : option string :=
  if file_exists fileLocation s then
    match fuel with
    | O => None
    | S fuel => free_xml_name fuel (fileLocation +:+ "_") s
    end
  else Some fileLocation.

(** [CpuemShim::dumpXML]; the result is the status and the value left in
    [fileLocation].  [xmllength] is an [int]; [fwrite] receives it as a
    [size_t]. *)
Definition dumpXML (fuel : nat) (header : option xclBin)
    (fileLocation : string) (s : CpuemShim) : res (Z * string) :=
  match header with
  | None => Done (0, fileLocation) s
  | Some h =>
      if memcmp_eq (xclbininmemory h) "xclbin0" 8
      then Done (-1, fileLocation) s
      else if memcmp_eq (xclbininmemory h) "xclbin2" 7 then
        let '(xmlfile, xmllength) :=
          match get_axlf_section h EMBEDDED_METADATA with
          | Some sec => (true, s32 (m_sectionSize sec))
          | None => (false, 0)
          end in
        if negb xmlfile || (xmllength =? 0) then Done (-1, fileLocation) s
        else
          let s := makeSystemCall (deviceDirectory s) CREATE "" s in
          let binDir :=
            deviceDirectory s +:+ "/binary_" +:+ to_string (binaryCounter s) in
          let s := makeSystemCall binDir CREATE "" s in
          let s := makeSystemCall binDir PERMISSIONS "777" s in
          let fileLocation := binDir +:+ "/xmltmp" in
          match free_xml_name fuel fileLocation s with
          | None => OutOfFuel
          | Some fileLocation =>
              if negb (fopen_wb_ok fileLocation)
              then Done (-1, fileLocation) s
              else
                Done (0, fileLocation)
                  (fwrite fileLocation (u64 xmllength) s)
          end
      else Done (-1, fileLocation) s
  end.

(** [CpuemShim::isAieEnabled] *)
Definition isAieEnabled (header : option xclBin) : bool :=
  match header with
  | None => false
  | Some h =>
      if memcmp_eq (xclbininmemory h) "xclbin0" 8 then false
      else if memcmp_eq (xclbininmemory h) "xclbin2" 7 then
        match get_axlf_section h AIE_METADATA with
        | Some _ => true
        | None => false
        end
      else false
  end.

(** [CpuemShim::saveDeviceProcessOutput]: [i] runs from
    [binaryCounter - 1] down to 0 as an [int]. *)
Definition saveDeviceProcessOutput (s : CpuemShim) : CpuemShim :=
  match sock s with
  | None => s
  | Some _ =>
      foldl
        (fun s i =>
           match GetCurrentDir with
           | None => s
           | Some path =>
               let sw_emu_folder :=
                 deviceDirectory s +:+ "/binary_" +:+ to_string i in
               let debugFilePath := sw_emu_folder +:+ "/genericpcieoutput" in
               let destPath :=
                 path +:+ "/genericpcieoutput_device"
                   +:+ to_string (mDeviceIndex s) +:+ "_" +:+ to_string i in
               makeSystemCall debugFilePath COPY destPath s
           end)
        s (reverse (seqZ 0 (s32 (binaryCounter s - 1) + 1)))
  end.

Definition fini_scheduler (s : CpuemShim) : CpuemShim :=
  if mIsKdsSwEmu s && mSWSch s
  then with_mSWSch false (emit EvSchedulerFini s)
  else s.

(** [CpuemShim::resetProgram] *)
Definition resetProgram (s : CpuemShim) : CpuemShim :=
  let fds := merge_sort Z.le (elements (dom (mFdToFileNameMap s))) in
  let s := foldl (fun s fd => emit (EvMunmapClose fd) s) s fds in
  let s := with_mFdToFileNameMap ∅ s in
  match sock s with
  | None => fini_scheduler s
  | Some sk =>
      let socketName := get_name sk in
      let s :=
        if negb (String.eqb socketName "")
        then snd (rpc xclClose_RPC_CALL s) else s in
      saveDeviceProcessOutput s
  end.

(** The walk over the connectivity table: one [xclSetupInstance] call per
    change of the instance base address.  The loop state is
    [prev_instanceBaseAddr], [argFlowIdMap] and the shim; [None] is the
    early [return -1], a [Fault] a read before the start of the topology
    table.  [arg_id] is a [uint64_t] initialised from the [int32_t]
    [arg_index]: a negative index becomes a key at the top of the 64-bit
    range. *)
Fixpoint setup_instances (m_mem : list mem_data) (conns : list connection)
    (prev : Z) (argFlowIdMap : gmap Z (Z * string)) (s : CpuemShim)
  : res (option (Z * gmap Z (Z * string))) :=
  match conns with
  | [] => Done (Some (prev, argFlowIdMap)) s
  | c :: rest =>
      let memdata_idx := mem_data_index c in
      if Z.of_nat (length m_mem) - 1 <? memdata_idx then Done None s
      else
        match (if memdata_idx <? 0 then None
               else m_mem !! Z.to_nat memdata_idx) with
        | None => Fault s
        | Some md =>
            let arg_id := u64 (arg_index c) in
            let flow := flow_id md in
            let instanceBaseAddr := Z.land 0xFFFF0000 flow in
            let '(argFlowIdMap, s) :=
              if negb (prev =? ULLONG_MAX)
                 && negb (instanceBaseAddr =? prev)
              then (∅, snd (rpc (xclSetupInstance_RPC_CALL prev argFlowIdMap) s))
              else (argFlowIdMap, s) in
            let argFlowIdMap :=
              match m_type md with
              | MEM_STREAMING => <[arg_id := (flow, m_tag md)]> argFlowIdMap
              | _ => argFlowIdMap
              end in
            setup_instances m_mem rest instanceBaseAddr argFlowIdMap s
        end
  end.

Definition configure_instances (h : xclBin) (s : CpuemShim)
  : res (option unit) :=
  match get_axlf_section h ASK_GROUP_TOPOLOGY, get_axlf_section h CONNECTIVITY
  with
  | Some _, Some _ =>
      match setup_instances (m_mem_data h) (m_connection h) ULLONG_MAX ∅ s
      with
      | Done (Some (prev, argFlowIdMap)) s =>
          Done (Some tt)
            (snd (rpc (xclSetupInstance_RPC_CALL prev argFlowIdMap) s))
      | Done None s => Done None s
      | Exited c s => Exited c s
      | Fault s => Fault s
      | OutOfFuel => OutOfFuel
      end
  | _, _ => Done (Some tt) s
  end.

Definition init_scheduler (s : CpuemShim) : CpuemShim :=
  if mIsKdsSwEmu s then with_mSWSch true (emit EvSchedulerInit s) else s.

(** The loop of [xclLoadXclBin] that appends a hexadecimal counter until
    the name of the shared library file is free. *)
Fixpoint free_dl_name (fuel : nat) (name : string) (counter : Z)
    (s : CpuemShim) : option string :=
  if file_exists name s then
    match fuel with
    | O => None
    | S fuel => free_dl_name fuel (name +:+ to_hex counter) (u32 (counter + 1)) s
    end
  else Some name.

(** [mLogStream.open(logFilePath)] for a non-empty path, taken to
    succeed. *)
Definition open_log (s : CpuemShim) : CpuemShim :=
  if negb (String.eqb get_hal_logging "")
  then with_mLogStream_is_open true s else s.

Definition section_size (h : xclBin) (k : axlf_section_kind) : Z :=
  match get_axlf_section h k with
  | Some sec => m_sectionSize sec
  | None => 0
  end.

(** The block [if(header) { ... }] of [xclLoadXclBin], after the device
    process was launched.  [sharedliblength] is an [int] here (a [size_t]
    in the new flow); [fwrite] receives it as a [size_t]. *)
Definition load_program (fuel : nat) (h : xclBin)
    (xmlFile binaryDirectory : string) (s : CpuemShim) : res Z :=
  let s := resetProgram s in
  let s := open_log s in
  let s := with_mFirstBinary false s in
  if memcmp_eq (xclbininmemory h) "xclbin0" 8 then Done (-1) s
  else if negb (memcmp_eq (xclbininmemory h) "xclbin2" 7) then Done (-1) s
  else
    let sharedliblength := s32 (section_size h BITSTREAM) in
    let emuDataSize := section_size h EMULATION_DATA in
    match free_dl_name fuel (binaryDirectory +:+ "/dltmp") 0 s with
    | None => OutOfFuel
    | Some tempdlopenfilename =>
        if negb (fopen_wb_ok tempdlopenfilename) then Done (-1) s
        else
          let s := fwrite tempdlopenfilename (u64 sharedliblength) s in
          match configure_instances h s with
          | Done None s => Done (-1) s
          | Done (Some _) s =>
              let s := init_scheduler s in
              let s :=
                match get_axlf_section h EMULATION_DATA with
                | Some _ =>
                    if 1 <? emuDataSize then
                      let emuDataFilePath :=
                        binaryDirectory +:+ "/emuDataFile" in
                      let s := fwrite emuDataFilePath emuDataSize s in
                      let s :=
                        makeSystemCall emuDataFilePath UNZIP binaryDirectory s
                      in
                      makeSystemCall binaryDirectory PERMISSIONS "777" s
                    else s
                | None => s
                end in
              let verbose := mLogStream_is_open s in
              let '(r, s) :=
                rpc (xclLoadBitstream_RPC_CALL xmlFile tempdlopenfilename
                       (deviceDirectory s) binaryDirectory verbose) s in
              let ack := negb (r_val r =? 0) in
              if negb ack then Done (-1) s else Done 0 s
          | Exited c s => Exited c s
          | Fault s => Fault s
          | OutOfFuel => OutOfFuel
          end
    end.

(** The test that decides whether the child is started with debug
    arguments.  With a null [header] the [memcmp] would read through a
    null pointer. *)
Definition kernel_debug_requested : bool :=
  match getenv "ENABLE_KERNEL_DEBUG" with
  | Some v => String.eqb v "true"
  | None => false
  end.

Definition has_debug_data (h : xclBin) : bool :=
  memcmp_eq (xclbininmemory h) "xclbin2" 7
    && bool_decide (is_Some (get_axlf_section h DEBUG_DATA)).

(** [xclcpuemhal2::validateXclBin]: the status and the name found. *)
Definition validateXclBin (h : xclBin) : bool * string :=
  if memcmp_eq (xclbininmemory h) "xclbin0" 7
     || memcmp_eq (xclbininmemory h) "xclbin1" 7
  then (false, "")
  else if memcmp_eq (xclbininmemory h) "xclbin2" 7 then
    match get_axlf_section h EMBEDDED_METADATA with
    | Some _ => (true, xml_project_name h)
    | None => (false, "")
    end
  else (false, "").

(** The block [if(header) { ... }] of [xclLoadXclBinNewFlow]. *)
Definition load_program_new_flow (h : xclBin)
    (xmlFile binaryDirectory : string) (s : CpuemShim) : res Z :=
  let s := resetProgram s in
  let s := open_log s in
  let s := with_mFirstBinary false s in
  if memcmp_eq (xclbininmemory h) "xclbin0" 8 then Done (-1) s
  else if negb (memcmp_eq (xclbininmemory h) "xclbin2" 7) then Done (-1) s
  else
    match configure_instances h s with
    | Done None s => Done (-1) s
    | Done (Some _) s =>
        let s := init_scheduler s in
        let keepdirc := isKeepRunDirEnabled in
        let '(r, s) :=
          rpc (xclLoadXclbinContent_RPC_CALL
                 (section_size h EMBEDDED_METADATA)
                 (section_size h BITSTREAM)
                 (section_size h EMULATION_DATA) keepdirc) s in
        if r_val r =? 0 then Done (-1) s
        else
          let verbose := mLogStream_is_open s in
          let '(r, s) :=
            rpc (xclLoadBitstream_RPC_CALL xmlFile ""
                   (deviceDirectory s) binaryDirectory verbose) s in
          if r_val r =? 0 then Done (-1) s else Done 0 s
    | Exited c s => Exited c s
    | Fault s => Fault s
    | OutOfFuel => OutOfFuel
    end.

(** [CpuemShim::xclLoadXclBinNewFlow]; [validateXclBin] reads through
    [header] without a null test. *)
Definition xclLoadXclBinNewFlow (header : option xclBin) (s : CpuemShim)
  : res Z :=
  let simDontRun := isDontRun in
  let continue (s : CpuemShim) : res Z :=
    let xmlFile := "" in
    let s := makeSystemCall (deviceDirectory s) CREATE "" s in
    let s := makeSystemCall (deviceDirectory s) PERMISSIONS "777" s in
    let binaryDirectory :=
      deviceDirectory s +:+ "/binary_" +:+ to_string (binaryCounter s) in
    let s := makeSystemCall binaryDirectory CREATE "" s in
    let s := makeSystemCall binaryDirectory PERMISSIONS "777" s in
    let s := with_binaryCounter (u32 (binaryCounter s + 1)) s in
    let s :=
      match sock s with
      | Some _ => s
      | None =>
          let sk := new_unix_socket (Some true) (trace s) in
          with_sock (Some sk) (emit (EvNewSocket (Some true)) s)
      end in
    match header with
    | Some h => load_program_new_flow h xmlFile binaryDirectory s
    | None => Done 0 s
    end in
  if negb simDontRun then
    if negb (isRemotePortMapped s) && negb dev_mem_ok then Exited (-1) s
    else
      let s :=
        if negb (isRemotePortMapped s)
        then with_isRemotePortMapped true (emit EvRemotePortMap s) else s in
      match header with
      | None => Fault s
      | Some h =>
          let '(ok, xclBinName) := validateXclBin h in
          if negb ok then Done 1 s
          else
            let xclBinName := xclBinName +:+ ".xclbin" in
            continue (emit (EvPlLauncher xclBinName) s)
      end
  else continue s.

(** [CpuemShim::xclLoadXclBin] *)
Definition xclLoadXclBin (fuel : nat) (header : option xclBin) (s : CpuemShim)
  : res Z :=
  if isAieEnabled header then xclLoadXclBinNewFlow header s
  else
    match dumpXML fuel header "" s with
    | Done (result, xmlFile) s =>
        if negb (result =? 0) then Done result s
        else
          match kernel_debug_requested, header with
          | true, None => Fault s
          | requested, _ =>
              let debuggable :=
                requested
                  && match header with
                     | Some h => has_debug_data h
                     | None => false
                     end in
              let '(binaryDirectory, s) := launchDeviceProcess debuggable s in
              match header with
              | Some h => load_program fuel h xmlFile binaryDirectory s
              | None => Done 0 s
              end
          end
    | Exited c s => Exited c s
    | Fault s => Fault s
    | OutOfFuel => OutOfFuel
    end.

End Shim.

Arguments Done {P A} a s.
Arguments Exited {P A} code s.
Arguments Fault {P A} s.
Arguments OutOfFuel {P A}.

(** ** A concrete platform for worked examples

    One bank manager that hands out addresses in increasing order, a peer
    given as a function, no debug port, no logging. *)

Module Demo.

Record Bank : Type := { bk_start : Z; bk_size : Z; bk_used : Z }.

Definition page_align (n : Z) : Z := (n + 4095) / 4096 * 4096.

Definition bank_alloc (b : Bank) (n : Z) : Z * Z * Bank :=
  let n := page_align n in
  if bk_used b + n <=? bk_size b
  then (bk_start b + bk_used b, n,
        {| bk_start := bk_start b; bk_size := bk_size b;
           bk_used := bk_used b + n |})
  else (2 ^ 64 - 1, n, b).

Definition bank_free (b : Bank) (addr : Z) : Bank := b.

Definition platform (peer : list Event -> RpcCall -> Reply) : Platform :=
  {| MemoryManager := Bank;
     mNull := 2 ^ 64 - 1;
     mm_alloc := bank_alloc;
     mm_free := bank_free;
     mm_start := bk_start;
     mm_size := bk_size;
     mNullBO := 2 ^ 32 - 1;
     DDR_BUFFER_ALIGNMENT := 64;
     xocl_bo_ddr_idx := fun flags => Z.land flags 0xFFFF;
     no_host_memory := fun _ => false;
     xocl_bo_host_only := fun _ => false;
     peer_reply := peer;
     new_unix_socket := fun _ _ => {| get_name := "device0_sock" |};
     isDontRun := false;
     isKeepRunDirEnabled := false;
     getServerPort := 0;
     get_hal_logging := "";
     getenv := fun _ => None;
     getpid := 4242;
     GetCurrentDir := Some "/work";
     fopen_wb_ok := fun _ => true;
     dev_mem_ok := true |}.

(** A peer that acknowledges every call and completes every request. *)
Definition ack_all (_ : list Event) (_ : RpcCall) : Reply :=
  {| r_val := 1; r_str := "" |}.

(** A peer that refuses every call and completes nothing. *)
Definition nak_all (_ : list Event) (_ : RpcCall) : Reply :=
  {| r_val := 0; r_str := "" |}.

(** A peer that reports eight bytes for the requests numbered below 2 and
    nothing for the others. *)
Definition first_two_done (_ : list Event) (c : RpcCall) : Reply :=
  match c with
  | xclPollCompletion_RPC_CALL reqCounter _ =>
      {| r_val := if reqCounter <? 2 then 8 else 0; r_str := "" |}
  | _ => {| r_val := 1; r_str := "" |}
  end.

(** The object as the constructor leaves it: one bank of 1 MiB at
    address 0, the default message size. *)
Definition fresh (peer : list Event -> RpcCall -> Reply)
  : @CpuemShim (platform peer) :=
  {| sock := None; binaryCounter := 0; mBufferCount := 0;
     mXoclObjMap := ∅;
     mDDRMemoryManager :=
       [{| bk_start := 0; bk_size := 0x100000; bk_used := 0 |}
          : @MemoryManager (platform peer)];
     mDDRBankCount := 1; mReqList := []; mReqCounter := 0;
     message_size := 0x800000; mLogStream_is_open := false;
     mFirstBinary := true; mIsKdsSwEmu := false; mSWSch := false;
     mFdToFileNameMap := ∅; isRemotePortMapped := false;
     mDeviceIndex := 0; deviceName := "device0";
     deviceDirectory := "/run/4242/sw_emu/device0";
     files := []; trace := [] |}.

(** The same object once the device process runs. *)
Definition started (peer : list Event -> RpcCall -> Reply)
  : @CpuemShim (platform peer) :=
  @ensure_launched (platform peer) (fresh peer).

(** ... and after one buffer of 4 KiB was created in it (handle 0). *)
Definition with_one_bo (peer : list Event -> RpcCall -> Reply)
  : @CpuemShim (platform peer) :=
  snd (@xclAllocBO (platform peer) 4096 0 0 (started peer)).

Definition request (n : Z) : StreamReq :=
  {| rq_counter := n; rq_priv := 1000 + n; rq_vaLenMap := {[ 0x7000 + n := 8 ]} |}.

(** Five outstanding streaming requests, numbered 0 to 4. *)
Definition with_five_requests (peer : list Event -> RpcCall -> Reply)
  : @CpuemShim (platform peer) :=
  @with_mReqList (platform peer) (map request [0; 1; 2; 3; 4]) (started peer).

(** A container of the previous generation: the magic is [xclbin1]. *)
Definition legacy_container : xclBin :=
  {| xclbininmemory := literal_bytes "xclbin1";
     get_axlf_section := fun _ => Some {| m_sectionOffset := 64;
                                          m_sectionSize := 16 |};
     m_mem_data := []; m_connection := [];
     xml_project_name := "vadd" |}.

(** A current container with metadata, a bitstream and a two-instance
    connectivity table. *)
Definition good_container : xclBin :=
  {| xclbininmemory := literal_bytes "xclbin2";
     get_axlf_section :=
       fun k =>
         match k with
         | EMBEDDED_METADATA =>
             Some {| m_sectionOffset := 64; m_sectionSize := 16 |}
         | BITSTREAM => Some {| m_sectionOffset := 80; m_sectionSize := 32 |}
         | ASK_GROUP_TOPOLOGY =>
             Some {| m_sectionOffset := 112; m_sectionSize := 8 |}
         | CONNECTIVITY =>
             Some {| m_sectionOffset := 120; m_sectionSize := 8 |}
         | _ => None
         end;
     m_mem_data :=
       [{| m_type := MEM_STREAMING; route_id := 1; flow_id := 0x10001;
           m_tag := "s0" |};
        {| m_type := MEM_DDR; route_id := 0; flow_id := 0x20000;
           m_tag := "bank0" |}];
     m_connection :=
       [{| arg_index := 0; mem_data_index := 0 |};
        {| arg_index := 1; mem_data_index := 1 |}];
     xml_project_name := "vadd" |}.

End Demo.

(** * More of the shim

    The functions around the ones above: the bank set-up of the
    constructor, the older allocation entry point, the user-pointer
    variant of buffer creation, closing the device, and the submission
    side of the streaming queues. *)

(** One entry of the bank list handed to the constructor. *)
Record DDRBank : Type := { ddrSize : Z }.

(** The queue messages ([xclWriteQueue_RPC_CALL], [xclReadQueue_RPC_CALL])
    with the arguments of the call site and the two locals the call site
    prepares for the macro. *)
Inductive QueueCall : Type :=
| xclWriteQueue_RPC_CALL (q_hdl va len : Z) (eot nonBlocking : bool)
| xclReadQueue_RPC_CALL (q_hdl dest len : Z) (eot nonBlocking : bool).

Record xclReqBuffer : Type := { buf_va : Z; buf_len : Z }.

(** [xclQueueRequest]: [buf_num] is the length of [qr_bufs]. *)
Record xclQueueRequest : Type := {
  qr_flag : Z;
  qr_bufs : list xclReqBuffer;
  qr_priv_data : Z
}.

Definition s64 (x : Z) : Z := (x + 2 ^ 63) mod 2 ^ 64 - 2 ^ 63.

(** What these functions take from other files, beyond [Platform]: the
    constructor of the memory manager, the page size, what [waitpid]
    returns at its n-th call after a given history, the request flags of
    xclhal2.h, and what the peer answers to a queue message, given the
    queue messages before it. *)
Class Host {P : Platform} : Type := {
  new_MemoryManager : Z -> Z -> Z -> MemoryManager;
  getpagesize : Z;
  waitpid : list Event -> nat -> Z;
  XCL_QUEUE_REQ_EOT : Z;
  XCL_QUEUE_REQ_NONBLOCKING : Z;
  queue_reply : list QueueCall -> QueueCall -> Z
}.

Section ShimMore.
Context {P : Platform} {H : Host}.

Definition with_mReqCounter (v : Z) (s : CpuemShim) : CpuemShim :=
  {| sock := sock s; binaryCounter := binaryCounter s;
     mBufferCount := mBufferCount s; mXoclObjMap := mXoclObjMap s;
     mDDRMemoryManager := mDDRMemoryManager s;
     mDDRBankCount := mDDRBankCount s; mReqList := mReqList s;
     mReqCounter := v; message_size := message_size s;
     mLogStream_is_open := mLogStream_is_open s;
     mFirstBinary := mFirstBinary s; mIsKdsSwEmu := mIsKdsSwEmu s;
     mSWSch := mSWSch s; mFdToFileNameMap := mFdToFileNameMap s;
     isRemotePortMapped := isRemotePortMapped s;
     mDeviceIndex := mDeviceIndex s; deviceName := deviceName s;
     deviceDirectory := deviceDirectory s; files := files s;
     trace := trace s |}.

(** ** Bank set-up *)

(** The loop of [CpuemShim::initMemoryManager]: one manager per bank,
    each starting at the running [base]. *)
Fixpoint bank_managers (banks : list DDRBank) (base : Z)
  : list MemoryManager :=
  match banks with
  | [] => []
  | b :: rest =>
      let bankSize := ddrSize b in
      new_MemoryManager bankSize base getpagesize
        :: bank_managers rest (u64 (base + bankSize))
  end.

(** [CpuemShim::initMemoryManager].  The copy of the list kept in
    [mDdrBanks] is not read by any function embedded here. *)
Definition initMemoryManager (DDRBankList : list DDRBank) (s : CpuemShim)
  : CpuemShim :=
  with_mDDRMemoryManager
    (mDDRMemoryManager s ++ bank_managers DDRBankList 0) s.

(** ** The older allocation entry point *)

(** The loop of [xclAllocDeviceBuffer] over the banks: [result] starts as
    [mNull], every bank is asked in turn until one answers something
    else.  [size] is the reference argument of [alloc]. *)
Fixpoint alloc_first_fit (banks : list MemoryManager) (size : Z)
  : Z * Z * list MemoryManager :=
  match banks with
  | [] => (mNull, size, [])
  | i :: rest =>
      let '(result, size, i') := mm_alloc i size in
      if negb (result =? mNull) then (result, size, i' :: rest)
      else
        let '(result, size, rest') := alloc_first_fit rest size in
        (result, size, i' :: rest')
  end.

(** [CpuemShim::xclAllocDeviceBuffer] *)
Definition xclAllocDeviceBuffer (size : Z) (s : CpuemShim) : Z * CpuemShim :=
  let requestedSize := size in
  let s := ensure_launched s in
  let size := if size =? 0 then DDR_BUFFER_ALIGNMENT else size in
  let '(result, _, banks) := alloc_first_fit (mDDRMemoryManager s) size in
  let s := with_mDDRMemoryManager banks s in
  let noHostMemory := false in
  let '(r, s) :=
    rpc (xclAllocDeviceBuffer_RPC_CALL result requestedSize noHostMemory) s in
  let ack := negb (r_val r =? 0) in
  if negb ack then (0, s) else (result, s).

(** ** Buffer creation around a caller's pointer *)

Definition set_userptr (userptr : Z) (bo : drm_xocl_bo) : drm_xocl_bo :=
  {| bo_base := bo_base bo; bo_size := bo_size bo; bo_flags := bo_flags bo;
     bo_filename := bo_filename bo; bo_userptr := userptr;
     bo_buf := bo_buf bo; bo_fd := bo_fd bo |}.

(** [CpuemShim::xclAllocUserPtrBO]: the record is looked up under
    [info.handle] whether or not the creation succeeded. *)
Definition xclAllocUserPtrBO (userptr size flags : Z) (s : CpuemShim)
  : Z * CpuemShim :=
  let info := {| cb_size := size; cb_handle := mNullBO; cb_flags := flags |} in
  let '(result, info, s) := xoclCreateBo info s in
  let s :=
    match xclGetBoByHandle (cb_handle info) s with
    | Some bo =>
        with_registry (mBufferCount s)
          (<[cb_handle info := set_userptr userptr bo]> (mXoclObjMap s)) s
    | None => s
    end in
  (if negb (result =? 0) then mNullBO else cb_handle info, s).

(** ** Closing the device *)

(** The loop [while (-1 == waitpid(0, &status, 0));] of [xclClose]. *)
Fixpoint wait_for_child (fuel : nat) (attempt : nat) (tr : list Event)
  : option nat :=
  if waitpid tr attempt =? -1 then
    match fuel with
    | O => None
    | S fuel => wait_for_child fuel (S attempt) tr
    end
  else Some attempt.

Definition close_mappings (s : CpuemShim) : CpuemShim :=
  let fds := merge_sort Z.le (elements (dom (mFdToFileNameMap s))) in
  let s := foldl (fun s fd => emit (EvMunmapClose fd) s) s fds in
  with_mFdToFileNameMap ∅ s.

(** [CpuemShim::xclClose].  The reset of [mCoreDevice], the flag
    [mCloseAll] (set and cleared around the close message), the grace
    [sleep] and the protobuf shutdown touch nothing that is embedded
    here. *)
Definition xclClose (fuel : nat) (s : CpuemShim) : option CpuemShim :=
  match sock s with
  | None =>
      let s :=
        if negb isKeepRunDirEnabled
        then makeSystemCall (deviceDirectory s) REMOVE "" s else s in
      Some (fini_scheduler s)
  | Some sk =>
      let s := close_mappings s in
      let socketName := get_name sk in
      let s :=
        if negb (String.eqb socketName "")
        then snd (rpc xclClose_RPC_CALL s) else s in
      let simDontRun := isDontRun in
      match (if negb simDontRun then wait_for_child fuel 0 (trace s)
             else Some O) with
      | None => None
      | Some _ =>
          let s := makeSystemCall socketName REMOVE "" s in
          let s := with_sock None s in
          let s := fini_scheduler s in
          let s :=
            if negb isKeepRunDirEnabled
            then makeSystemCall (deviceDirectory s) REMOVE "" s else s in
          Some s
      end
  end.

(** ** Streaming queues: submission

    The queue messages are logged next to the object, in [q_sent]. *)

Record QdmaShim : Type := {
  q_shim : CpuemShim;
  q_sent : list QueueCall
}.

Definition has_flag (flag mask : Z) : bool := negb (Z.land flag mask =? 0).

(** [vaLenMap[bufs[i].va] = bufs[i].len] for every buffer in turn. *)
Definition vaLenMap_of (bufs : list xclReqBuffer) : gmap Z Z :=
  foldl (fun m b => <[buf_va b := buf_len b]> m) ∅ bufs.

(** [mReqList.push_back(std::make_tuple(mReqCounter, priv_data, vaLenMap))] *)
Definition push_request (req : xclQueueRequest) (s : CpuemShim) : CpuemShim :=
  with_mReqList
    (mReqList s
       ++ [{| rq_counter := mReqCounter s; rq_priv := qr_priv_data req;
              rq_vaLenMap := vaLenMap_of (qr_bufs req) |}]) s.

(** The loop of [xclWriteQueue] over the buffers. *)
Fixpoint write_bufs (q_hdl : Z) (eot nonBlocking : bool)
    (bufs : list xclReqBuffer) (fullSize : Z) (sent : list QueueCall)
  : Z * list QueueCall :=
  match bufs with
  | [] => (fullSize, sent)
  | b :: rest =>
      let c :=
        xclWriteQueue_RPC_CALL q_hdl (buf_va b) (buf_len b) eot nonBlocking in
      let written_size := queue_reply sent c in
      write_bufs q_hdl eot nonBlocking rest (u64 (fullSize + written_size))
        (sent ++ [c])
  end.

(** [CpuemShim::xclWriteQueue]; the result is an [ssize_t]. *)
Definition xclWriteQueue (q_hdl : Z) (wr : xclQueueRequest) (q : QdmaShim)
  : Z * QdmaShim :=
  let eot := has_flag (qr_flag wr) XCL_QUEUE_REQ_EOT in
  let nonBlocking := has_flag (qr_flag wr) XCL_QUEUE_REQ_NONBLOCKING in
  let s := if nonBlocking then push_request wr (q_shim q) else q_shim q in
  let '(fullSize, sent) :=
    write_bufs q_hdl eot nonBlocking (qr_bufs wr) 0 (q_sent q) in
  let s := with_mReqCounter (u64 (mReqCounter s + 1)) s in
  (s64 fullSize, {| q_shim := s; q_sent := sent |}).

(** The [do ... while (read_size == 0 && !nonBlocking)] of
    [xclReadQueue] for one buffer. *)
Fixpoint read_buf (fuel : nat) (q_hdl dest len : Z) (eot nonBlocking : bool)
    (sent : list QueueCall) : option (Z * list QueueCall) :=
  match fuel with
  | O => None
  | S fuel =>
      let c := xclReadQueue_RPC_CALL q_hdl dest len eot nonBlocking in
      let read_size := queue_reply sent c in
      let sent := (sent ++ [c])%list in
      if (read_size =? 0) && negb nonBlocking
      then read_buf fuel q_hdl dest len eot nonBlocking sent
      else Some (read_size, sent)
  end.

Fixpoint read_bufs (fuel : nat) (q_hdl : Z) (eot nonBlocking : bool)
    (bufs : list xclReqBuffer) (fullSize : Z) (sent : list QueueCall)
  : option (Z * list QueueCall) :=
  match bufs with
  | [] => Some (fullSize, sent)
  | b :: rest =>
      match read_buf fuel q_hdl (buf_va b) (buf_len b) eot nonBlocking sent
      with
      | None => None
      | Some (read_size, sent) =>
          read_bufs fuel q_hdl eot nonBlocking rest
            (u64 (fullSize + read_size)) sent
      end
  end.

(** [CpuemShim::xclReadQueue]; [fuel] bounds the tries per buffer. *)
Definition xclReadQueue (fuel : nat) (q_hdl : Z) (rd : xclQueueRequest)
    (q : QdmaShim) : option (Z * QdmaShim) :=
  let eot := has_flag (qr_flag rd) XCL_QUEUE_REQ_EOT in
  let nonBlocking := has_flag (qr_flag rd) XCL_QUEUE_REQ_NONBLOCKING in
  let s := if nonBlocking then push_request rd (q_shim q) else q_shim q in
  match read_bufs fuel q_hdl eot nonBlocking (qr_bufs rd) 0 (q_sent q) with
  | None => None
  | Some (fullSize, sent) =>
      let s := with_mReqCounter (u64 (mReqCounter s + 1)) s in
      Some (s64 fullSize, {| q_shim := s; q_sent := sent |})
  end.

(** [xclPollCompletion] on the object of a [QdmaShim]. *)
Definition q_poll (fuel : nat) (min_compl max_compl : Z)
    (comps : gmap Z xclReqCompletion) (timeout : Z) (q : QdmaShim)
  : option (Z * gmap Z xclReqCompletion * QdmaShim) :=
  match xclPollCompletion fuel min_compl max_compl comps timeout (q_shim q)
  with
  | None => None
  | Some (actual, comps, s) =>
      Some (actual, comps, {| q_shim := s; q_sent := q_sent q |})
  end.

(** ** What the registry and the request list are expected to satisfy *)

(** Every registered handle is below the handle counter. *)
Definition handles_below_count (s : CpuemShim) : Prop :=
  forall h, is_Some (mXoclObjMap s !! h) -> 0 <= h < mBufferCount s.

(** The sequence numbers of the outstanding requests increase along the
    list and stay below the request counter. *)
Fixpoint increasing_below (bound : Z) (l : list Z) : Prop :=
  match l with
  | [] => True
  | x :: rest =>
      x < bound /\ Forall (fun y => x < y) rest /\ increasing_below bound rest
  end.

Definition requests_ordered (s : CpuemShim) : Prop :=
  increasing_below (mReqCounter s) (rq_counter <$> mReqList s).

(** The bytes carried by the copy messages of a trace. *)
Definition copied_bytes (e : Event) : Z :=
  match e with
  | EvRpc (xclCopyBufferHost2Device_RPC_CALL _ _ c_size _ _) => c_size
  | EvRpc (xclCopyBufferDevice2Host_RPC_CALL _ _ c_size _ _) => c_size
  | _ => 0
  end.

Definition is_munmap (e : Event) : bool :=
  match e with EvMunmapClose _ => true | _ => false end.

Definition is_fork (e : Event) : bool :=
  match e with EvFork _ => true | _ => false end.

Definition is_new_socket (e : Event) : bool :=
  match e with EvNewSocket _ => true | _ => false end.


(** [n] launches in a row. *)
Fixpoint launch_times (n : nat) (debuggable : bool) (s : CpuemShim)
  : CpuemShim :=
  match n with
  | O => s
  | S n => launch_times n debuggable (launchDeviceProcess debuggable s).2
  end.

(** ** Vocabulary for the statements about these functions *)

(** The sum of the sizes of a list of banks. *)
Fixpoint total_size (banks : list DDRBank) : Z :=
  match banks with
  | [] => 0
  | b :: rest => ddrSize b + total_size rest
  end.

(** The copy that [saveDeviceProcessOutput] asks for, for the binary
    directory number [i]. *)
Definition copy_output_call (s : CpuemShim) (path : string) (i : Z) : Event :=
  EvSystemCall
    ((deviceDirectory s +:+ "/binary_" +:+ to_string i)
       +:+ "/genericpcieoutput")
    COPY
    (path +:+ "/genericpcieoutput_device" +:+ to_string (mDeviceIndex s)
       +:+ "_" +:+ to_string i).





(** The files that are at least as long as a given name. *)
Definition at_least_as_long (n : nat) (fs : list string) : list string :=
  List.filter (fun f => (n <=? String.length f)%nat) fs.

(** The parts of the object that the steps of a load hand on unchanged. *)
Definition steady (s s' : CpuemShim) : Prop :=
  sock s' = sock s /\ binaryCounter s' = binaryCounter s
  /\ mFirstBinary s' = mFirstBinary s
  /\ mFdToFileNameMap s' = mFdToFileNameMap s
  /\ deviceDirectory s' = deviceDirectory s
  /\ mXoclObjMap s' = mXoclObjMap s
  /\ mDDRMemoryManager s' = mDDRMemoryManager s
  /\ mBufferCount s' = mBufferCount s.

Definition is_load_bitstream (c : RpcCall) : bool :=
  match c with xclLoadBitstream_RPC_CALL _ _ _ _ _ => true | _ => false end.

(** The state a successful load leaves behind, seen from the state [s]
    before it: the session is open, the binary counter moved on by one, no
    mapping is left, and the last thing that happened is a bitstream
    message that the peer acknowledged. *)
Definition loaded (s s' : CpuemShim) : Prop :=
  is_Some (sock s')
  /\ binaryCounter s' = u32 (binaryCounter s + 1)
  /\ mFirstBinary s' = false
  /\ mFdToFileNameMap s' = ∅
  /\ exists tr c,
       trace s' = (tr ++ [EvRpc c])%list
       /\ is_load_bitstream c = true
       /\ r_val (peer_reply tr c) <> 0.

(** What a poll leaves in the caller's array between two values of
    [*actual]: the slots in between are filled with completions of
    requests out of [reqs], the others are as before. *)
Definition slots_filled (reqs : list StreamReq) (lo hi : Z)
    (comps comps' : gmap Z xclReqCompletion) : Prop :=
  (forall i, lo <= i < hi ->
     exists c, comps' !! i = Some c /\ 0 < nbytes c
               /\ priv_data c ∈ rq_priv <$> reqs)
  /\ (forall i, ~ lo <= i < hi -> comps' !! i = comps !! i).



(** Every bank of a list is asked in turn and answers [mNull]; the result
    is the size the last one left and the banks afterwards.  [None] when
    one of them answers an address. *)
Fixpoint refuse_all (banks : list MemoryManager) (size : Z)
  : option (Z * list MemoryManager) :=
  match banks with
  | [] => Some (size, [])
  | b :: rest =>
      let '(result, size, b') := mm_alloc b size in
      if result =? mNull then
        match refuse_all rest size with
        | Some (size, rest') => Some (size, b' :: rest')
        | None => None
        end
      else None
  end.

Definition sum_Z (l : list Z) : Z := foldr Z.add 0 l.

Definition is_rpc (e : Event) : bool :=
  match e with EvRpc _ => true | _ => false end.

End ShimMore.

(** ** A concrete host for worked examples

    The platform of [Demo] with a memory manager constructor for its
    banks, a [waitpid] that is interrupted twice before it reports the
    child, the request flags of xclhal2.h, and a queue peer given as a
    function. *)

Module DemoMore.

Definition host (peer : list Event -> RpcCall -> Reply)
    (qpeer : list QueueCall -> QueueCall -> Z) : @Host (Demo.platform peer) :=
  {| new_MemoryManager :=
       fun size start _ =>
         ({| Demo.bk_start := start; Demo.bk_size := size; Demo.bk_used := 0 |}
            : @MemoryManager (Demo.platform peer));
     getpagesize := 4096;
     waitpid := fun _ n => if (n <? 2)%nat then -1 else 4243;
     XCL_QUEUE_REQ_EOT := 1;
     XCL_QUEUE_REQ_NONBLOCKING := 4;
     queue_reply := qpeer |}.

(** A queue peer that takes or delivers every buffer in full, and one that
    has nothing. *)
Definition q_all (_ : list QueueCall) (c : QueueCall) : Z :=
  match c with
  | xclWriteQueue_RPC_CALL _ _ len _ _ => len
  | xclReadQueue_RPC_CALL _ _ len _ _ => len
  end.

Definition q_none (_ : list QueueCall) (_ : QueueCall) : Z := 0.

(** The running device of [Demo] with no queue message sent yet. *)
Definition qdma (peer : list Event -> RpcCall -> Reply)
  : @QdmaShim (Demo.platform peer) :=
  {| q_shim := Demo.started peer; q_sent := [] |}.

(** A non-blocking request with two buffers, and a blocking one with one. *)
Definition nonblocking_request : xclQueueRequest :=
  {| qr_flag := 4;
     qr_bufs := [{| buf_va := 0x7000; buf_len := 8 |};
                 {| buf_va := 0x8000; buf_len := 16 |}];
     qr_priv_data := 1000 |}.

Definition blocking_request : xclQueueRequest :=
  {| qr_flag := 0;
     qr_bufs := [{| buf_va := 0x7000; buf_len := 8 |}];
     qr_priv_data := 1001 |}.

(** The banks of a device with 1 MiB and 2 MiB, and the object before its
    banks are set up. *)
Definition two_banks : list DDRBank :=
  [{| ddrSize := 0x100000 |}; {| ddrSize := 0x200000 |}].

Definition without_banks (peer : list Event -> RpcCall -> Reply)
  : @CpuemShim (Demo.platform peer) :=
  @with_mDDRMemoryManager (Demo.platform peer) [] (Demo.fresh peer).

(** The running device with two exported buffers mapped. *)
Definition with_two_mappings (peer : list Event -> RpcCall -> Reply)
  : @CpuemShim (Demo.platform peer) :=
  @with_mFdToFileNameMap (Demo.platform peer)
    {[ 9 := ("/dev/shm/b", 4096, 0x8000); 5 := ("/dev/shm/a", 4096, 0x7000) ]}
    (Demo.started peer).

(** The new object in a run directory where the first name for the
    metadata file is taken. *)
Definition with_xmltmp (peer : list Event -> RpcCall -> Reply)
  : @CpuemShim (Demo.platform peer) :=
  @with_files (Demo.platform peer)
    ["/run/4242/sw_emu/device0/binary_0/xmltmp"] (Demo.fresh peer).

(** A container with the current magic and no section at all. *)
Definition bare_container : xclBin :=
  {| xclbininmemory := literal_bytes "xclbin2";
     get_axlf_section := fun _ => None;
     m_mem_data := []; m_connection := [];
     xml_project_name := "bare" |}.

(** Five outstanding requests numbered 0 to 4 with the request counter
    at 5. *)
Definition five_ordered (peer : list Event -> RpcCall -> Reply)
  : @CpuemShim (Demo.platform peer) :=
  @with_mReqCounter (Demo.platform peer) 5 (Demo.with_five_requests peer).



End DemoMore.

(** * Properties *)

Section Properties.
Context {P : Platform}.

Local Arguments Z.eqb : simpl never.
Local Arguments Z.leb : simpl never.
Local Arguments Z.ltb : simpl never.

(** ** What launching leaves alone *)

Lemma launchDeviceProcess_registry debuggable s :
  let s' := snd (launchDeviceProcess debuggable s) in
  mXoclObjMap s' = mXoclObjMap s /\ mBufferCount s' = mBufferCount s
  /\ mDDRMemoryManager s' = mDDRMemoryManager s
  /\ mDDRBankCount s' = mDDRBankCount s
  /\ message_size s' = message_size s /\ mReqList s' = mReqList s.
Proof.
  unfold launchDeviceProcess, parseIni. simpl.
  destruct (sock s); simpl; [tauto|].
  destruct isDontRun; simpl; tauto.
Qed.

Lemma launchDeviceProcess_opens debuggable s :
  is_Some (sock (snd (launchDeviceProcess debuggable s))).
Proof.
  unfold launchDeviceProcess, parseIni. simpl.
  destruct (sock s) eqn:E; simpl; [rewrite E; eauto|].
  destruct isDontRun; simpl; eauto.
Qed.

Lemma ensure_launched_registry s :
  let s' := ensure_launched s in
  mXoclObjMap s' = mXoclObjMap s /\ mBufferCount s' = mBufferCount s
  /\ mDDRMemoryManager s' = mDDRMemoryManager s
  /\ mDDRBankCount s' = mDDRBankCount s
  /\ message_size s' = message_size s /\ mReqList s' = mReqList s.
Proof.
  unfold ensure_launched. destruct (sock s); [tauto|].
  unfold launchTempProcess.
  pose proof (launchDeviceProcess_registry false s) as H.
  destruct (launchDeviceProcess false s) as [d s1]. simpl in *. exact H.
Qed.

Lemma ensure_launched_started s sk :
  sock s = Some sk -> ensure_launched s = s.
Proof. unfold ensure_launched. intros ->. reflexivity. Qed.

(** ** Register access without a channel *)

(** C10.  With no socket, [xclWrite] and [xclRead] return the requested
    size and leave the object as it was, whatever the address space and
    the size: nothing is forwarded, no channel is opened, no argument is
    checked. *)
Theorem xclWrite_xclRead_without_socket :
  forall (space : xclAddressSpace) (offset hostBuf size : Z) (s : CpuemShim),
    sock s = None ->
    xclWrite space offset hostBuf size s = (size, s)
    /\ xclRead space offset hostBuf size s = (size, s).
Proof.
  intros space offset hostBuf size s Hs.
  unfold xclWrite, xclRead. rewrite Hs. split; reflexivity.
Qed.

(** With a socket the same arguments are checked. *)
Lemma xclWrite_checks_with_socket space offset hostBuf size s sk :
  sock s = Some sk ->
  is_XCL_ADDR_KERNEL_CTRL space = false \/ size mod 4 <> 0 ->
  xclWrite space offset hostBuf size s = (u64 (-1), s).
Proof.
  intros Hs H. unfold xclWrite. rewrite Hs.
  destruct (is_XCL_ADDR_KERNEL_CTRL space); simpl; [|reflexivity].
  destruct H as [H|H]; [discriminate|].
  apply Z.eqb_neq in H. rewrite H. reflexivity.
Qed.

(** ** Buffer registry *)

(** C7 (as the code has it).  [xclFreeBO] on a handle that is not in the
    registry returns like any other call of this [void] function and
    leaves the whole object unchanged; in particular every handle still
    maps to the record it had. *)
Theorem xclFreeBO_unknown_handle :
  forall (boHandle : Z) (s : CpuemShim),
    mXoclObjMap s !! boHandle = None ->
    xclFreeBO boHandle s = (tt, s)
    /\ forall h, xclGetBoByHandle h (snd (xclFreeBO boHandle s))
                 = xclGetBoByHandle h s.
Proof.
  intros boHandle s H. unfold xclFreeBO. rewrite H. split; reflexivity.
Qed.


Lemma lookup_in_range {A} (l : list A) (i : Z) (x : A) :
  l !! Z.to_nat i = Some x -> (Z.of_nat (length l) <=? i) = false.
Proof.
  intros H. apply lookup_lt_Some in H. apply Z.leb_gt. lia.
Qed.

(** C5.  When the allocator of the selected bank answers [mNull], the
    call returns [mNullBO], the registry holds the records it held and
    the handle counter has not moved. *)
Theorem xclAllocBO_allocator_failure :
  forall (size unused flags : Z) (s : CpuemShim) (bank : MemoryManager),
    mDDRMemoryManager s !! Z.to_nat (selected_bank flags s) = Some bank ->
    (mm_alloc bank size).1.1 = mNull ->
    (xclAllocBO size unused flags s).1 = mNullBO
    /\ mXoclObjMap (xclAllocBO size unused flags s).2 = mXoclObjMap s
    /\ mBufferCount (xclAllocBO size unused flags s).2 = mBufferCount s.
Proof.
  intros size unused flags s bank Hbank Hfail.
  unfold xclAllocBO, xoclCreateBo. simpl.
  destruct (size =? 0) eqn:Hsz; [simpl; auto|].
  fold (selected_bank flags s).
  unfold xclAllocDeviceBuffer2. simpl. rewrite Hsz.
  destruct (ensure_launched_registry s) as (Hm & Hc & Hb & _).
  rewrite Hb, Hbank, (lookup_in_range _ _ _ Hbank).
  destruct (mm_alloc bank size) as [[result size'] bank'] eqn:Ha.
  simpl in Hfail. subst result. rewrite Z.eqb_refl. simpl.
  rewrite Z.eqb_refl. simpl.
  destruct (mNull =? 0); simpl; auto.
Qed.

(** C8 (as the code has it).  A bank selector at or above
    [mDDRBankCount] is replaced by 0.
    The call is a total function of its arguments; with no bank manager
    at all it fails with [mNullBO]; otherwise the request goes to the
    manager of bank 0 and to no other, and the record registered under the
    new handle carries the address that manager returned (once the peer
    has acknowledged the allocation message; a refusal makes
    [xclAllocDeviceBuffer2] return 0, for any bank). *)
Theorem xclAllocBO_bank_out_of_range :
  forall (size unused flags : Z) (s : CpuemShim),
    size <> 0 ->
    xocl_ddr_channel_count s <= xocl_bo_ddr_idx flags ->
    selected_bank flags s = 0
    /\ match mDDRMemoryManager s with
       | [] =>
           (xclAllocBO size unused flags s).1 = mNullBO
           /\ mXoclObjMap (xclAllocBO size unused flags s).2 = mXoclObjMap s
       | bank0 :: others =>
           let addr := (mm_alloc bank0 size).1.1 in
           let size' := (mm_alloc bank0 size).1.2 in
           let noHostMemory :=
             no_host_memory flags || xocl_bo_host_only flags in
           let reply :=
             peer_reply (trace (ensure_launched s))
               (xclAllocDeviceBuffer_RPC_CALL addr size' noHostMemory) in
           let h := (xclAllocBO size unused flags s).1 in
           let s' := (xclAllocBO size unused flags s).2 in
           mDDRMemoryManager s' = (mm_alloc bank0 size).2 :: others
           /\ (addr = mNull ->
               h = mNullBO /\ mXoclObjMap s' = mXoclObjMap s)
           /\ (addr <> mNull -> r_val reply <> 0 ->
               h = mBufferCount s
               /\ exists bo, mXoclObjMap s' !! h = Some bo
                    /\ bo_base bo = addr /\ bo_size bo = size')
           /\ (addr <> mNull -> r_val reply = 0 -> mNull <> 0 ->
               h = mBufferCount s
               /\ exists bo, mXoclObjMap s' !! h = Some bo
                    /\ bo_base bo = 0)
       end.
Proof.
  intros size unused flags s Hsz Hrange.
  assert (Hsel : selected_bank flags s = 0).
  { unfold selected_bank. apply Z.leb_le in Hrange. rewrite Hrange.
    reflexivity. }
  split; [exact Hsel|].
  apply Z.eqb_neq in Hsz.
  destruct (ensure_launched_registry s) as (Hm & Hc & Hb & _).
  unfold xclAllocBO, xoclCreateBo. simpl. rewrite Hsz.
  fold (selected_bank flags s). rewrite Hsel.
  unfold xclAllocDeviceBuffer2. simpl. rewrite Hsz, Hb.
  destruct (mDDRMemoryManager s) as [|bank0 others] eqn:Hbanks.
  - simpl. rewrite Z.eqb_refl. simpl. rewrite Hm.
    destruct (mNull =? 0); auto.
  - simpl length. replace (Z.of_nat (S (length others)) <=? 0) with false
      by (symmetry; apply Z.leb_gt; lia).
    simpl. destruct (mm_alloc bank0 size) as [[addr size'] bank0'] eqn:Ha.
    simpl.
    destruct (addr =? mNull) eqn:Hnull.
    + apply Z.eqb_eq in Hnull. subst addr. simpl. rewrite Z.eqb_refl. simpl.
      rewrite Hm. repeat split; try congruence.
      destruct (mNull =? 0); reflexivity.
    + apply Z.eqb_neq in Hnull.
      set (r := peer_reply _ _).
      destruct (r_val r =? 0) eqn:Hack; simpl.
      * apply Z.eqb_eq in Hack.
        destruct (0 =? mNull) eqn:H0; simpl.
        -- apply Z.eqb_eq in H0. repeat split; congruence.
        -- rewrite Hc. repeat split; try congruence.
           eexists. rewrite lookup_insert_eq. split; reflexivity.
      * apply Z.eqb_neq in Hack.
        rewrite (proj2 (Z.eqb_neq _ _) Hnull). simpl. rewrite Hc.
        split; [reflexivity|]. split; [intros; contradiction|]. split.
        -- intros _ _. split; [reflexivity|].
           eexists. rewrite lookup_insert_eq. repeat split; reflexivity.
        -- intros _ Hr. contradiction.
Qed.

(** ** Session supervisor *)

(** The three system calls that open every [launchDeviceProcess]. *)
Lemma emit3 e1 e2 e3 (s : CpuemShim) :
  trace (emit e3 (emit e2 (emit e1 s))) = (trace s ++ [e1; e2; e3])%list.
Proof. simpl. rewrite <- !app_assoc. reflexivity. Qed.

(** C9 (as the code has it).  Every call creates the device directory and
    the directory [binary_<binaryCounter>] and increments
    [binaryCounter].  With the socket open that is all: the socket is the
    one it was, no signal handler is installed, nothing is forked, no
    socket is built.  Without a socket the call goes on to build one, and
    forks the device process unless the configuration says not to run
    it. *)
Theorem launchDeviceProcess_effects :
  forall (debuggable : bool) (s : CpuemShim),
    let binaryDirectory :=
      deviceDirectory s +:+ "/binary_" +:+ to_string (binaryCounter s) in
    let dirs :=
      [EvSystemCall (deviceDirectory s) CREATE "";
       EvSystemCall binaryDirectory CREATE "";
       EvSystemCall binaryDirectory PERMISSIONS "777"] in
    (forall sk, sock s = Some sk ->
       launchDeviceProcess debuggable s
       = (binaryDirectory,
          with_binaryCounter (u32 (binaryCounter s + 1))
            (with_trace (trace s ++ dirs) s)))
    /\ (sock s = None ->
        let s' := (launchDeviceProcess debuggable s).2 in
        is_Some (sock s')
        /\ binaryCounter s' = u32 (binaryCounter s + 1)
        /\ exists evs,
             trace s' = (trace s ++ dirs ++ evs)%list
             /\ EvNewSocket None ∈ evs
             /\ (isDontRun = false ->
                 EvFork (childArgv debuggable (negb (getServerPort =? 0))
                           getServerPort) ∈ evs)).
Proof.
  intros debuggable s binaryDirectory dirs. split.
  - intros sk Hs. unfold launchDeviceProcess. simpl. rewrite Hs.
    f_equal. unfold with_binaryCounter, with_trace, emit, makeSystemCall.
    simpl. rewrite <- !app_assoc. reflexivity.
  - intros Hs. unfold launchDeviceProcess, parseIni. simpl. rewrite Hs.
    destruct isDontRun eqn:Hrun; simpl.
    + split; [eauto|]. split; [reflexivity|].
      eexists. rewrite <- !app_assoc. simpl. split; [reflexivity|].
      split; [|discriminate]. set_solver.
    + split; [eauto|]. split; [reflexivity|].
      eexists. rewrite <- !app_assoc. simpl. split; [reflexivity|].
      split; [|intros _]; set_solver.
Qed.

(** ** Loading a binary *)

(** C4.  A container whose first seven bytes are not [xclbin2] makes
    [xclLoadXclBin] return -1 with the object exactly as it was: nothing
    was created, forked or sent. *)
Theorem xclLoadXclBin_unrecognized_magic :
  forall (fuel : nat) (h : xclBin) (s : CpuemShim),
    memcmp_eq (xclbininmemory h) "xclbin2" 7 = false ->
    xclLoadXclBin fuel (Some h) s = Done (-1) s.
Proof.
  intros fuel h s Hmagic.
  unfold xclLoadXclBin, isAieEnabled, dumpXML. rewrite Hmagic.
  destruct (memcmp_eq (xclbininmemory h) "xclbin0" 8); reflexivity.
Qed.

(** ** Transfer engine *)

Lemma with_trace_id (s : CpuemShim) : with_trace (trace s ++ []) s = s.
Proof. destruct s. unfold with_trace. simpl. rewrite app_nil_r. reflexivity. Qed.

Lemma with_trace_emit (e : Event) (l : list Event) (s : CpuemShim) :
  with_trace (trace (emit e s) ++ l) (emit e s)
  = with_trace (trace s ++ e :: l) s.
Proof.
  unfold emit, with_trace. simpl. rewrite <- app_assoc. reflexivity.
Qed.

Section Chunking.
Variables (size M : Z).
Hypothesis HM : 0 < M < 2 ^ 32.
Hypothesis Hsize : 0 <= size < 2 ^ 32.

Lemma chunk_count_bounds :
  0 <= chunk_count size M
  /\ size <= chunk_count size M * M
  /\ (chunk_count size M - 1) * M < size.
Proof.
  unfold chunk_count.
  pose proof (Z.div_mod (size + M - 1) M ltac:(lia)) as Hd.
  pose proof (Z.mod_pos_bound (size + M - 1) M ltac:(lia)) as Hr.
  assert (0 <= (size + M - 1) / M) by (apply Z.div_pos; lia).
  nia.
Qed.

(** Piece [k] is a real piece: it starts inside the transfer. *)
Lemma chunk_inside k :
  0 <= k < chunk_count size M -> 0 <= k * M < size.
Proof. pose proof chunk_count_bounds. nia. Qed.

Lemma chunk_size_min k :
  0 <= k < chunk_count size M ->
  chunk_size size M (k * M) = Z.min M (size - k * M).
Proof.
  intros Hk. pose proof (chunk_inside k Hk). unfold chunk_size, u32.
  destruct (size - k * M <? M) eqn:E.
  - apply Z.ltb_lt in E. rewrite Z.mod_small by lia. lia.
  - apply Z.ltb_ge in E. lia.
Qed.

Lemma next_offset k :
  0 <= k < chunk_count size M ->
  u32 (k * M + Z.min M (size - k * M)) = Z.min ((k + 1) * M) size.
Proof.
  intros Hk. pose proof (chunk_inside k Hk). unfold u32.
  rewrite Z.mod_small by lia. lia.
Qed.

Lemma h2d_loop_chunks dest src seek :
  forall (r : nat) (k : Z) (fuel : nat) (s : CpuemShim),
    0 <= k -> k + Z.of_nat r = chunk_count size M -> (r <= fuel)%nat ->
    h2d_loop fuel dest src size seek M (Z.min (k * M) size, s)
    = Some (with_trace
              (trace s
                 ++ (h2d_message dest src seek
                       <$> (chunk_at size M <$> seqZ k (Z.of_nat r)))) s).
Proof.
  pose proof chunk_count_bounds as (Hn0 & Hn1 & Hn2).
  induction r as [|r IH]; intros k fuel s Hk Hkr Hfuel.
  - assert (Z.min (k * M) size = size) as -> by nia.
    simpl. rewrite with_trace_id.
    destruct fuel; simpl; rewrite Z.ltb_irrefl; reflexivity.
  - assert (Hin : 0 <= k < chunk_count size M) by lia.
    pose proof (chunk_inside k Hin).
    assert (Z.min (k * M) size = k * M) as -> by lia.
    destruct fuel as [|fuel]; [lia|].
    rewrite (seqZ_cons k (Z.of_nat (S r))) by lia.
    replace (Z.pred (Z.of_nat (S r))) with (Z.of_nat r) by lia.
    replace (Z.succ k) with (k + 1) by lia.
    simpl. replace (k * M <? size) with true by (symmetry; apply Z.ltb_lt; lia).
    rewrite (chunk_size_min k Hin), (next_offset k Hin).
    rewrite IH by lia.
    f_equal. apply with_trace_emit.
Qed.

Lemma d2h_loop_chunks dest src skip :
  forall (r : nat) (k : Z) (fuel : nat) (s : CpuemShim),
    0 <= k -> k + Z.of_nat r = chunk_count size M -> (r <= fuel)%nat ->
    d2h_loop fuel dest src size skip M (Z.min (k * M) size, s)
    = Some (with_trace
              (trace s
                 ++ (d2h_message dest src skip
                       <$> (chunk_at size M <$> seqZ k (Z.of_nat r)))) s).
Proof.
  pose proof chunk_count_bounds as (Hn0 & Hn1 & Hn2).
  induction r as [|r IH]; intros k fuel s Hk Hkr Hfuel.
  - assert (Z.min (k * M) size = size) as -> by nia.
    simpl. rewrite with_trace_id.
    destruct fuel; simpl; rewrite Z.ltb_irrefl; reflexivity.
  - assert (Hin : 0 <= k < chunk_count size M) by lia.
    pose proof (chunk_inside k Hin).
    assert (Z.min (k * M) size = k * M) as -> by lia.
    destruct fuel as [|fuel]; [lia|].
    rewrite (seqZ_cons k (Z.of_nat (S r))) by lia.
    replace (Z.pred (Z.of_nat (S r))) with (Z.of_nat r) by lia.
    replace (Z.succ k) with (k + 1) by lia.
    simpl. replace (k * M <? size) with true by (symmetry; apply Z.ltb_lt; lia).
    rewrite (chunk_size_min k Hin), (next_offset k Hin).
    rewrite IH by lia.
    f_equal. apply with_trace_emit.
Qed.

End Chunking.

(** Within 32 bits and with a positive message size, the transfer sends
    the pieces of [chunks] in order, one message each, and returns [size];
    as many passes as there are pieces suffice. *)
Lemma xclCopyBufferHost2Device_in_range dest src size seek s fuel :
  0 < message_size s < 2 ^ 32 -> 0 <= size < 2 ^ 32 ->
  (Z.to_nat (chunk_count size (message_size s)) <= fuel)%nat ->
  xclCopyBufferHost2Device fuel dest src size seek s
  = Some (size,
          with_trace
            (trace (ensure_launched s)
               ++ (h2d_message (u64 (dest + seek)) (src + seek) seek
                     <$> chunks size (message_size s)))
            (ensure_launched s)).
Proof.
  intros HM Hsize Hfuel. unfold xclCopyBufferHost2Device, get_messagesize.
  destruct (ensure_launched_registry s) as (_ & _ & _ & _ & Hmsg & _).
  rewrite Hmsg.
  pose proof (chunk_count_bounds size (message_size s) HM Hsize) as (Hn & _).
  pose proof (h2d_loop_chunks size (message_size s) HM Hsize
                (u64 (dest + seek)) (src + seek) seek
                (Z.to_nat (chunk_count size (message_size s))) 0 fuel
                (ensure_launched s)) as H.
  rewrite Z2Nat.id in H by lia.
  replace (Z.min (0 * message_size s) size) with 0 in H by lia.
  rewrite H by lia. reflexivity.
Qed.

Lemma xclCopyBufferDevice2Host_in_range dest src size skip s fuel :
  0 < message_size s < 2 ^ 32 -> 0 <= size < 2 ^ 32 ->
  (Z.to_nat (chunk_count size (message_size s)) <= fuel)%nat ->
  xclCopyBufferDevice2Host fuel dest src size skip s
  = Some (size,
          with_trace
            (trace (ensure_launched s)
               ++ (d2h_message (dest + skip) (u64 (src + skip)) skip
                     <$> chunks size (message_size s)))
            (ensure_launched s)).
Proof.
  intros HM Hsize Hfuel. unfold xclCopyBufferDevice2Host, get_messagesize.
  destruct (ensure_launched_registry s) as (_ & _ & _ & _ & Hmsg & _).
  rewrite Hmsg.
  pose proof (chunk_count_bounds size (message_size s) HM Hsize) as (Hn & _).
  pose proof (d2h_loop_chunks size (message_size s) HM Hsize
                (dest + skip) (u64 (src + skip)) skip
                (Z.to_nat (chunk_count size (message_size s))) 0 fuel
                (ensure_launched s)) as H.
  rewrite Z2Nat.id in H by lia.
  replace (Z.min (0 * message_size s) size) with 0 in H by lia.
  rewrite H by lia. reflexivity.
Qed.

(** C2 (what the code does instead).  Let the peer refuse every message.
    A transfer still forwards every piece and still returns the full
    [size]: the answer to a chunk is never looked at. *)
Theorem copy_with_refusing_peer :
  forall (dest src size seek : Z) (s : CpuemShim) (fuel : nat),
    (forall tr c, refused (peer_reply tr c)) ->
    0 < message_size s < 2 ^ 32 -> 0 <= size < 2 ^ 32 ->
    (Z.to_nat (chunk_count size (message_size s)) <= fuel)%nat ->
    xclCopyBufferHost2Device fuel dest src size seek s
    = Some (size,
            with_trace
              (trace (ensure_launched s)
                 ++ (h2d_message (u64 (dest + seek)) (src + seek) seek
                       <$> chunks size (message_size s)))
              (ensure_launched s))
    /\ xclCopyBufferDevice2Host fuel dest src size seek s
       = Some (size,
               with_trace
                 (trace (ensure_launched s)
                    ++ (d2h_message (dest + seek) (u64 (src + seek)) seek
                          <$> chunks size (message_size s)))
                 (ensure_launched s)).
Proof.
  intros dest src size seek s fuel _ HM Hsize Hfuel. split.
  - apply xclCopyBufferHost2Device_in_range; assumption.
  - apply xclCopyBufferDevice2Host_in_range; assumption.
Qed.

(** The test for a short count in the callers can never fire: a copy
    that returns, returns [size]. *)
Lemma h2d_returns_size fuel dest src size seek s n s' :
  xclCopyBufferHost2Device fuel dest src size seek s = Some (n, s') ->
  n = size.
Proof.
  unfold xclCopyBufferHost2Device.
  destruct (h2d_loop _ _ _ _ _ _ _); congruence.
Qed.

Lemma d2h_returns_size fuel dest src size skip s n s' :
  xclCopyBufferDevice2Host fuel dest src size skip s = Some (n, s') ->
  n = size.
Proof.
  unfold xclCopyBufferDevice2Host.
  destruct (d2h_loop _ _ _ _ _ _ _); congruence.
Qed.

Lemma xclSyncBO_never_EIO fuel boHandle dir size offset s r s' :
  xclSyncBO fuel boHandle dir size offset s = Some (r, s') -> r <> EIO.
Proof.
  unfold xclSyncBO. destruct (xclGetBoByHandle boHandle s) as [bo|].
  - destruct dir.
    + destruct (xclCopyBufferHost2Device _ _ _ _ _ _) as [[n s1]|] eqn:E;
        [|discriminate].
      apply h2d_returns_size in E. subst n. rewrite Z.eqb_refl.
      intros [= <- <-]. discriminate.
    + destruct (xclCopyBufferDevice2Host _ _ _ _ _ _) as [[n s1]|] eqn:E;
        [|discriminate].
      apply d2h_returns_size in E. subst n. rewrite Z.eqb_refl.
      intros [= <- <-]. discriminate.
  - intros [= <- <-]. discriminate.
Qed.

(** The 32-bit counter [processed_bytes] stays below [2 ^ 32], so it
    never reaches a [size] of [2 ^ 32] or more. *)
Lemma h2d_loop_wraps dest src size seek M :
  2 ^ 32 <= size ->
  forall (fuel : nat) (p : Z) (s : CpuemShim),
    p < 2 ^ 32 -> h2d_loop fuel dest src size seek M (p, s) = None.
Proof.
  intros Hsize. induction fuel as [|fuel IH]; intros p s Hp; simpl.
  - replace (p <? size) with true by (symmetry; apply Z.ltb_lt; lia).
    reflexivity.
  - replace (p <? size) with true by (symmetry; apply Z.ltb_lt; lia).
    apply IH. unfold u32.
    pose proof (Z.mod_pos_bound (p + chunk_size size M p) (2 ^ 32)). lia.
Qed.

Lemma d2h_loop_wraps dest src size skip M :
  2 ^ 32 <= size ->
  forall (fuel : nat) (p : Z) (s : CpuemShim),
    p < 2 ^ 32 -> d2h_loop fuel dest src size skip M (p, s) = None.
Proof.
  intros Hsize. induction fuel as [|fuel IH]; intros p s Hp; simpl.
  - replace (p <? size) with true by (symmetry; apply Z.ltb_lt; lia).
    reflexivity.
  - replace (p <? size) with true by (symmetry; apply Z.ltb_lt; lia).
    apply IH. unfold u32.
    pose proof (Z.mod_pos_bound (p + chunk_size size M p) (2 ^ 32)). lia.
Qed.

(** C6 (where the code leaves the claim).  A transfer of [2 ^ 32] bytes,
    and of any larger size, does not come back, however many passes the
    loop is given: neither copy direction returns. *)
Theorem copy_of_4GiB_never_returns :
  forall (fuel : nat) (dest src size seek : Z) (s : CpuemShim),
    2 ^ 32 <= size ->
    xclCopyBufferHost2Device fuel dest src size seek s = None
    /\ xclCopyBufferDevice2Host fuel dest src size seek s = None.
Proof.
  intros fuel dest src size seek s Hsize.
  unfold xclCopyBufferHost2Device, xclCopyBufferDevice2Host. split.
  - rewrite h2d_loop_wraps by lia. reflexivity.
  - rewrite d2h_loop_wraps by lia. reflexivity.
Qed.

(** A message size of 0 (the environment override allows it) stalls every
    non-empty transfer in the same way. *)
Lemma h2d_loop_zero_message_size dest src size seek :
  forall (fuel : nat) (p : Z) (s : CpuemShim),
    0 <= p < size -> p < 2 ^ 32 ->
    h2d_loop fuel dest src size seek 0 (p, s) = None.
Proof.
  induction fuel as [|fuel IH]; intros p s Hp Hp32; simpl.
  - replace (p <? size) with true by (symmetry; apply Z.ltb_lt; lia).
    reflexivity.
  - replace (p <? size) with true by (symmetry; apply Z.ltb_lt; lia).
    unfold chunk_size.
    replace (size - p <? 0) with false by (symmetry; apply Z.ltb_ge; lia).
    replace (u32 (p + 0)) with p
      by (unfold u32; rewrite Z.add_0_r, Z.mod_small; lia).
    apply IH; lia.
Qed.

(** ** Completion poll *)











End Properties.

(** * Worked instances

    The statements above at the concrete platform of [Demo], and the
    inputs at which the interface description and the code part ways. *)

Section Instances.

Local Abbreviation ack := Demo.ack_all.
Local Abbreviation nak := Demo.nak_all.
Local Abbreviation two := Demo.first_two_done.

(** *** Register access *)

(** No socket, an address space that is not the kernel control space, a
    size that no check would accept: the size comes back. *)
Lemma xclWrite_xclRead_without_socket_witness :
  sock (Demo.fresh ack) = None
  /\ @xclWrite (Demo.platform ack) XCL_ADDR_SPACE_DEVICE_RAM 0 0 3
       (Demo.fresh ack) = (3, Demo.fresh ack)
  /\ @xclRead (Demo.platform ack) XCL_ADDR_SPACE_DEVICE_RAM 0 0 3
       (Demo.fresh ack) = (3, Demo.fresh ack).
Proof.
  split; [reflexivity|].
  apply (@xclWrite_xclRead_without_socket (Demo.platform ack)).
  reflexivity.
Defined.

(** *** Buffer registry *)

(** Handle 0 is registered, handle 7 is not; freeing either returns the
    same value, and freeing handle 7 sends nothing. *)
Lemma xclFreeBO_reports_nothing :
  mXoclObjMap (Demo.with_one_bo ack) !! 7 = None
  /\ is_Some (mXoclObjMap (Demo.with_one_bo ack) !! 0)
  /\ (@xclFreeBO (Demo.platform ack) 7 (Demo.with_one_bo ack)).1
     = (@xclFreeBO (Demo.platform ack) 0 (Demo.with_one_bo ack)).1
  /\ trace (@xclFreeBO (Demo.platform ack) 7 (Demo.with_one_bo ack)).2
     = trace (Demo.with_one_bo ack).
Proof.
  split; [vm_compute; reflexivity|].
  split; [eexists; vm_compute; reflexivity|].
  split; vm_compute; reflexivity.
Qed.

Lemma xclFreeBO_unknown_handle_witness :
  mXoclObjMap (Demo.with_one_bo ack) !! 7 = None
  /\ @xclFreeBO (Demo.platform ack) 7 (Demo.with_one_bo ack)
     = (tt, Demo.with_one_bo ack).
Proof.
  split; [vm_compute; reflexivity|].
  apply (@xclFreeBO_unknown_handle (Demo.platform ack)).
  vm_compute; reflexivity.
Defined.


(** Two MiB from a bank of one: the allocator answers [mNull]. *)
Lemma xclAllocBO_allocator_failure_witness :
  mDDRMemoryManager (Demo.with_one_bo ack)
    !! Z.to_nat (@selected_bank (Demo.platform ack) 0 (Demo.with_one_bo ack))
  = Some {| Demo.bk_start := 0; Demo.bk_size := 0x100000;
            Demo.bk_used := 4096 |}
  /\ (@xclAllocBO (Demo.platform ack) 0x200000 0 0 (Demo.with_one_bo ack)).1
     = 2 ^ 32 - 1
  /\ mBufferCount
       (@xclAllocBO (Demo.platform ack) 0x200000 0 0 (Demo.with_one_bo ack)).2
     = 1.
Proof.
  split; [vm_compute; reflexivity|].
  destruct (@xclAllocBO_allocator_failure (Demo.platform ack)
              0x200000 0 0 (Demo.with_one_bo ack)
              {| Demo.bk_start := 0; Demo.bk_size := 0x100000;
                 Demo.bk_used := 4096 |})
    as (H1 & _ & H3).
  - vm_compute; reflexivity.
  - vm_compute; reflexivity.
  - split; [exact H1|]. rewrite H3. vm_compute; reflexivity.
Defined.

(** Bank selector 5 on a device with one bank: the second buffer lands in
    bank 0, right behind the first. *)
Lemma xclAllocBO_bank_out_of_range_witness :
  @xocl_ddr_channel_count (Demo.platform ack) (Demo.with_one_bo ack)
    <= @xocl_bo_ddr_idx (Demo.platform ack) 5
  /\ @selected_bank (Demo.platform ack) 5 (Demo.with_one_bo ack) = 0
  /\ bo_base
       <$> mXoclObjMap
             (@xclAllocBO (Demo.platform ack) 4096 0 5
                (Demo.with_one_bo ack)).2 !! 1
     = Some 4096.
Proof.
  split; [vm_compute; discriminate|].
  destruct (@xclAllocBO_bank_out_of_range (Demo.platform ack)
              4096 0 5 (Demo.with_one_bo ack)) as (H1 & _).
  - discriminate.
  - vm_compute; discriminate.
  - split; [exact H1|]. vm_compute; reflexivity.
Defined.

(** The same call when the peer refuses the allocation message: bank 0
    hands out 4096 and keeps it, and the buffer registered under the new
    handle has the address 0. *)
Lemma xclAllocBO_bank_out_of_range_refused :
  @xocl_ddr_channel_count (Demo.platform nak) (Demo.with_one_bo nak)
    <= @xocl_bo_ddr_idx (Demo.platform nak) 5
  /\ ((fun b : Demo.Bank => (Demo.bank_alloc b 4096).1.1)
        <$> mDDRMemoryManager (Demo.with_one_bo nak) !! 0%nat) = Some 4096
  /\ (@xclAllocBO (Demo.platform nak) 4096 0 5 (Demo.with_one_bo nak)).1 = 1
  /\ bo_base
       <$> mXoclObjMap
             (@xclAllocBO (Demo.platform nak) 4096 0 5
                (Demo.with_one_bo nak)).2 !! 1
     = Some 0
  /\ Demo.bk_used
       <$> mDDRMemoryManager
             (@xclAllocBO (Demo.platform nak) 4096 0 5
                (Demo.with_one_bo nak)).2 !! 0%nat
     = Some 8192.
Proof.
  split; [vm_compute; discriminate|].
  split; [vm_compute; reflexivity|].
  split; [vm_compute; reflexivity|].
  split; vm_compute; reflexivity.
Qed.

(** *** Session supervisor *)

(** The device process runs and the socket is open; one more call moves
    [binaryCounter] from 1 to 2 and makes three system calls. *)
Lemma launchDeviceProcess_changes_state :
  is_Some (sock (Demo.started ack))
  /\ binaryCounter (Demo.started ack) = 1
  /\ binaryCounter
       (@launchDeviceProcess (Demo.platform ack) false (Demo.started ack)).2
     = 2
  /\ length
       (trace
          (@launchDeviceProcess (Demo.platform ack) false
             (Demo.started ack)).2)
     = (length (trace (Demo.started ack)) + 3)%nat.
Proof.
  split; [eexists; vm_compute; reflexivity|].
  repeat split.
Qed.

Lemma launchDeviceProcess_effects_witness :
  sock (Demo.started ack) = Some {| get_name := "device0_sock" |}
  /\ sock
       (@launchDeviceProcess (Demo.platform ack) true (Demo.started ack)).2
     = Some {| get_name := "device0_sock" |}.
Proof.
  split; [vm_compute; reflexivity|].
  destruct (@launchDeviceProcess_effects (Demo.platform ack) true
              (Demo.started ack)) as (H & _).
  rewrite (H {| get_name := "device0_sock" |}); vm_compute; reflexivity.
Defined.

(** *** Loading a binary *)

(** A legacy container on a fresh object: -1, and no trace of a launch. *)
Lemma xclLoadXclBin_unrecognized_magic_witness :
  memcmp_eq (xclbininmemory Demo.legacy_container) "xclbin2" 7 = false
  /\ @xclLoadXclBin (Demo.platform ack) 0 (Some Demo.legacy_container)
       (Demo.fresh ack)
     = Done (-1) (Demo.fresh ack)
  /\ trace (Demo.fresh ack) = [].
Proof.
  split; [vm_compute; reflexivity|].
  split; [|reflexivity].
  apply (@xclLoadXclBin_unrecognized_magic (Demo.platform ack)).
  vm_compute; reflexivity.
Defined.

(** For comparison, a current container is loaded: directories and
    files are created, the device process is forked, the socket built, each
    kernel instance configured and the bitstream delivered. *)
Lemma xclLoadXclBin_good_container :
  match @xclLoadXclBin (Demo.platform ack) 0 (Some Demo.good_container)
          (Demo.fresh ack) with
  | Done r s' => Some (r, trace s')
  | _ => None
  end
  = Some
      (0,
       [EvSystemCall "/run/4242/sw_emu/device0" CREATE "";
        EvSystemCall "/run/4242/sw_emu/device0/binary_0" CREATE "";
        EvSystemCall "/run/4242/sw_emu/device0/binary_0" PERMISSIONS "777";
        EvFileWrite "/run/4242/sw_emu/device0/binary_0/xmltmp" 16;
        EvSystemCall "/run/4242/sw_emu/device0" CREATE "";
        EvSystemCall "/run/4242/sw_emu/device0/binary_0" CREATE "";
        EvSystemCall "/run/4242/sw_emu/device0/binary_0" PERMISSIONS "777";
        EvSigaction SIGSEGV; EvSigaction SIGFPE; EvSigaction SIGABRT;
        EvSigaction SIGUSR1; EvSigaction SIGCHLD;
        EvSetenv "EMULATION_SOCKETID" "device0_1_4242";
        EvFork []; EvNewSocket None; EvRpc xclClose_RPC_CALL;
        EvSystemCall "/run/4242/sw_emu/device0/binary_0/genericpcieoutput"
          COPY "/work/genericpcieoutput_device0_0";
        EvFileWrite "/run/4242/sw_emu/device0/binary_0/dltmp" 32;
        EvRpc (xclSetupInstance_RPC_CALL 0x10000 {[ 0 := (0x10001, "s0") ]});
        EvRpc (xclSetupInstance_RPC_CALL 0x20000 ∅);
        EvRpc
          (xclLoadBitstream_RPC_CALL
             "/run/4242/sw_emu/device0/binary_0/xmltmp"
             "/run/4242/sw_emu/device0/binary_0/dltmp"
             "/run/4242/sw_emu/device0"
             "/run/4242/sw_emu/device0/binary_0" false)]).
Proof. vm_compute; reflexivity. Qed.

(** *** Transfer engine *)

(** Sixteen MiB in two messages of eight, to a peer that refuses both. *)
Lemma copy_with_refusing_peer_witness :
  (forall tr c, @refused (nak tr c))
  /\ @xclCopyBufferHost2Device (Demo.platform nak) 2 0x1000 0x2000
       0x1000000 16 (Demo.started nak)
     = Some (0x1000000,
             with_trace
               (trace (Demo.started nak)
                  ++ [EvRpc (xclCopyBufferHost2Device_RPC_CALL
                               0x1010 0x2010 0x800000 16 0);
                      EvRpc (xclCopyBufferHost2Device_RPC_CALL
                               0x801010 0x802010 0x800000 16 0)])
               (Demo.started nak)).
Proof.
  split; [reflexivity|].
  destruct (@copy_with_refusing_peer (Demo.platform nak) 0x1000 0x2000
              0x1000000 16 (Demo.started nak) 2) as (H & _).
  - reflexivity.
  - vm_compute; split; reflexivity.
  - vm_compute; split; [discriminate|reflexivity].
  - vm_compute; lia.
  - rewrite H.
    assert (Hs : sock (Demo.started nak) = Some {| get_name := "device0_sock" |})
      by (vm_compute; reflexivity).
    rewrite (ensure_launched_started _ _ Hs).
    match goal with
    | |- context [?f <$> chunks ?a ?b] =>
        assert (E : f <$> chunks a b
                    = [EvRpc (xclCopyBufferHost2Device_RPC_CALL
                                0x1010 0x2010 0x800000 16 0);
                       EvRpc (xclCopyBufferHost2Device_RPC_CALL
                                0x801010 0x802010 0x800000 16 0)])
          by (vm_compute; reflexivity);
        rewrite E
    end.
    reflexivity.
Defined.

(** Four GiB with the default message size, a thousand passes. *)
Lemma copy_of_4GiB_never_returns_witness :
  2 ^ 32 <= 2 ^ 32
  /\ @xclCopyBufferHost2Device (Demo.platform ack) 1000 0 0 (2 ^ 32) 0
       (Demo.started ack) = None
  /\ @xclCopyBufferDevice2Host (Demo.platform ack) 1000 0 0 (2 ^ 32) 0
       (Demo.started ack) = None.
Proof.
  split; [lia|].
  apply (@copy_of_4GiB_never_returns (Demo.platform ack) 1000 0 0 (2 ^ 32) 0
           (Demo.started ack)).
  lia.
Defined.

(** After 512 messages of 8 MiB the counter is back at 0: message 513
    goes to the offset of message 1. *)
Lemma copy_of_4GiB_restarts :
  (Nat.iter 512
     (@h2d_body (Demo.platform ack) 0 0 (2 ^ 32) 0 0x800000)
     (0, Demo.started ack)).1 = 0.
Proof. vm_compute; reflexivity. Qed.

(** *** Completion poll *)

(** The example of the interface description: two requests complete,
    three pending, a minimum of 2.  One scan, two completions. *)
Lemma xclPollCompletion_two_of_five :
  exists comps s',
    @xclPollCompletion (Demo.platform two) 1 2 4 ∅ 100
      (Demo.with_five_requests two) = Some (2, comps, s')
    /\ mReqList s' = map Demo.request [2; 3; 4]
    /\ comps !! 0 = Some {| priv_data := 1000; nbytes := 8 |}
    /\ comps !! 1 = Some {| priv_data := 1001; nbytes := 8 |}.
Proof.
  assert (Hr : match @xclPollCompletion (Demo.platform two) 1 2 4 ∅ 100
                       (Demo.with_five_requests two) with
               | Some (a, c, s') => Some (a, mReqList s', c !! 0, c !! 1)
               | None => None
               end
               = Some (2, map Demo.request [2; 3; 4],
                       Some {| priv_data := 1000; nbytes := 8 |},
                       Some {| priv_data := 1001; nbytes := 8 |}))
    by (vm_compute; reflexivity).
  revert Hr.
  destruct (@xclPollCompletion (Demo.platform two) 1 2 4 ∅ 100
              (Demo.with_five_requests two)) as [[[a c] s']|];
    intros Hr; [|discriminate Hr].
  injection Hr as -> H1 H2 H3. exists c, s'. auto.
Qed.




End Instances.

(** * More properties

    What the functions around the claims do: the buffer registry, the bank
    set-up, the session supervisor, closing, the load of a binary, the
    transfers, the completion poll and the queues. *)

Section MoreProperties.
Context {P : Platform} {H : Host}.

Local Arguments Z.eqb : simpl never.
Local Arguments Z.leb : simpl never.
Local Arguments Z.ltb : simpl never.

(** ** Allocation: what a call leaves alone *)

Lemma xclAllocDeviceBuffer2_frame size domain flags noHostMemory sFileName s :
  let s' := (xclAllocDeviceBuffer2 size domain flags noHostMemory
               sFileName s).2 in
  mXoclObjMap s' = mXoclObjMap s /\ mBufferCount s' = mBufferCount s
  /\ length (mDDRMemoryManager s') = length (mDDRMemoryManager s)
  /\ (forall i : nat, i <> Z.to_nat flags ->
        mDDRMemoryManager s' !! i = mDDRMemoryManager s !! i).
Proof.
  destruct (ensure_launched_registry s) as (Hm & Hc & Hb & _).
  unfold xclAllocDeviceBuffer2.
  destruct (negb (is_XCL_MEM_DEVICE_RAM domain)); [simpl; rewrite Hb; auto|].
  destruct (_ <=? flags); [simpl; rewrite Hb; auto|].
  destruct (_ !! Z.to_nat flags) as [bank|]; [|simpl; rewrite Hb; auto].
  destruct (mm_alloc bank _) as [[result size'] bank'].
  destruct (result =? mNull); simpl.
  - rewrite length_insert, Hb. repeat split; auto.
    intros i Hi. rewrite list_lookup_insert_ne by auto. reflexivity.
  - destruct (negb _); simpl; rewrite length_insert, Hb; repeat split; auto;
      intros i Hi; rewrite list_lookup_insert_ne by auto; reflexivity.
Qed.

(** What [xclAllocBO] does to the registry: nothing, or one record under
    the current value of the handle counter, which then advances. *)
Lemma xclAllocBO_registry size unused flags s :
  let s' := (xclAllocBO size unused flags s).2 in
  (mXoclObjMap s' = mXoclObjMap s /\ mBufferCount s' = mBufferCount s)
  \/ (exists bo,
        (xclAllocBO size unused flags s).1 = mBufferCount s
        /\ mXoclObjMap s' = <[mBufferCount s := bo]> (mXoclObjMap s)
        /\ mBufferCount s' = u32 (mBufferCount s + 1)).
Proof.
  unfold xclAllocBO, xoclCreateBo. simpl.
  destruct (size =? 0); [left; auto|].
  pose proof (xclAllocDeviceBuffer2_frame size XCL_MEM_DEVICE_RAM
                (selected_bank flags s)
                (no_host_memory flags || xocl_bo_host_only flags) "" s)
    as (Hm & Hc & _).
  fold (selected_bank flags s).
  destruct (xclAllocDeviceBuffer2 _ _ _ _ _ _) as [[[base size'] fn] s1].
  simpl in *. destruct (base =? mNull); simpl.
  - left. auto.
  - right. rewrite Hm, Hc. eexists. split; [reflexivity|]. auto.
Qed.


(** ** Buffer registry *)

Lemma xclFreeDeviceBuffer_frame offset s :
  let s' := xclFreeDeviceBuffer offset s in
  mXoclObjMap s' = mXoclObjMap s /\ mBufferCount s' = mBufferCount s
  /\ sock s' = sock s /\ mReqList s' = mReqList s
  /\ length (mDDRMemoryManager s') = length (mDDRMemoryManager s).
Proof.
  assert (Hlen : forall l, length (free_in_banks offset l) = length l)
    by (induction l; simpl; congruence).
  unfold xclFreeDeviceBuffer. simpl.
  destruct (sock s) eqn:Hs; simpl; rewrite ?Hs, Hlen; auto.
Qed.

(** X1.  A creation that finds room and is acknowledged by the peer hands
    out the current value of the handle counter, advances the counter,
    and what [xclGetBOProperties] then reports under the new handle is
    the flags of the request, the size the allocator left and the address
    it returned; every other handle reads as before. *)
Theorem xclAllocBO_then_properties :
  forall (size unused flags : Z) (s : CpuemShim) (bank : MemoryManager),
    size <> 0 ->
    mDDRMemoryManager s !! Z.to_nat (selected_bank flags s) = Some bank ->
    (mm_alloc bank size).1.1 <> mNull ->
    r_val (peer_reply (trace (ensure_launched s))
             (xclAllocDeviceBuffer_RPC_CALL
                (mm_alloc bank size).1.1 (mm_alloc bank size).1.2
                (no_host_memory flags || xocl_bo_host_only flags))) <> 0 ->
    let h := (xclAllocBO size unused flags s).1 in
    let s' := (xclAllocBO size unused flags s).2 in
    h = mBufferCount s
    /\ mBufferCount s' = u32 (mBufferCount s + 1)
    /\ xclGetBOProperties h s'
       = (0, Some (flags, (mm_alloc bank size).1.2, (mm_alloc bank size).1.1))
    /\ (forall h', h' <> h ->
          xclGetBOProperties h' s' = xclGetBOProperties h' s).
Proof.
  intros size unused flags s bank Hsz Hbank Haddr Hack.
  apply Z.eqb_neq in Hsz.
  destruct (ensure_launched_registry s) as (Hm & Hc & Hb & _).
  unfold xclGetBOProperties, xclGetBoByHandle, xclAllocBO, xoclCreateBo.
  simpl. rewrite Hsz. fold (selected_bank flags s).
  unfold xclAllocDeviceBuffer2. simpl. rewrite Hsz, Hb, Hbank.
  rewrite (lookup_in_range _ _ _ Hbank).
  destruct (mm_alloc bank size) as [[addr size'] bank']. simpl in *.
  rewrite (proj2 (Z.eqb_neq _ _) Haddr).
  rewrite (proj2 (Z.eqb_neq _ _) Hack). simpl.
  rewrite (proj2 (Z.eqb_neq _ _) Haddr). simpl.
  rewrite Hc, Hm, lookup_insert_eq. repeat split.
  intros h' Hh'. rewrite lookup_insert_ne by auto. reflexivity.
Qed.

(** X2.  While every registered handle is below the handle counter and
    the counter has not reached the end of its 32 bits, a creation never
    lands on a handle in use: the records registered before are all
    still there, unchanged, and the handles are still below the
    counter. *)
Theorem xclAllocBO_keeps_handles :
  forall (size unused flags : Z) (s : CpuemShim),
    handles_below_count s ->
    0 <= mBufferCount s < 2 ^ 32 - 1 ->
    let s' := (xclAllocBO size unused flags s).2 in
    handles_below_count s'
    /\ forall h bo, mXoclObjMap s !! h = Some bo ->
                    mXoclObjMap s' !! h = Some bo.
Proof.
  intros size unused flags s Hinv Hc s'.
  assert (Hu : u32 (mBufferCount s + 1) = mBufferCount s + 1)
    by (unfold u32; apply Z.mod_small; lia).
  destruct (xclAllocBO_registry size unused flags s)
    as [[Hm Hcnt]|(bo & _ & Hm & Hcnt)]; fold s' in Hm, Hcnt.
  - split.
    + intros h Hh. rewrite Hm in Hh. rewrite Hcnt. auto.
    + intros h bo0 Hh. rewrite Hm. exact Hh.
  - split.
    + intros h Hh. rewrite Hm in Hh. rewrite Hcnt, Hu.
      destruct (decide (h = mBufferCount s)) as [->|Hne]; [lia|].
      rewrite lookup_insert_ne in Hh by auto.
      specialize (Hinv h Hh). lia.
    + intros h bo0 Hh. rewrite Hm.
      assert (h <> mBufferCount s).
      { intros ->. specialize (Hinv _ (ex_intro _ _ Hh)). lia. }
      rewrite lookup_insert_ne by auto. exact Hh.
Qed.

(** X3.  Freeing a registered handle removes that handle and no other:
    afterwards [xclGetBOProperties] fails for it, every other handle
    reads as before, and the handle counter has not moved, so the handle
    is not handed out again. *)
Theorem xclFreeBO_removes_one :
  forall (boHandle : Z) (s : CpuemShim) (bo : drm_xocl_bo),
    mXoclObjMap s !! boHandle = Some bo ->
    let s' := (xclFreeBO boHandle s).2 in
    xclGetBOProperties boHandle s' = (-1, None)
    /\ (forall h, h <> boHandle ->
          xclGetBOProperties h s' = xclGetBOProperties h s)
    /\ mBufferCount s' = mBufferCount s
    /\ sock s' = sock s.
Proof.
  intros boHandle s bo Hbo. unfold xclFreeBO. rewrite Hbo.
  destruct (xclFreeDeviceBuffer_frame (bo_base bo) s) as (Hm & Hc & Hs & _).
  unfold xclGetBOProperties, xclGetBoByHandle. simpl.
  rewrite Hm, Hc, Hs, lookup_delete_eq. repeat split.
  intros h Hh. rewrite lookup_delete_ne by auto. reflexivity.
Qed.

(** X4.  Freeing twice is freeing once: the second call finds nothing
    and leaves the object as the first one left it. *)
Theorem xclFreeBO_twice :
  forall (boHandle : Z) (s : CpuemShim),
    xclFreeBO boHandle (xclFreeBO boHandle s).2 = xclFreeBO boHandle s.
Proof.
  intros boHandle s.
  assert (Hgone : mXoclObjMap (xclFreeBO boHandle s).2 !! boHandle = None).
  { unfold xclFreeBO.
    destruct (mXoclObjMap s !! boHandle) as [bo|] eqn:Hbo; simpl.
    - apply lookup_delete_eq.
    - exact Hbo. }
  unfold xclFreeBO at 1. rewrite Hgone.
  destruct (xclFreeBO boHandle s) as [[] s']. reflexivity.
Qed.

(** X5.  Creation followed by the release of the new handle gives the
    registry back as it was, when the handle was free before (which X2
    guarantees); the handle counter stays advanced. *)
Theorem xclAllocBO_then_xclFreeBO :
  forall (size unused flags : Z) (s : CpuemShim),
    let h := (xclAllocBO size unused flags s).1 in
    let s1 := (xclAllocBO size unused flags s).2 in
    mXoclObjMap s !! h = None ->
    is_Some (mXoclObjMap s1 !! h) ->
    mXoclObjMap (xclFreeBO h s1).2 = mXoclObjMap s
    /\ mBufferCount (xclFreeBO h s1).2 = u32 (mBufferCount s + 1).
Proof.
  intros size unused flags s h s1 Hfree [bo Hbo].
  destruct (xclAllocBO_registry size unused flags s)
    as [[Hm Hcnt]|(bo' & Hh & Hm & Hcnt)]; fold s1 in Hm, Hcnt.
  - rewrite Hm in Hbo. congruence.
  - fold h in Hh. unfold xclFreeBO. rewrite Hbo. simpl.
    destruct (xclFreeDeviceBuffer_frame (bo_base bo) s1) as (Hm1 & Hc1 & _).
    rewrite Hm1, Hc1, Hm, Hcnt, Hh. split; [|reflexivity].
    apply delete_insert_id. rewrite <- Hh. exact Hfree.
Qed.


(** X6.  A creation asks one bank and touches no other: all managers but
    the one of the selected bank are what they were, and none is added or
    dropped. *)
Theorem xclAllocBO_other_banks :
  forall (size unused flags : Z) (s : CpuemShim),
    let s' := (xclAllocBO size unused flags s).2 in
    length (mDDRMemoryManager s') = length (mDDRMemoryManager s)
    /\ forall i : nat, i <> Z.to_nat (selected_bank flags s) ->
         mDDRMemoryManager s' !! i = mDDRMemoryManager s !! i.
Proof.
  intros size unused flags s. unfold xclAllocBO, xoclCreateBo. simpl.
  destruct (size =? 0); [simpl; auto|].
  pose proof (xclAllocDeviceBuffer2_frame size XCL_MEM_DEVICE_RAM
                (selected_bank flags s)
                (no_host_memory flags || xocl_bo_host_only flags) "" s)
    as (_ & _ & Hl & Hi).
  fold (selected_bank flags s).
  destruct (xclAllocDeviceBuffer2 _ _ _ _ _ _) as [[[base size'] fn] s1].
  simpl in *. destruct (base =? mNull); simpl; auto.
Qed.

Lemma xoclCreateBo_cases info s :
  let r := xoclCreateBo info s in
  (cb_handle r.1.2 = cb_handle info
   /\ mXoclObjMap r.2 = mXoclObjMap s /\ mBufferCount r.2 = mBufferCount s)
  \/ (exists bo,
        r.1.1 = 0 /\ cb_handle r.1.2 = mBufferCount s
        /\ mXoclObjMap r.2 = <[mBufferCount s := bo]> (mXoclObjMap s)
        /\ mBufferCount r.2 = u32 (mBufferCount s + 1)).
Proof.
  unfold xoclCreateBo.
  destruct (cb_size info =? 0); [left; auto|].
  match goal with
  | |- context [xclAllocDeviceBuffer2 ?a ?b ?c ?d ?e ?f] =>
      pose proof (xclAllocDeviceBuffer2_frame a b c d e f) as (Hm & Hc & _);
      destruct (xclAllocDeviceBuffer2 a b c d e f) as [[[base size'] fn] s1]
  end.
  simpl in *. destruct (base =? mNull); simpl.
  - left. auto.
  - right. rewrite Hm, Hc. eexists. repeat split; reflexivity.
Qed.

(** X7.  Creation around a caller's pointer.  As long as the null handle
    [mNullBO] and the next handle are not in use, the call leaves every
    record registered before as it was, and a record found under the
    handle it returns carries the caller's pointer. *)
Theorem xclAllocUserPtrBO_records_pointer :
  forall (userptr size flags : Z) (s : CpuemShim),
    mXoclObjMap s !! mNullBO = None ->
    mXoclObjMap s !! mBufferCount s = None ->
    let h := (xclAllocUserPtrBO userptr size flags s).1 in
    let s' := (xclAllocUserPtrBO userptr size flags s).2 in
    (forall h' bo, mXoclObjMap s !! h' = Some bo ->
                   mXoclObjMap s' !! h' = Some bo)
    /\ (forall bo, mXoclObjMap s' !! h = Some bo -> bo_userptr bo = userptr).
Proof.
  intros userptr size flags s Hnull Hnext.
  unfold xclAllocUserPtrBO, xclGetBoByHandle.
  set (info := {| cb_size := size; cb_handle := mNullBO; cb_flags := flags |}).
  destruct (xoclCreateBo_cases info s)
    as [(Hh & Hm & Hc)|(bo & Hr & Hh & Hm & Hc)];
    destruct (xoclCreateBo info s) as [[result info'] s1]; simpl in *.
  - rewrite Hm, Hh, Hnull. simpl.
    replace (if negb (result =? 0) then mNullBO else mNullBO) with mNullBO
      by (destruct (negb _); reflexivity).
    rewrite Hm. split; [auto|]. intros bo. rewrite Hnull. discriminate.
  - subst result. rewrite Hm, Hh, lookup_insert_eq. simpl.
    change (0 =? 0) with true. simpl. split.
    + intros h' bo0 Hbo0. rewrite !lookup_insert_ne by congruence.
      exact Hbo0.
    + intros bo0. rewrite lookup_insert_eq. intros [= <-]. reflexivity.
Qed.

(** ** The older allocation entry point *)

(** The search of [alloc_first_fit], bank by bank: either some bank is
    the first to answer an address, after every bank before it was asked
    and answered [mNull], and the banks behind it are not touched; or every
    bank was asked and answered [mNull]. *)
Lemma alloc_first_fit_spec banks :
  forall size,
    let r := alloc_first_fit banks size in
    (exists pre pre' b post size1,
        banks = (pre ++ b :: post)%list
        /\ refuse_all pre size = Some (size1, pre')
        /\ (mm_alloc b size1).1.1 <> mNull
        /\ r.1.1 = (mm_alloc b size1).1.1
        /\ r.2 = (pre' ++ (mm_alloc b size1).2 :: post)%list)
    \/ (exists size1 banks',
          refuse_all banks size = Some (size1, banks')
          /\ r.1.1 = mNull /\ r.2 = banks').
Proof.
  induction banks as [|i rest IH]; intros size; simpl.
  - right. exists size, []. auto.
  - destruct (mm_alloc i size) as [[result size'] i'] eqn:Ha.
    destruct (result =? mNull) eqn:E; simpl.
    + specialize (IH size').
      destruct (alloc_first_fit rest size') as [[r sz] rest']. simpl in IH.
      simpl.
      destruct IH as [(pre & pre' & b & post & size1 & -> & Hpre & Hb & Hr & ->)
                     |(size1 & banks' & Hall & Hr & ->)].
      * left. exists (i :: pre), (i' :: pre'), b, post, size1.
        simpl. rewrite Ha, E, Hpre. auto.
      * right. exists size1, (i' :: banks').
        rewrite Hall. auto.
    + left. exists [], [], i, rest, size. simpl. rewrite Ha. simpl.
      apply Z.eqb_neq in E. auto.
Qed.

(** X8.  [xclAllocDeviceBuffer] asks the banks in their order, each with
    the size the one before left, and stops at the first that answers an
    address: the banks before it were all asked and answered [mNull], the
    banks behind it are not touched.  When every bank answers [mNull] the
    address is [mNull].  Then it tells the peer that address and the size
    exactly as the caller gave it (a 0 stays a 0), and returns the address
    when the peer acknowledges and 0 when it refuses. *)
Theorem xclAllocDeviceBuffer_first_fit :
  forall (size : Z) (s : CpuemShim),
    let size0 := if size =? 0 then DDR_BUFFER_ALIGNMENT else size in
    let r := (xclAllocDeviceBuffer size s).1 in
    let s' := (xclAllocDeviceBuffer size s).2 in
    exists result,
      ((exists pre pre' b post size1,
           mDDRMemoryManager s = (pre ++ b :: post)%list
           /\ refuse_all pre size0 = Some (size1, pre')
           /\ (mm_alloc b size1).1.1 <> mNull
           /\ result = (mm_alloc b size1).1.1
           /\ mDDRMemoryManager s'
              = (pre' ++ (mm_alloc b size1).2 :: post)%list)
       \/ (exists size1 banks',
             refuse_all (mDDRMemoryManager s) size0 = Some (size1, banks')
             /\ result = mNull /\ mDDRMemoryManager s' = banks'))
      /\ trace s'
         = (trace (ensure_launched s)
              ++ [EvRpc (xclAllocDeviceBuffer_RPC_CALL result size false)])%list
      /\ r = (if r_val (peer_reply (trace (ensure_launched s))
                          (xclAllocDeviceBuffer_RPC_CALL result size false))
                 =? 0
              then 0 else result).
Proof.
  intros size s. cbv zeta. unfold xclAllocDeviceBuffer.
  destruct (ensure_launched_registry s) as (_ & _ & Hb & _).
  rewrite Hb.
  pose proof (alloc_first_fit_spec (mDDRMemoryManager s)
                (if size =? 0 then DDR_BUFFER_ALIGNMENT else size)) as Hf.
  destruct (alloc_first_fit _ _) as [[result sz] banks]. simpl in Hf.
  exists result. unfold rpc. cbv beta iota.
  destruct (r_val _ =? 0); simpl; (split; [exact Hf|]); split; reflexivity.
Qed.

(** ** Bank set-up *)

Lemma total_size_nonneg banks :
  Forall (fun b => 0 <= ddrSize b) banks -> 0 <= total_size banks.
Proof.
  induction 1 as [|b rest Hb _ IH]; simpl; lia.
Qed.

Lemma total_size_take_le banks (i j : nat) :
  Forall (fun b => 0 <= ddrSize b) banks -> (i <= j)%nat ->
  total_size (take i banks) <= total_size (take j banks).
Proof.
  intros Hb. revert i j. induction Hb as [|b rest Hb0 Hrest IH]; intros i j Hij.
  - rewrite !take_nil. lia.
  - destruct i, j; try lia; simpl.
    + pose proof (total_size_nonneg (take j rest)
                    (Forall_take _ _ _ Hrest)) as Hn. lia.
    + specialize (IH i j ltac:(lia)). lia.
Qed.

Lemma total_size_snoc banks b :
  total_size (banks ++ [b]) = total_size banks + ddrSize b.
Proof. induction banks as [|a rest IH]; simpl; lia. Qed.

Section Layout.
Hypothesis new_start :
  forall size base alignment,
    mm_start (new_MemoryManager size base alignment) = base.
Hypothesis new_size :
  forall size base alignment,
    mm_size (new_MemoryManager size base alignment) = size.

Lemma bank_managers_lookup banks :
  Forall (fun b => 0 <= ddrSize b) banks ->
  forall (base : Z) (i : nat) (m : MemoryManager),
    0 <= base -> base + total_size banks < 2 ^ 64 ->
    bank_managers banks base !! i = Some m ->
    exists b, banks !! i = Some b
              /\ mm_start m = base + total_size (take i banks)
              /\ mm_size m = ddrSize b.
Proof.
  induction 1 as [|b rest Hb Hrest IH]; intros base i m Hbase Htot; simpl.
  - discriminate.
  - simpl in Htot.
    pose proof (total_size_nonneg rest Hrest).
    destruct i as [|i]; simpl.
    + intros [= <-]. exists b. rewrite new_start, new_size.
      split; [reflexivity|]. split; [lia|reflexivity].
    + intros Hm.
      assert (Hu : u64 (base + ddrSize b) = base + ddrSize b)
        by (unfold u64; apply Z.mod_small; lia).
      rewrite Hu in Hm.
      destruct (IH (base + ddrSize b) i m ltac:(lia) ltac:(lia) Hm)
        as (b' & Hb' & Hs & Hz).
      exists b'. split; [exact Hb'|]. split; [|exact Hz].
      rewrite Hs. lia.
Qed.

(** X9.  The banks of a new device lie one behind the other from
    address 0: when the sizes are not negative and add up to less than
    [2 ^ 64], there is one manager per bank, bank [i] starts at the sum
    of the sizes before it, and two different banks do not overlap. *)
Theorem initMemoryManager_layout :
  forall (DDRBankList : list DDRBank) (s : CpuemShim),
    mDDRMemoryManager s = [] ->
    Forall (fun b => 0 <= ddrSize b) DDRBankList ->
    total_size DDRBankList < 2 ^ 64 ->
    let ms := mDDRMemoryManager (initMemoryManager DDRBankList s) in
    length ms = length DDRBankList
    /\ (forall (i : nat) m, ms !! i = Some m ->
          mm_start m = total_size (take i DDRBankList)
          /\ Some (mm_size m) = ddrSize <$> DDRBankList !! i)
    /\ (forall (i j : nat) m m',
          (i < j)%nat -> ms !! i = Some m -> ms !! j = Some m' ->
          mm_start m + mm_size m <= mm_start m').
Proof.
  intros banks s Hempty Hpos Htot. unfold initMemoryManager. simpl.
  rewrite Hempty. simpl.
  assert (Hlen : forall l base, length (bank_managers l base) = length l)
    by (induction l; intros; simpl; auto).
  split; [apply Hlen|].
  assert (Hlook : forall (i : nat) m,
             bank_managers banks 0 !! i = Some m ->
             exists b, banks !! i = Some b
                       /\ mm_start m = total_size (take i banks)
                       /\ mm_size m = ddrSize b).
  { intros i m Hm.
    destruct (bank_managers_lookup banks Hpos 0 i m ltac:(lia) ltac:(lia) Hm)
      as (b & Hb & Hs & Hz).
    exists b. rewrite Hs. auto. }
  split.
  - intros i m Hm. destruct (Hlook i m Hm) as (b & Hb & Hs & Hz).
    rewrite Hb. simpl. rewrite Hz. auto.
  - intros i j m m' Hij Hm Hm'.
    destruct (Hlook i m Hm) as (b & Hb & Hs & Hz).
    destruct (Hlook j m' Hm') as (b' & Hb' & Hs' & Hz').
    rewrite Hs, Hz, Hs'.
    pose proof (total_size_take_le banks (S i) j Hpos ltac:(lia)) as Hle.
    rewrite (take_S_r _ _ _ Hb), total_size_snoc in Hle. lia.
Qed.

End Layout.

(** ** Session supervisor *)

Lemma with_trace_app (l1 l2 : list Event) (s : CpuemShim) :
  with_trace (trace (with_trace (trace s ++ l1) s) ++ l2)
    (with_trace (trace s ++ l1) s)
  = with_trace (trace s ++ l1 ++ l2) s.
Proof. unfold with_trace. simpl. rewrite <- app_assoc. reflexivity. Qed.

Lemma emit_as_with_trace (e : Event) (s : CpuemShim) :
  emit e s = with_trace (trace s ++ [e]) s.
Proof. reflexivity. Qed.

(** A fold that only emits events, each computed from fields that
    emitting leaves alone. *)
Lemma foldl_emit {A} (g : CpuemShim -> A -> Event) (l : list A) :
  (forall s tr a, g (with_trace tr s) a = g s a) ->
  forall s,
    foldl (fun s a => emit (g s a) s) s l
    = with_trace (trace s ++ (g s <$> l)) s.
Proof.
  intros Hg. induction l as [|a l IH]; intros s; simpl.
  - symmetry. apply with_trace_id.
  - rewrite IH. rewrite emit_as_with_trace, with_trace_app.
    f_equal. f_equal. simpl. f_equal.
    apply list_fmap_ext. intros ? x ?. apply Hg.
Qed.

Lemma saveDeviceProcessOutput_events s :
  exists evs,
    saveDeviceProcessOutput s = with_trace (trace s ++ evs) s
    /\ Forall (fun e => exists a b, e = EvSystemCall a COPY b) evs.
Proof.
  unfold saveDeviceProcessOutput. destruct (sock s).
  - destruct GetCurrentDir as [path|].
    + eexists. split.
      * apply (foldl_emit (fun s i => copy_output_call s path i)).
        reflexivity.
      * apply Forall_fmap, Forall_forall. intros i _. simpl.
        unfold copy_output_call. eauto.
    + exists []. split; [|constructor].
      rewrite with_trace_id. generalize (reverse (seqZ 0 (s32 (binaryCounter s - 1) + 1))).
      induction l; simpl; auto.
  - exists []. split; [|constructor]. symmetry. apply with_trace_id.
Qed.

(** X10.  With the socket open and a current directory to copy to,
    [saveDeviceProcessOutput] copies the output file of every binary
    directory made so far, [binary_<n-1>] first and [binary_0] last, where
    [n] is [binaryCounter] (up to [2 ^ 31]), and changes nothing else;
    without a socket it does nothing. *)
Theorem saveDeviceProcessOutput_copies :
  forall (s : CpuemShim),
    (sock s = None -> saveDeviceProcessOutput s = s)
    /\ forall sk path,
         sock s = Some sk -> GetCurrentDir = Some path ->
         0 <= binaryCounter s <= 2 ^ 31 ->
         saveDeviceProcessOutput s
         = with_trace
             (trace s
                ++ (copy_output_call s path
                      <$> reverse (seqZ 0 (binaryCounter s)))) s.
Proof.
  intros s. unfold saveDeviceProcessOutput. split.
  - intros ->. reflexivity.
  - intros sk path -> -> Hbc.
    replace (s32 (binaryCounter s - 1) + 1) with (binaryCounter s).
    + apply (foldl_emit (fun s i => copy_output_call s path i)). reflexivity.
    + unfold s32.
      replace (binaryCounter s - 1 + 2 ^ 31)
        with (binaryCounter s + (2 ^ 31 - 1)) by lia.
      rewrite Z.mod_small by lia. lia.
Qed.


(** X11.  [resetProgram] empties the map of exported files and, for every
    descriptor that was in it, unmaps and closes exactly once, in
    increasing order of the descriptors, before anything else it does; the
    socket, the buffer registry, the banks and the binary counter stay as
    they are. *)
Theorem resetProgram_closes_mappings :
  forall (s : CpuemShim),
    let s' := resetProgram s in
    mFdToFileNameMap s' = ∅
    /\ sock s' = sock s
    /\ mXoclObjMap s' = mXoclObjMap s
    /\ mDDRMemoryManager s' = mDDRMemoryManager s
    /\ binaryCounter s' = binaryCounter s
    /\ exists fds rest,
         trace s' = (trace s ++ (EvMunmapClose <$> fds) ++ rest)%list
         /\ NoDup fds /\ Sorted Z.le fds
         /\ (forall fd, fd ∈ fds <-> is_Some (mFdToFileNameMap s !! fd))
         /\ Forall (fun e => is_munmap e = false) rest.
Proof.
  intros s. cbv zeta.
  set (fds := merge_sort Z.le (elements (dom (mFdToFileNameMap s)))).
  assert (Hfds : NoDup fds /\ Sorted Z.le fds
                 /\ forall fd, fd ∈ fds <-> is_Some (mFdToFileNameMap s !! fd)).
  { split; [|split].
    - unfold fds. rewrite merge_sort_Permutation. apply NoDup_elements.
    - apply Sorted_merge_sort. apply _.
    - intros fd. unfold fds. rewrite merge_sort_Permutation.
      rewrite elem_of_elements. apply elem_of_dom. }
  unfold resetProgram.
  rewrite (foldl_emit (fun _ fd => EvMunmapClose fd)) by reflexivity.
  fold fds. cbn [sock with_mFdToFileNameMap with_trace].
  destruct (sock s) as [sk|] eqn:Hsock.
  - destruct (negb (String.eqb (get_name sk) ""));
      match goal with
      | |- context [saveDeviceProcessOutput ?x] =>
          destruct (saveDeviceProcessOutput_events x) as (evs & -> & Hevs)
      end; simpl; (repeat split; auto); exists fds.
    + exists (EvRpc xclClose_RPC_CALL :: evs).
      rewrite <- !app_assoc. simpl. split; [reflexivity|].
      destruct Hfds as (Hnd & Hso & Hin). repeat split; auto; try apply Hin.
      constructor; [reflexivity|].
      eapply Forall_impl; [exact Hevs|]. intros e (a & b & ->). reflexivity.
    + exists evs. rewrite <- !app_assoc. split; [reflexivity|].
      destruct Hfds as (Hnd & Hso & Hin). repeat split; auto; try apply Hin.
      eapply Forall_impl; [exact Hevs|]. intros e (a & b & ->). reflexivity.
  - unfold fini_scheduler. simpl.
    destruct (mIsKdsSwEmu s && mSWSch s); simpl; rewrite ?Hsock;
      (repeat split; auto); exists fds.
    + exists [EvSchedulerFini]. rewrite <- !app_assoc.
      split; [reflexivity|].
      destruct Hfds as (Hnd & Hso & Hin). repeat split; auto; try apply Hin.
    + exists []. rewrite app_nil_r. split; [reflexivity|].
      destruct Hfds as (Hnd & Hso & Hin). repeat split; auto; try apply Hin.
Qed.

Lemma launchDeviceProcess_with_socket debuggable s sk :
  sock s = Some sk ->
  exists e1 e2 e3,
    (launchDeviceProcess debuggable s).2
    = with_binaryCounter (u32 (binaryCounter s + 1))
        (with_trace
           (trace s
              ++ [EvSystemCall e1 CREATE ""; EvSystemCall e2 CREATE "";
                  EvSystemCall e3 PERMISSIONS "777"]) s).
Proof.
  intros Hs. unfold launchDeviceProcess. simpl. rewrite Hs.
  do 3 eexists. unfold with_binaryCounter, with_trace, emit, makeSystemCall.
  simpl. rewrite <- !app_assoc. reflexivity.
Qed.

Lemma launch_times_open debuggable sk :
  forall (n : nat) (s : CpuemShim),
    sock s = Some sk -> 0 <= binaryCounter s < 2 ^ 32 ->
    let s' := launch_times n debuggable s in
    sock s' = Some sk
    /\ binaryCounter s' = (binaryCounter s + Z.of_nat n) mod 2 ^ 32
    /\ exists evs,
         trace s' = (trace s ++ evs)%list
         /\ List.filter is_fork evs = []
         /\ List.filter is_new_socket evs = [].
Proof.
  induction n as [|n IH]; intros s Hs Hbc; simpl.
  - split; [exact Hs|]. split; [rewrite Z.add_0_r, Z.mod_small; lia|].
    exists []. rewrite app_nil_r. auto.
  - destruct (launchDeviceProcess_with_socket debuggable s sk Hs)
      as (e1 & e2 & e3 & ->).
    match goal with
    | |- context [launch_times n debuggable ?x] =>
        destruct (IH x) as (Hs' & Hbc' & evs & Htr & Hf & Hn)
    end.
    + exact Hs.
    + simpl. unfold u32. apply Z.mod_pos_bound. lia.
    + split; [exact Hs'|]. split.
      * rewrite Hbc'. simpl. unfold u32. rewrite Zplus_mod_idemp_l.
        f_equal. lia.
      * eexists. rewrite Htr. simpl. rewrite <- app_assoc.
        split; [reflexivity|]. simpl. auto.
Qed.

(** X12.  However often the device process is launched, it is forked
    once: starting without a socket, any positive number of calls of
    [launchDeviceProcess] builds one socket and forks one child (none if
    the configuration says not to run it), leaves the socket open, and
    advances [binaryCounter] by the number of calls, modulo [2 ^ 32]. *)
Theorem launchDeviceProcess_forks_once :
  forall (debuggable : bool) (n : nat) (s : CpuemShim),
    sock s = None -> 0 <= binaryCounter s < 2 ^ 32 ->
    let s' := launch_times (S n) debuggable s in
    is_Some (sock s')
    /\ binaryCounter s' = (binaryCounter s + Z.of_nat (S n)) mod 2 ^ 32
    /\ exists evs,
         trace s' = (trace s ++ evs)%list
         /\ length (List.filter is_fork evs)
            = (if isDontRun then 0 else 1)%nat
         /\ length (List.filter is_new_socket evs) = 1%nat.
Proof.
  intros debuggable n s Hs Hbc. simpl.
  assert (Hfirst :
    exists sk evs0,
      sock (launchDeviceProcess debuggable s).2 = Some sk
      /\ binaryCounter (launchDeviceProcess debuggable s).2
         = u32 (binaryCounter s + 1)
      /\ trace (launchDeviceProcess debuggable s).2 = (trace s ++ evs0)%list
      /\ length (List.filter is_fork evs0) = (if isDontRun then 0 else 1)%nat
      /\ length (List.filter is_new_socket evs0) = 1%nat).
  { unfold launchDeviceProcess, parseIni. simpl. rewrite Hs.
    destruct isDontRun; simpl; do 2 eexists;
      (split; [reflexivity|]); (split; [reflexivity|]);
      rewrite <- !app_assoc; simpl; (split; [reflexivity|]); simpl; auto. }
  destruct Hfirst as (sk & evs0 & Hsk & Hc0 & Htr0 & Hf0 & Hn0).
  destruct (launch_times_open debuggable sk n
              (launchDeviceProcess debuggable s).2 Hsk)
    as (Hs' & Hbc' & evs & Htr & Hf & Hn).
  { rewrite Hc0. unfold u32. apply Z.mod_pos_bound. lia. }
  split; [rewrite Hs'; eauto|]. split.
  - rewrite Hbc', Hc0. unfold u32. rewrite Zplus_mod_idemp_l. f_equal. lia.
  - exists (evs0 ++ evs)%list. rewrite Htr, Htr0, <- app_assoc.
    split; [reflexivity|].
    rewrite !List.filter_app, !length_app, Hf, Hn, Hf0, Hn0. simpl. lia.
Qed.

(** ** Closing the device *)




(** X14.  Closing a device that has no socket returns at once and never
    gets to the exported files: the map keeps every entry, nothing is
    unmapped or closed, no message goes to the device process, and the
    registry stays; the device directory is removed unless the
    configuration keeps it. *)
Theorem xclClose_without_socket :
  forall (fuel : nat) (s : CpuemShim),
    sock s = None ->
    exists s' evs,
      xclClose fuel s = Some s'
      /\ sock s' = None
      /\ mFdToFileNameMap s' = mFdToFileNameMap s
      /\ mXoclObjMap s' = mXoclObjMap s
      /\ trace s' = (trace s ++ evs)%list
      /\ Forall (fun e => is_munmap e = false) evs
      /\ Forall (fun e => is_rpc e = false) evs
      /\ (EvSystemCall (deviceDirectory s) REMOVE "" ∈ evs
          <-> isKeepRunDirEnabled = false).
Proof.
  intros fuel s Hs. unfold xclClose. rewrite Hs.
  unfold fini_scheduler.
  destruct isKeepRunDirEnabled; simpl;
    destruct (mIsKdsSwEmu s && mSWSch s); simpl.
  - exists (with_mSWSch false (emit EvSchedulerFini s)), [EvSchedulerFini].
    simpl. split; [reflexivity|]. split; [exact Hs|].
    split; [reflexivity|]. split; [reflexivity|]. split; [reflexivity|].
    split; [repeat constructor|]. split; [repeat constructor|].
    split; [|discriminate].
    intros Hin. apply list_elem_of_In in Hin. simpl in Hin.
    destruct Hin as [Hin|[]]. discriminate.
  - exists s, []. rewrite app_nil_r.
    split; [reflexivity|]. split; [exact Hs|].
    split; [reflexivity|]. split; [reflexivity|]. split; [reflexivity|].
    split; [constructor|]. split; [constructor|].
    split; [|discriminate]. intros Hin. inversion Hin.
  - eexists. exists [EvSystemCall (deviceDirectory s) REMOVE "";
                     EvSchedulerFini].
    split; [reflexivity|]. simpl. rewrite <- app_assoc.
    split; [exact Hs|].
    split; [reflexivity|]. split; [reflexivity|]. split; [reflexivity|].
    split; [repeat constructor|]. split; [repeat constructor|].
    split; [reflexivity|]. intros _. left.
  - eexists. exists [EvSystemCall (deviceDirectory s) REMOVE ""].
    split; [reflexivity|]. simpl.
    split; [exact Hs|].
    split; [reflexivity|]. split; [reflexivity|]. split; [reflexivity|].
    split; [repeat constructor|]. split; [repeat constructor|].
    split; [reflexivity|]. intros _. left.
Qed.

(** ** Loading a binary: the search for a free file name *)

Lemma string_length_app (a b : string) :
  String.length (a +:+ b) = (String.length a + String.length b)%nat.
Proof.
  induction a as [|c a IH]; [reflexivity|].
  change (String c a +:+ b) with (String c (a +:+ b)).
  cbn [String.length]. rewrite IH. reflexivity.
Qed.

Lemma string_app_assoc (a b c : string) :
  (a +:+ b) +:+ c = a +:+ (b +:+ c).
Proof.
  induction a as [|x a IH]; [reflexivity|].
  change (String x (a +:+ b) +:+ c = String x (a +:+ (b +:+ c))).
  change (String x ((a +:+ b) +:+ c) = String x (a +:+ (b +:+ c))).
  rewrite IH. reflexivity.
Qed.

Lemma string_app_nil_r (a : string) : a +:+ "" = a.
Proof.
  induction a as [|x a IH]; [reflexivity|].
  change (String x (a +:+ "") = String x a). rewrite IH. reflexivity.
Qed.

Lemma at_least_as_long_le (n : nat) fs :
  (length (at_least_as_long n fs) <= length fs)%nat.
Proof. apply List.filter_length_le. Qed.

(** A name that is taken is one of the files counted for its length, and
    not one of those counted for any greater length. *)
Lemma at_least_as_long_lt (name : string) (n : nat) fs :
  name ∈ fs -> (String.length name < n)%nat ->
  (length (at_least_as_long n fs)
   < length (at_least_as_long (String.length name) fs))%nat.
Proof.
  intros Hin Hn. unfold at_least_as_long.
  induction fs as [|f fs IH]; [inversion Hin|].
  simpl.
  assert (Hmono : (length (List.filter (fun f => (n <=? String.length f)%nat) fs)
                   <= length (List.filter
                                (fun f => (String.length name <=? String.length f)%nat)
                                fs))%nat).
  { clear -Hn. induction fs as [|g fs IH]; simpl; [lia|].
    destruct (n <=? String.length g)%nat eqn:E1;
      destruct (String.length name <=? String.length g)%nat eqn:E2;
      simpl; try lia.
    apply Nat.leb_le in E1. apply Nat.leb_gt in E2. lia. }
  apply elem_of_cons in Hin as [<-|Hin].
  - rewrite Nat.leb_refl.
    replace (n <=? String.length name)%nat with false
      by (symmetry; apply Nat.leb_gt; lia).
    simpl. lia.
  - specialize (IH Hin).
    destruct (n <=? String.length f)%nat eqn:E1;
      destruct (String.length name <=? String.length f)%nat eqn:E2;
      simpl; try lia.
    apply Nat.leb_le in E1. apply Nat.leb_gt in E2. lia.
Qed.

Lemma free_xml_name_found :
  forall (fuel : nat) (name : string) (s : CpuemShim),
    (length (at_least_as_long (String.length name) (files s)) <= fuel)%nat ->
    exists suffix,
      free_xml_name fuel name s = Some (name +:+ suffix)
      /\ name +:+ suffix ∉ files s.
Proof.
  induction fuel as [|fuel IH]; intros name s Hfuel; simpl;
    unfold file_exists; destruct (bool_decide (name ∈ files s)) eqn:E.
  - apply bool_decide_eq_true in E.
    pose proof (at_least_as_long_lt name (S (String.length name)) (files s) E
                  ltac:(lia)). lia.
  - apply bool_decide_eq_false in E. exists "".
    rewrite string_app_nil_r. auto.
  - apply bool_decide_eq_true in E.
    destruct (IH (name +:+ "_") s) as (suffix & Hr & Hfree).
    + pose proof (at_least_as_long_lt name (String.length (name +:+ "_"))
                    (files s) E) as Hlt.
      rewrite string_length_app in *. simpl in *.
      specialize (Hlt ltac:(lia)). lia.
    + exists ("_" +:+ suffix). rewrite <- string_app_assoc. auto.
  - apply bool_decide_eq_false in E. exists "".
    rewrite string_app_nil_r. auto.
Qed.

Lemma hex_digits_longer :
  forall (width : nat) (n : Z) (acc : string),
    (String.length acc <= String.length (hex_digits width n acc))%nat
    /\ (width <> O ->
        (String.length acc < String.length (hex_digits width n acc))%nat).
Proof.
  induction width as [|width IH]; intros n acc; simpl.
  - split; [lia|congruence].
  - destruct (n / 16 =? 0).
    + simpl. split; [lia|intros; lia].
    + destruct (IH (n / 16) (String (hex_digit (n mod 16)) acc)) as (Hle & _).
      simpl in Hle. split; [lia|intros; lia].
Qed.

Lemma free_dl_name_found :
  forall (fuel : nat) (name : string) (counter : Z) (s : CpuemShim),
    (length (at_least_as_long (String.length name) (files s)) <= fuel)%nat ->
    exists suffix,
      free_dl_name fuel name counter s = Some (name +:+ suffix)
      /\ name +:+ suffix ∉ files s.
Proof.
  induction fuel as [|fuel IH]; intros name counter s Hfuel; simpl;
    unfold file_exists; destruct (bool_decide (name ∈ files s)) eqn:E.
  - apply bool_decide_eq_true in E.
    pose proof (at_least_as_long_lt name (S (String.length name)) (files s) E
                  ltac:(lia)). lia.
  - apply bool_decide_eq_false in E. exists "".
    rewrite string_app_nil_r. auto.
  - apply bool_decide_eq_true in E.
    destruct (IH (name +:+ to_hex counter) (u32 (counter + 1)) s)
      as (suffix & Hr & Hfree).
    + pose proof (at_least_as_long_lt name
                    (String.length (name +:+ to_hex counter)) (files s) E)
        as Hlt.
      rewrite string_length_app in *.
      assert (Hpos : (0 < String.length (to_hex counter))%nat).
      { destruct (hex_digits_longer 16 counter "") as (_ & Hpos).
        apply Hpos. discriminate. }
      specialize (Hlt ltac:(lia)). lia.
    + exists (to_hex counter +:+ suffix). rewrite <- string_app_assoc. auto.
  - apply bool_decide_eq_false in E. exists "".
    rewrite string_app_nil_r. auto.
Qed.

Lemma memcmp_xclbin2_not_xclbin0 buf :
  memcmp_eq buf "xclbin2" 7 = true -> memcmp_eq buf "xclbin0" 8 = false.
Proof.
  unfold memcmp_eq. intros H2%bool_decide_eq_true.
  apply bool_decide_eq_false. intros H0.
  assert (H7 : take 7 (take 8 buf) = take 7 buf)
    by (rewrite take_take; reflexivity).
  rewrite H0, H2 in H7. vm_compute in H7. discriminate.
Qed.

(** ** Loading a binary: what the steps hand on *)

Lemma steady_refl s : steady s s.
Proof. unfold steady. auto 10. Qed.

Lemma steady_trans s1 s2 s3 : steady s1 s2 -> steady s2 s3 -> steady s1 s3.
Proof.
  unfold steady. intros (?&?&?&?&?&?&?&?) (?&?&?&?&?&?&?&?).
  repeat split; congruence.
Qed.

Lemma steady_with_trace tr s : steady s (with_trace tr s).
Proof. unfold steady. simpl. auto 10. Qed.

Lemma steady_emit e s : steady s (emit e s).
Proof. apply steady_with_trace. Qed.

Lemma steady_rpc c s : steady s (rpc c s).2.
Proof. apply steady_with_trace. Qed.

Lemma steady_saveDeviceProcessOutput s : steady s (saveDeviceProcessOutput s).
Proof.
  destruct (saveDeviceProcessOutput_events s) as (evs & -> & _).
  apply steady_with_trace.
Qed.

Lemma steady_init_scheduler s : steady s (init_scheduler s).
Proof.
  unfold init_scheduler. destruct (mIsKdsSwEmu s); [|apply steady_refl].
  unfold steady. simpl. auto 10.
Qed.

Lemma steady_open_log s : steady s (open_log s).
Proof.
  unfold open_log. destruct (negb _); [|apply steady_refl].
  unfold steady. simpl. auto 10.
Qed.

Lemma setup_instances_steady m_mem conns :
  forall prev argFlowIdMap s,
    match setup_instances m_mem conns prev argFlowIdMap s with
    | Done _ s' => steady s s'
    | Fault s' => steady s s'
    | Exited _ _ => False
    | OutOfFuel => False
    end.
Proof.
  induction conns as [|c rest IH]; intros prev m s; simpl.
  - apply steady_refl.
  - destruct (_ <? mem_data_index c); [apply steady_refl|].
    destruct (if mem_data_index c <? 0 then None else _) as [md|];
      [|apply steady_refl].
    destruct (negb (prev =? ULLONG_MAX)
              && negb (Z.land 4294901760 (flow_id md) =? prev)).
    + match goal with
      | |- context [setup_instances m_mem rest ?a ?b ?c] =>
          specialize (IH a b c); destruct (setup_instances m_mem rest a b c)
      end; try exact IH;
        (eapply steady_trans; [apply steady_rpc|exact IH]).
    + apply IH.
Qed.

Lemma configure_instances_steady h s :
  match configure_instances h s with
  | Done _ s' => steady s s'
  | Fault s' => steady s s'
  | Exited _ _ => False
  | OutOfFuel => False
  end.
Proof.
  unfold configure_instances.
  destruct (get_axlf_section h ASK_GROUP_TOPOLOGY); [|apply steady_refl].
  destruct (get_axlf_section h CONNECTIVITY); [|apply steady_refl].
  pose proof (setup_instances_steady (m_mem_data h) (m_connection h)
                ULLONG_MAX ∅ s) as Hs.
  destruct (setup_instances _ _ _ _ _) as [[[prev m]|] s'| | |]; exact Hs.
Qed.

(** What [resetProgram] does, in one place. *)
Lemma resetProgram_shape s :
  let s' := resetProgram s in
  mFdToFileNameMap s' = ∅
  /\ sock s' = sock s /\ binaryCounter s' = binaryCounter s
  /\ mFirstBinary s' = mFirstBinary s
  /\ deviceDirectory s' = deviceDirectory s
  /\ mXoclObjMap s' = mXoclObjMap s
  /\ mDDRMemoryManager s' = mDDRMemoryManager s
  /\ mBufferCount s' = mBufferCount s
  /\ files s' = files s
  /\ exists rest,
       trace s'
       = (trace s
            ++ (EvMunmapClose
                  <$> merge_sort Z.le (elements (dom (mFdToFileNameMap s))))
            ++ rest)%list
       /\ Forall (fun e => is_munmap e = false) rest.
Proof.
  cbv zeta. unfold resetProgram.
  rewrite (foldl_emit (fun _ fd => EvMunmapClose fd)) by reflexivity.
  set (fds := merge_sort Z.le (elements (dom (mFdToFileNameMap s)))).
  cbn [sock with_mFdToFileNameMap with_trace].
  destruct (sock s) as [sk|] eqn:Hsock.
  - destruct (negb (String.eqb (get_name sk) ""));
      match goal with
      | |- context [saveDeviceProcessOutput ?x] =>
          destruct (saveDeviceProcessOutput_events x) as (evs & -> & Hevs)
      end; simpl; (repeat split; auto).
    + exists (EvRpc xclClose_RPC_CALL :: evs).
      rewrite <- !app_assoc. simpl. split; [reflexivity|].
      constructor; [reflexivity|].
      eapply Forall_impl; [exact Hevs|]. intros e (a & b & ->). reflexivity.
    + exists evs. rewrite <- !app_assoc. split; [reflexivity|].
      eapply Forall_impl; [exact Hevs|]. intros e (a & b & ->). reflexivity.
  - unfold fini_scheduler. simpl.
    destruct (mIsKdsSwEmu s && mSWSch s); simpl; rewrite ?Hsock;
      (repeat split; auto).
    + exists [EvSchedulerFini]. rewrite <- !app_assoc.
      split; [reflexivity|]. repeat constructor.
    + exists []. rewrite app_nil_r. split; [reflexivity|]. constructor.
Qed.

Lemma steady_fwrite path len s : steady s (fwrite path len s).
Proof.
  unfold fwrite. destruct (file_exists path s); unfold steady; simpl; auto 10.
Qed.

Lemma at_least_as_long_length n fs :
  (length (at_least_as_long n fs) <= length fs)%nat.
Proof.
  unfold at_least_as_long. induction fs as [|f fs IH]; simpl; [lia|].
  destruct (n <=? String.length f)%nat; simpl; lia.
Qed.

(** How [dumpXML] ends; it runs out of fuel only when there are more
    files than fuel. *)
Lemma dumpXML_cases fuel header start s :
  match dumpXML fuel header start s with
  | Done (r, loc) s' =>
      steady s s'
      /\ (files s' = files s \/ r = 0 /\ files s' = loc :: files s)
  | OutOfFuel => (fuel < length (files s))%nat
  | _ => False
  end.
Proof.
  unfold dumpXML.
  destruct header as [h|]; [|split; [apply steady_refl|auto]].
  destruct (memcmp_eq (xclbininmemory h) "xclbin0" 8);
    [split; [apply steady_refl|auto]|].
  destruct (memcmp_eq (xclbininmemory h) "xclbin2" 7);
    [|split; [apply steady_refl|auto]].
  destruct (get_axlf_section h EMBEDDED_METADATA) as [sec|];
    [|split; [apply steady_refl|auto]].
  destruct (negb true || (s32 (m_sectionSize sec) =? 0));
    [split; [apply steady_refl|auto]|].
  cbv zeta.
  set (s1 := makeSystemCall _ PERMISSIONS "777" _).
  assert (Hs1 : steady s s1) by (unfold steady; simpl; auto 10).
  assert (Hf1 : files s1 = files s) by reflexivity.
  match goal with
  | |- context [free_xml_name fuel ?n s1] =>
      destruct (free_xml_name fuel n s1) as [loc|] eqn:Hname;
        [|destruct (le_lt_dec (length (files s)) fuel) as [Hle|Hlt];
          [|exact Hlt];
          destruct (free_xml_name_found fuel n s1) as (suffix & Hs & _);
          [etransitivity; [apply at_least_as_long_length|];
           rewrite Hf1; exact Hle
          |congruence]]
  end.
  destruct (negb (fopen_wb_ok _)).
  - split; [exact Hs1|]. left. exact Hf1.
  - split; [eapply steady_trans; [exact Hs1|apply steady_fwrite]|].
    unfold fwrite. destruct (file_exists loc s1); simpl; auto.
Qed.

(** X15. With fuel for the files that exist, [dumpXML] of a container with
    metadata returns: the name it leaves names a file that did not exist
    before; status 0 means that this file, and no other, was created, and
    that the last event is the write to it, of the metadata length as
    [fwrite] receives it (the [int] read as a [size_t]: a section size
    with bit 31 set asks for [2 ^ 64] minus something); status -1 means
    that the file could not be opened and no file was created. *)
Theorem dumpXML_writes_fresh_file fuel h sec start s :
  memcmp_eq (xclbininmemory h) "xclbin2" 7 = true ->
  get_axlf_section h EMBEDDED_METADATA = Some sec ->
  s32 (m_sectionSize sec) <> 0 ->
  (length (files s) <= fuel)%nat ->
  exists r loc s',
    dumpXML fuel (Some h) start s = Done (r, loc) s'
    /\ (loc ∉ files s)
    /\ (r = 0 /\ fopen_wb_ok loc = true /\ files s' = loc :: files s
        /\ last (trace s')
           = Some (EvFileWrite loc (u64 (s32 (m_sectionSize sec))))
        \/ r = -1 /\ fopen_wb_ok loc = false /\ files s' = files s).
Proof.
  intros Hmagic Hsec Hlen Hfuel. unfold dumpXML.
  rewrite (memcmp_xclbin2_not_xclbin0 _ Hmagic), Hmagic, Hsec.
  apply Z.eqb_neq in Hlen. rewrite Hlen. cbn [negb orb]. cbv zeta.
  set (s1 := makeSystemCall _ PERMISSIONS "777" _).
  assert (Hf1 : files s1 = files s) by reflexivity.
  match goal with
  | |- context [free_xml_name fuel ?n s1] =>
      destruct (free_xml_name_found fuel n s1) as (suffix & -> & Hfresh)
  end.
  { etransitivity; [apply at_least_as_long_length|]. rewrite Hf1. exact Hfuel. }
  destruct (fopen_wb_ok _) eqn:Hopen; cbn [negb].
  - eexists 0, _, _. split; [reflexivity|].
    rewrite <- Hf1. split; [exact Hfresh|]. left.
    split; [reflexivity|]. split; [exact Hopen|].
    unfold fwrite, file_exists. rewrite bool_decide_eq_false_2 by exact Hfresh.
    split; [reflexivity|]. simpl. apply last_snoc.
  - eexists (-1), _, _. split; [reflexivity|].
    rewrite <- Hf1. split; [exact Hfresh|]. right. auto.
Qed.

(** What [launchDeviceProcess] hands on to the load. *)
Lemma launchDeviceProcess_frame debuggable s :
  let r := launchDeviceProcess debuggable s in
  r.1 = deviceDirectory s +:+ "/binary_" +:+ to_string (binaryCounter s)
  /\ is_Some (sock r.2)
  /\ binaryCounter r.2 = u32 (binaryCounter s + 1)
  /\ deviceDirectory r.2 = deviceDirectory s
  /\ files r.2 = files s
  /\ mFirstBinary r.2 = mFirstBinary s
  /\ Forall (fun e => is_rpc e = false) (drop (length (trace s)) (trace r.2)).
Proof.
  unfold launchDeviceProcess, parseIni. simpl.
  destruct (sock s) eqn:E; simpl.
  - rewrite E. repeat split; eauto.
    rewrite <- !app_assoc, drop_app_length. repeat constructor.
  - destruct isDontRun; simpl; (repeat split; eauto);
      rewrite <- !app_assoc, drop_app_length; repeat constructor.
Qed.

(** The state in which both loads start their work on the container. *)
Lemma load_prologue s :
  let s1 := with_mFirstBinary false (open_log (resetProgram s)) in
  sock s1 = sock s /\ binaryCounter s1 = binaryCounter s
  /\ mFirstBinary s1 = false /\ mFdToFileNameMap s1 = ∅
  /\ files s1 = files s.
Proof.
  cbv zeta.
  destruct (resetProgram_shape s) as (Hfd & Hsk & Hbc & _ & _ & _ & _ & _ & Hf & _).
  unfold open_log. destruct (negb _); simpl; auto.
Qed.

Lemma steady_emuData h bdir s :
  steady s
    (match get_axlf_section h EMULATION_DATA with
     | Some _ =>
         if 1 <? section_size h EMULATION_DATA then
           makeSystemCall bdir PERMISSIONS "777"
             (makeSystemCall (bdir +:+ "/emuDataFile") UNZIP bdir
                (fwrite (bdir +:+ "/emuDataFile")
                   (section_size h EMULATION_DATA) s))
         else s
     | None => s
     end).
Proof.
  destruct (get_axlf_section h EMULATION_DATA); [|apply steady_refl].
  destruct (1 <? _); [|apply steady_refl].
  unfold makeSystemCall.
  eapply steady_trans; [apply steady_fwrite|].
  eapply steady_trans; apply steady_emit.
Qed.

(** How the load of the container ends, given the files that exist. *)
Lemma load_program_cases fuel h xml bdir s :
  match load_program fuel h xml bdir s with
  | Done r s' =>
      sock s' = sock s /\ binaryCounter s' = binaryCounter s
      /\ mFirstBinary s' = false /\ mFdToFileNameMap s' = ∅
      /\ (r = -1
          \/ r = 0
             /\ exists tr c,
                  trace s' = (tr ++ [EvRpc c])%list
                  /\ is_load_bitstream c = true
                  /\ r_val (peer_reply tr c) <> 0)
  | Fault _ => True
  | Exited _ _ => False
  | OutOfFuel => (fuel < length (files s))%nat
  end.
Proof.
  unfold load_program. cbv zeta.
  pose proof (load_prologue s) as Hp. cbv zeta in Hp.
  set (s1 := with_mFirstBinary false (open_log (resetProgram s))) in *.
  destruct Hp as (Hsk & Hbc & Hfb & Hfd & Hf).
  destruct (memcmp_eq (xclbininmemory h) "xclbin0" 8); [auto 10|].
  destruct (negb (memcmp_eq (xclbininmemory h) "xclbin2" 7)); [auto 10|].
  match goal with
  | |- context [free_dl_name fuel ?n ?c s1] =>
      destruct (free_dl_name fuel n c s1) as [dl|] eqn:Hname;
        [|destruct (le_lt_dec (length (files s)) fuel) as [Hle|Hlt];
          [|exact Hlt];
          destruct (free_dl_name_found fuel n c s1) as (suffix & Hs & _);
          [etransitivity; [apply at_least_as_long_length|];
           rewrite Hf; exact Hle
          |congruence]]
  end.
  destruct (negb (fopen_wb_ok _)); [auto 10|].
  match goal with
  | |- context [fwrite ?p ?l s1] =>
      pose proof (steady_fwrite p l s1) as Hw; set (s2 := fwrite p l s1) in *
  end.
  pose proof (configure_instances_steady h s2) as Hc.
  destruct (configure_instances h s2) as [[u|] s3|c s3|s3|];
    [| |exact Hc|exact I|destruct Hc].
  - pose proof (steady_init_scheduler s3) as Hi.
    pose proof (steady_emuData h bdir (init_scheduler s3)) as He.
    match type of He with steady _ ?x => set (s5 := x) in * end.
    assert (Hall : steady s1 s5).
    { eapply steady_trans; [exact Hw|]. eapply steady_trans; [exact Hc|].
      eapply steady_trans; [exact Hi|exact He]. }
    destruct Hall as (a & b & c & d & _).
    unfold rpc. cbv beta iota.
    destruct (negb (negb (_ =? 0))) eqn:Hack; simpl;
      rewrite a, b, c, d; (repeat split; auto).
    right. split; [reflexivity|]. eexists _, _. split; [reflexivity|].
    split; [reflexivity|].
    apply negb_false_iff, negb_true_iff, Z.eqb_neq in Hack. exact Hack.
  - destruct Hw as (a & b & c & d & _), Hc as (a' & b' & c' & d' & _).
    rewrite a', b', c', d', a, b, c, d. auto 10.
Qed.

Lemma load_program_new_flow_cases h xml bdir s :
  match load_program_new_flow h xml bdir s with
  | Done r s' =>
      sock s' = sock s /\ binaryCounter s' = binaryCounter s
      /\ mFirstBinary s' = false /\ mFdToFileNameMap s' = ∅
      /\ (r = -1
          \/ r = 0
             /\ exists tr c,
                  trace s' = (tr ++ [EvRpc c])%list
                  /\ is_load_bitstream c = true
                  /\ r_val (peer_reply tr c) <> 0)
  | Fault _ => True
  | Exited _ _ => False
  | OutOfFuel => False
  end.
Proof.
  unfold load_program_new_flow. cbv zeta.
  pose proof (load_prologue s) as Hp. cbv zeta in Hp.
  set (s1 := with_mFirstBinary false (open_log (resetProgram s))) in *.
  destruct Hp as (Hsk & Hbc & Hfb & Hfd & Hf).
  destruct (memcmp_eq (xclbininmemory h) "xclbin0" 8); [auto 10|].
  destruct (negb (memcmp_eq (xclbininmemory h) "xclbin2" 7)); [auto 10|].
  pose proof (configure_instances_steady h s1) as Hc.
  destruct (configure_instances h s1) as [[u|] s3|c s3|s3|]; auto.
  - pose proof (steady_init_scheduler s3) as Hi.
    assert (Hall : steady s1 (init_scheduler s3))
      by (eapply steady_trans; [exact Hc|exact Hi]).
    destruct Hall as (a & b & c & d & _).
    unfold rpc. cbv beta iota.
    destruct (_ =? 0); simpl; [rewrite a, b, c, d; auto 10|].
    destruct (_ =? 0) eqn:Hack; simpl; rewrite a, b, c, d;
      (repeat split; auto).
    right. split; [reflexivity|]. eexists _, _. split; [reflexivity|].
    split; [reflexivity|]. apply Z.eqb_neq in Hack. exact Hack.
  - destruct Hc as (a' & b' & c' & d' & _).
    rewrite a', b', c', d'. auto 10.
Qed.

(** What [xclLoadXclBinNewFlow] can end in. *)
Lemma xclLoadXclBinNewFlow_cases header s :
  match xclLoadXclBinNewFlow header s with
  | Done r s' => r = -1 \/ r = 1 \/ r = 0 /\ (is_Some header -> loaded s s')
  | OutOfFuel => False
  | _ => True
  end.
Proof.
  assert (Hcont : forall s0 bdir,
            binaryCounter s0 = binaryCounter s ->
            let s1 := with_binaryCounter (u32 (binaryCounter s0 + 1))
                        (makeSystemCall bdir PERMISSIONS "777"
                           (makeSystemCall bdir CREATE ""
                              (makeSystemCall (deviceDirectory s0) PERMISSIONS "777"
                                 (makeSystemCall (deviceDirectory s0) CREATE "" s0)))) in
            let s2 :=
              match sock s1 with
              | Some _ => s1
              | None =>
                  with_sock (Some (new_unix_socket (Some true) (trace s1)))
                    (emit (EvNewSocket (Some true)) s1)
              end in
            match
              match header with
              | Some h => load_program_new_flow h "" bdir s2
              | None => Done 0 s2
              end
            with
            | Done r s' =>
                r = -1 \/ r = 1 \/ r = 0 /\ (is_Some header -> loaded s s')
            | OutOfFuel => False
            | _ => True
            end).
  { intros s0 bdir Hs0. cbv zeta.
    set (s1 := with_binaryCounter _ _).
    assert (Hbc : binaryCounter s1 = u32 (binaryCounter s + 1))
      by (rewrite <- Hs0; reflexivity).
    set (s2 := match sock s1 with Some _ => s1 | None => _ end).
    assert (H2 : is_Some (sock s2) /\ binaryCounter s2 = binaryCounter s1).
    { subst s2. destruct (sock s1) eqn:E; [rewrite E|]; simpl; eauto. }
    destruct H2 as (Hsk2 & Hbc2).
    destruct header as [h|].
    - pose proof (load_program_new_flow_cases h "" bdir s2) as Hl.
      destruct (load_program_new_flow h "" bdir s2) as [r s'|c s'|s'|]; auto.
      destruct Hl as (a & b & c & d & [-> | (-> & Hlast)]); [auto|].
      right. right. split; [reflexivity|]. intros _.
      unfold loaded. rewrite a, b, Hbc2, Hbc. auto.
    - right. right. split; [reflexivity|]. intros [x Hx]. discriminate. }
  unfold xclLoadXclBinNewFlow. cbv zeta.
  destruct (negb isDontRun).
  - destruct (negb (isRemotePortMapped s) && negb dev_mem_ok); [exact I|].
    destruct header as [h|]; [|exact I].
    destruct (validateXclBin h) as [ok name].
    destruct (negb ok); [auto|].
    destruct (negb (isRemotePortMapped s)).
    + refine (Hcont
                (emit (EvPlLauncher (name +:+ ".xclbin"))
                   (with_isRemotePortMapped true (emit EvRemotePortMap s)))
                _ _).
      reflexivity.
    + refine (Hcont (emit (EvPlLauncher (name +:+ ".xclbin")) s) _ _).
      reflexivity.
  - refine (Hcont s _ _). reflexivity.
Qed.

(** What [xclLoadXclBin] can end in. *)
Lemma xclLoadXclBin_cases fuel header s :
  match xclLoadXclBin fuel header s with
  | Done r s' => r = 0 -> is_Some header -> loaded s s'
  | OutOfFuel => (fuel <= length (files s))%nat
  | _ => True
  end.
Proof.
  unfold xclLoadXclBin.
  destruct (isAieEnabled header).
  { pose proof (xclLoadXclBinNewFlow_cases header s) as Hn.
    destruct (xclLoadXclBinNewFlow header s) as [r s'|c s'|s'|];
      [|exact I|exact I|destruct Hn].
    intros -> Hh. destruct Hn as [Hn|[Hn|[_ Hn]]]; [discriminate..|auto]. }
  pose proof (dumpXML_cases fuel header "" s) as Hd.
  destruct (dumpXML fuel header "" s) as [[r xml] s1|c s1|s1|];
    [|exact I|exact I|lia].
  destruct Hd as (Hst & Hfiles).
  destruct (negb (r =? 0)) eqn:Hr.
  { intros ->. discriminate. }
  assert (Hlen : (length (files s1) <= S (length (files s)))%nat).
  { destruct Hfiles as [-> | (_ & ->)]; simpl; lia. }
  destruct Hst as (Hsk & Hbc & _).
  destruct header as [h|].
  - assert (Hgen : forall d,
      match
        (let '(binaryDirectory, s) := launchDeviceProcess d s1 in
         load_program fuel h xml binaryDirectory s)
      with
      | Done r0 s' => r0 = 0 -> is_Some (Some h) -> loaded s s'
      | OutOfFuel => (fuel <= length (files s))%nat
      | _ => True
      end).
    { intros d. pose proof (launchDeviceProcess_frame d s1) as Hl.
      destruct (launchDeviceProcess d s1) as [bdir s2].
      cbv zeta in Hl. simpl in Hl.
      destruct Hl as (_ & Hopen & Hbc2 & _ & Hf2 & _).
      pose proof (load_program_cases fuel h xml bdir s2) as Hp.
      destruct (load_program fuel h xml bdir s2) as [r0 s'|c s'|s'|];
        [|exact I|exact I|rewrite Hf2 in Hp; lia].
      intros -> _. destruct Hp as (a & b & c & d' & [Hp|[_ Hp]]);
        [discriminate|].
      unfold loaded. rewrite a, b, Hbc2, Hbc. auto. }
    destruct kernel_debug_requested; apply Hgen.
  - destruct kernel_debug_requested; [exact I|].
    destruct (launchDeviceProcess _ s1). intros _ [x Hx]. discriminate.
Qed.

Lemma xclLoadXclBin_zero_magic fuel h s s' :
  xclLoadXclBin fuel (Some h) s = Done 0 s' ->
  memcmp_eq (xclbininmemory h) "xclbin2" 7 = true.
Proof.
  unfold xclLoadXclBin, isAieEnabled, dumpXML.
  destruct (memcmp_eq (xclbininmemory h) "xclbin0" 8); [discriminate|].
  destruct (memcmp_eq (xclbininmemory h) "xclbin2" 7); [reflexivity|].
  discriminate.
Qed.

(** X16. With more fuel than there are files, [xclLoadXclBin] comes to an
    end on every container and every state: both searches for a free file
    name terminate. *)
Theorem xclLoadXclBin_returns fuel header s :
  (length (files s) < fuel)%nat ->
  xclLoadXclBin fuel header s <> OutOfFuel.
Proof.
  intros Hfuel Hout. pose proof (xclLoadXclBin_cases fuel header s) as Hc.
  rewrite Hout in Hc. lia.
Qed.

(** X17. When [xclLoadXclBin] returns 0 for a container, the container
    starts with the magic "xclbin2", the session is open, the binary
    counter has moved on by one (modulo 2^32), every mapping recorded
    before is gone, the first-binary flag is down, and the last thing that
    happened is a load-bitstream message that the peer acknowledged. *)
Theorem xclLoadXclBin_success fuel h s s' :
  xclLoadXclBin fuel (Some h) s = Done 0 s' ->
  memcmp_eq (xclbininmemory h) "xclbin2" 7 = true /\ loaded s s'.
Proof.
  intros Hload. split; [exact (xclLoadXclBin_zero_magic _ _ _ _ Hload)|].
  pose proof (xclLoadXclBin_cases fuel (Some h) s) as Hc.
  rewrite Hload in Hc. apply Hc; eauto.
Qed.

(** X18. A container with the current magic that carries neither AIE
    metadata nor (non-empty) embedded metadata is refused with -1 before
    anything is done: no directory, no process, no message, no change to
    the object. *)
Theorem xclLoadXclBin_no_metadata fuel h s :
  memcmp_eq (xclbininmemory h) "xclbin2" 7 = true ->
  get_axlf_section h AIE_METADATA = None ->
  match get_axlf_section h EMBEDDED_METADATA with
  | Some sec => s32 (m_sectionSize sec) = 0
  | None => True
  end ->
  xclLoadXclBin fuel (Some h) s = Done (-1) s.
Proof.
  intros Hmagic Haie Hmeta.
  unfold xclLoadXclBin, isAieEnabled, dumpXML.
  rewrite (memcmp_xclbin2_not_xclbin0 _ Hmagic), Hmagic, Haie.
  destruct (get_axlf_section h EMBEDDED_METADATA) as [sec|].
  - rewrite Hmeta. reflexivity.
  - reflexivity.
Qed.

(** X19. With a null header and no request for kernel debugging,
    [xclLoadXclBin] returns 0 after starting the session only: the socket
    is there, the binary counter has moved on by one, and no message was
    sent to the device process. *)
Theorem xclLoadXclBin_null_header fuel s :
  kernel_debug_requested = false ->
  exists s',
    xclLoadXclBin fuel None s = Done 0 s'
    /\ is_Some (sock s')
    /\ binaryCounter s' = u32 (binaryCounter s + 1)
    /\ mXoclObjMap s' = mXoclObjMap s
    /\ Forall (fun e => is_rpc e = false)
         (drop (length (trace s)) (trace s')).
Proof.
  intros Hdbg. unfold xclLoadXclBin. simpl. rewrite Hdbg. simpl.
  pose proof (launchDeviceProcess_frame false s) as Hl.
  pose proof (launchDeviceProcess_registry false s) as Hr.
  destruct (launchDeviceProcess false s) as [bdir s2].
  cbv zeta in Hl, Hr. simpl in Hl, Hr.
  destruct Hl as (_ & Hopen & Hbc & _ & _ & _ & Hrpc).
  destruct Hr as (Hreg & _).
  exists s2. auto.
Qed.




(** ** Transfers: what the pieces add up to *)

Lemma sum_Z_cons a l : sum_Z (a :: l) = a + sum_Z l.
Proof. reflexivity. Qed.

Lemma chunk_sizes_from size M :
  0 < M < 2 ^ 32 -> 0 <= size < 2 ^ 32 ->
  forall (r : nat) (k : Z),
    0 <= k -> k + Z.of_nat r = chunk_count size M ->
    sum_Z ((chunk_at size M <$> seqZ k (Z.of_nat r)).*2)
    = size - Z.min (k * M) size
    /\ Forall (fun c => 0 < c.2 <= M) (chunk_at size M <$> seqZ k (Z.of_nat r)).
Proof.
  intros HM Hsize.
  pose proof (chunk_count_bounds size M HM Hsize) as (Hn0 & Hn1 & Hn2).
  induction r as [|r IH]; intros k Hk Hkr.
  - simpl. split; [nia|constructor].
  - assert (Hin : 0 <= k < chunk_count size M) by lia.
    pose proof (chunk_inside size M HM Hsize k Hin) as Hinside.
    rewrite (seqZ_cons k (Z.of_nat (S r))) by lia.
    replace (Z.pred (Z.of_nat (S r))) with (Z.of_nat r) by lia.
    replace (Z.succ k) with (k + 1) by lia.
    destruct (IH (k + 1)) as (Hsum & Hall); [lia..|].
    rewrite !fmap_cons. split.
    + rewrite sum_Z_cons, Hsum. simpl.
      assert (Hmin : Z.min (k * M) size = k * M) by lia.
      rewrite Hmin. nia.
    + constructor; [simpl; lia|exact Hall].
Qed.

Lemma chunks_cover size M :
  0 < M < 2 ^ 32 -> 0 <= size < 2 ^ 32 ->
  sum_Z ((chunks size M).*2) = size
  /\ Forall (fun c => 0 < c.2 <= M) (chunks size M).
Proof.
  intros HM Hsize. unfold chunks.
  pose proof (chunk_count_bounds size M HM Hsize) as (Hn0 & _).
  pose proof (chunk_sizes_from size M HM Hsize
                (Z.to_nat (chunk_count size M)) 0) as Hc.
  rewrite Z2Nat.id in Hc by lia.
  destruct Hc as (Hsum & Hall); [lia..|].
  split; [rewrite Hsum; lia|exact Hall].
Qed.

Lemma copied_bytes_messages (msg : Z * Z -> Event) (l : list (Z * Z)) M :
  (forall c, copied_bytes (msg c) = c.2) ->
  Forall (fun c => 0 < c.2 <= M) l ->
  sum_Z (copied_bytes <$> (msg <$> l)) = sum_Z (l.*2)
  /\ Forall (fun e => 0 < copied_bytes e <= M) (msg <$> l).
Proof.
  intros Hmsg. induction 1 as [|c l Hc Hl IH].
  - split; [reflexivity|constructor].
  - destruct IH as (IH1 & IH2). rewrite !fmap_cons, !sum_Z_cons, Hmsg, IH1.
    split; [reflexivity|]. constructor; [rewrite Hmsg; exact Hc|exact IH2].
Qed.

(** X21. Within 32 bits and with a positive message size, a transfer in
    either direction returns [size] after sending messages that together
    carry exactly [size] bytes, each of them at least one byte and at most
    one message size. *)
Theorem transfer_covers_size fuel dest src size seek s :
  0 < message_size s < 2 ^ 32 -> 0 <= size < 2 ^ 32 ->
  (Z.to_nat (chunk_count size (message_size s)) <= fuel)%nat ->
  (exists s' msgs,
      xclCopyBufferHost2Device fuel dest src size seek s = Some (size, s')
      /\ trace s' = (trace (ensure_launched s) ++ msgs)%list
      /\ sum_Z (copied_bytes <$> msgs) = size
      /\ Forall (fun e => 0 < copied_bytes e <= message_size s) msgs)
  /\ (exists s' msgs,
        xclCopyBufferDevice2Host fuel dest src size seek s = Some (size, s')
        /\ trace s' = (trace (ensure_launched s) ++ msgs)%list
        /\ sum_Z (copied_bytes <$> msgs) = size
        /\ Forall (fun e => 0 < copied_bytes e <= message_size s) msgs).
Proof.
  intros HM Hsize Hfuel.
  destruct (chunks_cover size (message_size s) HM Hsize) as (Hsum & Hall).
  split.
  - rewrite xclCopyBufferHost2Device_in_range by assumption.
    eexists _, _. split; [reflexivity|]. split; [reflexivity|].
    destruct (copied_bytes_messages
                (h2d_message (u64 (dest + seek)) (src + seek) seek)
                (chunks size (message_size s)) (message_size s))
      as (H1 & H2); [reflexivity|exact Hall|].
    rewrite H1, Hsum. auto.
  - rewrite xclCopyBufferDevice2Host_in_range by assumption.
    eexists _, _. split; [reflexivity|]. split; [reflexivity|].
    destruct (copied_bytes_messages
                (d2h_message (dest + seek) (u64 (src + seek)) seek)
                (chunks size (message_size s)) (message_size s))
      as (H1 & H2); [reflexivity|exact Hall|].
    rewrite H1, Hsum. auto.
Qed.

(** X22. The three callers of the copy functions compare the returned
    count with the requested size and would answer [EIO] on a short count;
    no call ever does: [xclSyncBO] returns 0 or -1 and [xclWriteBO] and
    [xclReadBO] return 0 or the 64-bit pattern of -1, the latter exactly
    when the handle is not registered. *)
Theorem copy_callers_status fuel boHandle size offset s :
  (forall dir,
      match xclSyncBO fuel boHandle dir size offset s with
      | Some (r, _) =>
          r = match xclGetBoByHandle boHandle s with Some _ => 0 | None => -1 end
      | None => True
      end)
  /\ (forall src,
        match xclWriteBO fuel boHandle src size offset s with
        | Some (r, _) =>
            r = match xclGetBoByHandle boHandle s with
                | Some _ => 0
                | None => u64 (-1)
                end
        | None => True
        end)
  /\ (forall dst,
        match xclReadBO fuel boHandle dst size offset s with
        | Some (r, _) =>
            r = match xclGetBoByHandle boHandle s with
                | Some _ => 0
                | None => u64 (-1)
                end
        | None => True
        end).
Proof.
  unfold xclSyncBO, xclWriteBO, xclReadBO.
  destruct (xclGetBoByHandle boHandle s) as [bo|]; [|auto].
  split; [|split].
  - intros [|].
    + destruct (xclCopyBufferHost2Device _ _ _ _ _ _) as [[n s1]|] eqn:E;
        [|exact I].
      apply h2d_returns_size in E. subst n. rewrite Z.eqb_refl. reflexivity.
    + destruct (xclCopyBufferDevice2Host _ _ _ _ _ _) as [[n s1]|] eqn:E;
        [|exact I].
      apply d2h_returns_size in E. subst n. rewrite Z.eqb_refl. reflexivity.
  - intros src.
    destruct (xclCopyBufferHost2Device _ _ _ _ _ _) as [[n s1]|] eqn:E;
      [|exact I].
    apply h2d_returns_size in E. subst n. rewrite Z.eqb_refl. reflexivity.
  - intros dst.
    destruct (xclCopyBufferDevice2Host _ _ _ _ _ _) as [[n s1]|] eqn:E;
      [|exact I].
    apply d2h_returns_size in E. subst n. rewrite Z.eqb_refl. reflexivity.
Qed.

(** ** Completion poll: where the completions go *)

Lemma poll_scan_slots reqs :
  forall actual comps s kept actual' comps' s',
    poll_scan reqs (actual, comps, s) = (kept, (actual', comps', s')) ->
    sublist kept reqs /\ actual <= actual'
    /\ slots_filled reqs actual actual' comps comps'
    /\ mReqList s' = mReqList s /\ mReqCounter s' = mReqCounter s.
Proof.
  induction reqs as [|it rest IH]; intros actual comps s kept actual' comps' s'.
  - simpl. intros [= <- <- <- <-].
    split; [constructor|]. split; [lia|].
    split; [split; [intros; lia|auto]|auto].
  - simpl. destruct (0 <? _) eqn:Hdone.
    + intros Hscan. apply IH in Hscan.
      destruct Hscan as (Hsub & Hle & (Hin & Hout) & Hl & Hc).
      split; [apply sublist_cons; exact Hsub|]. split; [lia|].
      split; [|auto]. split.
      * intros i Hi. destruct (decide (i = actual)) as [->|Hne].
        -- rewrite Hout by lia. rewrite lookup_insert.
           eexists. rewrite decide_True by reflexivity.
           split; [reflexivity|]. simpl.
           split; [apply Z.ltb_lt; exact Hdone|].
           apply (list_elem_of_fmap_2 rq_priv (it :: rest) it). left.
        -- destruct (Hin i) as (c & Hc1 & Hc2 & Hc3); [lia|].
           exists c. split; [exact Hc1|]. split; [exact Hc2|].
           apply list_elem_of_fmap in Hc3 as (x & -> & Hx).
           apply (list_elem_of_fmap_2 rq_priv (it :: rest) x). right. exact Hx.
      * intros i Hi. rewrite Hout by lia. apply lookup_insert_ne. lia.
    + destruct (poll_scan rest _) as [kept0 [[a c] s0]] eqn:Hscan.
      intros [= <- <- <- <-]. apply IH in Hscan.
      destruct Hscan as (Hsub & Hle & (Hin & Hout) & Hl & Hc).
      split; [apply sublist_skip; exact Hsub|]. split; [lia|].
      split; [|auto]. split; [|exact Hout].
      intros i Hi. destruct (Hin i Hi) as (c0 & Hc1 & Hc2 & Hc3).
      exists c0. split; [exact Hc1|]. split; [exact Hc2|].
      apply list_elem_of_fmap in Hc3 as (x & -> & Hx).
      apply (list_elem_of_fmap_2 rq_priv (it :: rest) x). right. exact Hx.
Qed.

Lemma slots_filled_trans reqs reqs' lo mid hi c0 c1 c2 :
  lo <= mid <= hi -> sublist reqs' reqs ->
  slots_filled reqs lo mid c0 c1 -> slots_filled reqs' mid hi c1 c2 ->
  slots_filled reqs lo hi c0 c2.
Proof.
  intros Hord Hsub (Hin1 & Hout1) (Hin2 & Hout2). split.
  - intros i Hi. destruct (Z_lt_le_dec i mid) as [Hlt|Hge].
    + rewrite Hout2 by lia. apply Hin1. lia.
    + destruct (Hin2 i) as (c & Hc1 & Hc2 & Hc3); [lia|].
      exists c. split; [exact Hc1|]. split; [exact Hc2|].
      apply list_elem_of_fmap in Hc3 as (it & -> & Hit).
      apply list_elem_of_fmap_2. apply (sublist_subseteq _ _ Hsub). exact Hit.
  - intros i Hi. rewrite Hout2 by lia. apply Hout1. lia.
Qed.

Lemma poll_loop_slots fuel min_compl :
  forall actual comps s actual' comps' s',
    poll_loop fuel min_compl (actual, comps, s) = Some (actual', comps', s') ->
    sublist (mReqList s') (mReqList s) /\ actual <= actual'
    /\ slots_filled (mReqList s) actual actual' comps comps'
    /\ mReqCounter s' = mReqCounter s.
Proof.
  induction fuel as [|fuel IH]; intros actual comps s actual' comps' s'; simpl.
  - destruct (actual <? min_compl); [discriminate|].
    intros [= <- <- <-]. split; [reflexivity|]. split; [lia|].
    split; [split; [intros; lia|auto]|reflexivity].
  - destruct (actual <? min_compl).
    + destruct (poll_scan (mReqList s) (actual, comps, s))
        as [kept [[a c] s1]] eqn:Hscan.
      apply poll_scan_slots in Hscan.
      destruct Hscan as (Hsub & Hle & Hslots & Hl & Hc).
      intros Hloop. apply IH in Hloop. simpl in Hloop.
      destruct Hloop as (Hsub2 & Hle2 & Hslots2 & Hc2).
      split; [etransitivity; eassumption|]. split; [lia|].
      split; [|congruence].
      eapply slots_filled_trans; [split; eassumption|exact Hsub| |];
        eassumption.
    + intros [= <- <- <-]. split; [reflexivity|]. split; [lia|].
      split; [split; [intros; lia|auto]|reflexivity].
Qed.

(** X23. When [xclPollCompletion] returns [actual], the slots 0 to
    [actual - 1] of the caller's array hold completions with a positive
    byte count whose private data is that of a request that was
    outstanding, every other slot is as the caller left it, and the
    requests still outstanding are the ones left over, in the order they
    had. *)
Theorem xclPollCompletion_fills_slots
    fuel min_compl max_compl comps timeout s actual comps' s' :
  xclPollCompletion fuel min_compl max_compl comps timeout s
  = Some (actual, comps', s') ->
  sublist (mReqList s') (mReqList s)
  /\ (forall i, 0 <= i < actual ->
        exists c, comps' !! i = Some c /\ 0 < nbytes c
                  /\ priv_data c ∈ rq_priv <$> mReqList s)
  /\ (forall i, ~ 0 <= i < actual -> comps' !! i = comps !! i).
Proof.
  unfold xclPollCompletion. intros Hpoll.
  apply poll_loop_slots in Hpoll.
  destruct Hpoll as (Hsub & _ & (Hin & Hout) & _). auto.
Qed.

(** ** Streaming queues: submission *)

Lemma write_bufs_sent q_hdl eot nb bufs :
  forall fullSize sent,
    (write_bufs q_hdl eot nb bufs fullSize sent).2
    = (sent ++ ((fun b => xclWriteQueue_RPC_CALL q_hdl (buf_va b) (buf_len b)
                            eot nb) <$> bufs))%list.
Proof.
  induction bufs as [|b rest IH]; intros fullSize sent; simpl.
  - rewrite app_nil_r. reflexivity.
  - rewrite IH, <- app_assoc. reflexivity.
Qed.

(** What [xclWriteQueue] does to the list of outstanding requests. *)
Lemma xclWriteQueue_requests q_hdl wr q :
  let q' := (xclWriteQueue q_hdl wr q).2 in
  mReqList (q_shim q')
  = (if has_flag (qr_flag wr) XCL_QUEUE_REQ_NONBLOCKING
     then (mReqList (q_shim q)
             ++ [{| rq_counter := mReqCounter (q_shim q);
                    rq_priv := qr_priv_data wr;
                    rq_vaLenMap := vaLenMap_of (qr_bufs wr) |}])%list
     else mReqList (q_shim q))
  /\ trace (q_shim q') = trace (q_shim q).
Proof.
  cbv zeta. unfold xclWriteQueue.
  destruct (write_bufs _ _ _ _ _ _) as [fullSize sent].
  destruct (has_flag (qr_flag wr) XCL_QUEUE_REQ_NONBLOCKING); simpl; auto.
Qed.

(** X24. [xclWriteQueue] sends one message per buffer, in the order of the
    buffers and with the two flags of the request, moves the request
    counter on by one (modulo 2^64), and records the request under the
    counter it found and with the caller's private data exactly when the
    request is non-blocking; otherwise the list of outstanding requests is
    as it was. *)
Theorem xclWriteQueue_effects q_hdl wr q :
  let nonBlocking := has_flag (qr_flag wr) XCL_QUEUE_REQ_NONBLOCKING in
  let q' := (xclWriteQueue q_hdl wr q).2 in
  q_sent q'
  = (q_sent q
       ++ ((fun b => xclWriteQueue_RPC_CALL q_hdl (buf_va b) (buf_len b)
                       (has_flag (qr_flag wr) XCL_QUEUE_REQ_EOT) nonBlocking)
             <$> qr_bufs wr))%list
  /\ mReqCounter (q_shim q') = u64 (mReqCounter (q_shim q) + 1)
  /\ mReqList (q_shim q')
     = (if nonBlocking
        then (mReqList (q_shim q)
                ++ [{| rq_counter := mReqCounter (q_shim q);
                       rq_priv := qr_priv_data wr;
                       rq_vaLenMap := vaLenMap_of (qr_bufs wr) |}])%list
        else mReqList (q_shim q))
  /\ trace (q_shim q') = trace (q_shim q)
  /\ mXoclObjMap (q_shim q') = mXoclObjMap (q_shim q).
Proof.
  cbv zeta. unfold xclWriteQueue.
  pose proof (write_bufs_sent q_hdl
                (has_flag (qr_flag wr) XCL_QUEUE_REQ_EOT)
                (has_flag (qr_flag wr) XCL_QUEUE_REQ_NONBLOCKING)
                (qr_bufs wr) 0 (q_sent q)) as Hs.
  destruct (write_bufs _ _ _ _ _ _) as [fullSize sent]. simpl in Hs.
  destruct (has_flag (qr_flag wr) XCL_QUEUE_REQ_NONBLOCKING); simpl; auto.
Qed.

Lemma increasing_below_mono b b' l :
  b <= b' -> increasing_below b l -> increasing_below b' l.
Proof.
  intros Hb. induction l as [|x rest IH]; simpl; [auto|].
  intros (Hx & Hall & Hrest). split; [lia|]. split; [exact Hall|auto].
Qed.

Lemma increasing_below_snoc b l :
  increasing_below b l -> increasing_below (b + 1) (l ++ [b]).
Proof.
  induction l as [|x rest IH]; simpl.
  - intros _. split; [lia|]. split; [constructor|exact I].
  - intros (Hx & Hall & Hrest). split; [lia|]. split; [|auto].
    apply Forall_app. split; [exact Hall|]. constructor; [exact Hx|constructor].
Qed.

Lemma Forall_sublist_of {A} (Q : A -> Prop) (l' l : list A) :
  sublist l' l -> Forall Q l -> Forall Q l'.
Proof.
  induction 1 as [|x l1 l2 Hs IH|x l1 l2 Hs IH]; intros Hall.
  - constructor.
  - inversion Hall; subst. constructor; auto.
  - inversion Hall; subst. auto.
Qed.

Lemma sublist_of_fmap {A B} (f : A -> B) (l' l : list A) :
  sublist l' l -> sublist (f <$> l') (f <$> l).
Proof.
  induction 1; simpl; [constructor|apply sublist_skip|apply sublist_cons];
    assumption.
Qed.

Lemma increasing_below_sublist b (l' l : list StreamReq) :
  sublist l' l ->
  increasing_below b (rq_counter <$> l) ->
  increasing_below b (rq_counter <$> l').
Proof.
  induction 1 as [|x l1 l2 Hs IH|x l1 l2 Hs IH]; simpl.
  - auto.
  - intros (Hx & Hall & Hrest). split; [exact Hx|]. split; [|auto].
    exact (Forall_sublist_of _ _ _ (sublist_of_fmap rq_counter _ _ Hs) Hall).
  - intros (_ & _ & Hrest). auto.
Qed.

Lemma push_request_ordered req s :
  0 <= mReqCounter s < 2 ^ 64 - 1 ->
  requests_ordered s ->
  requests_ordered
    (with_mReqCounter (u64 (mReqCounter s + 1)) (push_request req s)).
Proof.
  intros Hc Hord. unfold requests_ordered, push_request. simpl.
  rewrite fmap_app. simpl.
  replace (u64 (mReqCounter s + 1)) with (mReqCounter s + 1)
    by (unfold u64; rewrite Z.mod_small; lia).
  apply increasing_below_snoc. exact Hord.
Qed.

Lemma bump_ordered s :
  0 <= mReqCounter s < 2 ^ 64 - 1 ->
  requests_ordered s ->
  requests_ordered (with_mReqCounter (u64 (mReqCounter s + 1)) s).
Proof.
  intros Hc Hord. unfold requests_ordered. simpl.
  replace (u64 (mReqCounter s + 1)) with (mReqCounter s + 1)
    by (unfold u64; rewrite Z.mod_small; lia).
  eapply increasing_below_mono; [|exact Hord]. lia.
Qed.

(** X25. As long as the 64-bit request counter does not wrap, submitting
    a request keeps the sequence numbers of the outstanding requests
    strictly increasing along the list and below the counter: after
    [xclWriteQueue], and after every [xclReadQueue] that returns. *)
Theorem submission_keeps_requests_ordered fuel q_hdl req q :
  0 <= mReqCounter (q_shim q) < 2 ^ 64 - 1 ->
  requests_ordered (q_shim q) ->
  requests_ordered (q_shim (xclWriteQueue q_hdl req q).2)
  /\ match xclReadQueue fuel q_hdl req q with
     | Some (_, q') => requests_ordered (q_shim q')
     | None => True
     end.
Proof.
  intros Hc Hord. split.
  - unfold xclWriteQueue. destruct (write_bufs _ _ _ _ _ _) as [fs sent].
    simpl. destruct (has_flag (qr_flag req) XCL_QUEUE_REQ_NONBLOCKING).
    + exact (push_request_ordered req _ Hc Hord).
    + exact (bump_ordered _ Hc Hord).
  - unfold xclReadQueue. destruct (read_bufs _ _ _ _ _ _ _) as [[fs sent]|];
      [|exact I].
    simpl. destruct (has_flag (qr_flag req) XCL_QUEUE_REQ_NONBLOCKING).
    + exact (push_request_ordered req _ Hc Hord).
    + exact (bump_ordered _ Hc Hord).
Qed.

(** X26. A completion poll that returns leaves the sequence numbers of
    the requests still outstanding strictly increasing and below the
    request counter, if they were so before. *)
Theorem xclPollCompletion_keeps_requests_ordered
    fuel min_compl max_compl comps timeout s actual comps' s' :
  requests_ordered s ->
  xclPollCompletion fuel min_compl max_compl comps timeout s
  = Some (actual, comps', s') ->
  requests_ordered s'.
Proof.
  unfold xclPollCompletion. intros Hord Hpoll.
  apply poll_loop_slots in Hpoll. destruct Hpoll as (Hsub & _ & _ & Hc).
  unfold requests_ordered. rewrite Hc.
  exact (increasing_below_sublist _ _ _ Hsub Hord).
Qed.

(** X27. Round trip through the queue.  A non-blocking write on an object
    without outstanding requests, followed by a poll for one completion
    that the peer answers with a positive byte count, hands the private
    data of the request back in slot 0 together with that byte count, and
    leaves no request outstanding. *)
Theorem write_then_poll_returns_priv_data
    fuel q_hdl wr q max_compl comps timeout :
  has_flag (qr_flag wr) XCL_QUEUE_REQ_NONBLOCKING = true ->
  mReqList (q_shim q) = [] ->
  let it := {| rq_counter := mReqCounter (q_shim q);
               rq_priv := qr_priv_data wr;
               rq_vaLenMap := vaLenMap_of (qr_bufs wr) |} in
  let n := u32 (r_val (peer_reply (trace (q_shim q)) (poll_message it))) in
  0 < n ->
  exists q',
    q_poll (S fuel) 1 max_compl comps timeout (xclWriteQueue q_hdl wr q).2
    = Some (1, <[0 := {| priv_data := qr_priv_data wr; nbytes := n |}]> comps,
            q')
    /\ mReqList (q_shim q') = []
    /\ last (trace (q_shim q')) = Some (EvRpc (poll_message it)).
Proof.
  intros Hnb Hempty it n Hn.
  destruct (xclWriteQueue_requests q_hdl wr q) as (Hlist & Htr).
  cbv zeta in Hlist, Htr. rewrite Hnb, Hempty in Hlist.
  simpl in Hlist. fold it in Hlist.
  unfold q_poll, xclPollCompletion.
  set (q1 := (xclWriteQueue q_hdl wr q).2) in *.
  cbn [poll_loop]. change (0 <? 1) with true. cbv beta iota.
  rewrite Hlist. cbn [poll_scan]. unfold rpc. cbv beta iota.
  rewrite Htr. fold (poll_message it). fold n.
  replace (0 <? n) with true by (symmetry; apply Z.ltb_lt; exact Hn).
  cbv beta iota. change (0 + 1) with 1.
  destruct fuel; cbn [poll_loop]; change (1 <? 1) with false; cbv beta iota;
    (eexists; split; [reflexivity|]; simpl; split; [reflexivity|];
     rewrite Htr; apply last_snoc).
Qed.

(** ** Reading from a queue *)

Lemma read_bufs_nonblocking fuel q_hdl eot bufs :
  forall fullSize sent,
  exists total,
    read_bufs (S fuel) q_hdl eot true bufs fullSize sent
    = Some (total,
            (sent ++ ((fun b => xclReadQueue_RPC_CALL q_hdl (buf_va b)
                                  (buf_len b) eot true) <$> bufs))%list).
Proof.
  induction bufs as [|b rest IH]; intros fullSize sent.
  - exists fullSize. simpl. rewrite app_nil_r. reflexivity.
  - cbn [read_bufs read_buf]. rewrite andb_false_r.
    match goal with
    | |- context [read_bufs (S fuel) q_hdl eot true rest ?f ?s] =>
        destruct (IH f s) as (total & ->)
    end.
    exists total. rewrite fmap_cons, <- app_assoc. reflexivity.
Qed.

(** X28. A non-blocking [xclReadQueue] returns after one pass: it asks the
    peer once for every buffer, in order, whatever the answers are,
    records the request and moves the counter on. *)
Theorem xclReadQueue_nonblocking fuel q_hdl rd q :
  has_flag (qr_flag rd) XCL_QUEUE_REQ_NONBLOCKING = true ->
  exists r q',
    xclReadQueue (S fuel) q_hdl rd q = Some (r, q')
    /\ q_sent q'
       = (q_sent q
            ++ ((fun b => xclReadQueue_RPC_CALL q_hdl (buf_va b) (buf_len b)
                            (has_flag (qr_flag rd) XCL_QUEUE_REQ_EOT) true)
                  <$> qr_bufs rd))%list
    /\ mReqCounter (q_shim q') = u64 (mReqCounter (q_shim q) + 1)
    /\ length (mReqList (q_shim q')) = S (length (mReqList (q_shim q))).
Proof.
  intros Hnb. unfold xclReadQueue. rewrite Hnb.
  destruct (read_bufs_nonblocking fuel q_hdl
              (has_flag (qr_flag rd) XCL_QUEUE_REQ_EOT) (qr_bufs rd) 0
              (q_sent q)) as (total & ->).
  eexists _, _. split; [reflexivity|]. simpl.
  split; [reflexivity|]. split; [reflexivity|].
  rewrite length_app. simpl. lia.
Qed.

Lemma read_buf_waits q_hdl dest len eot :
  (forall sent c, queue_reply sent c = 0) ->
  forall fuel sent, read_buf fuel q_hdl dest len eot false sent = None.
Proof.
  intros Hzero. induction fuel as [|fuel IH]; intros sent; simpl.
  - reflexivity.
  - rewrite Hzero. change (0 =? 0) with true. simpl. apply IH.
Qed.

(** X29. A blocking [xclReadQueue] with at least one buffer does not come
    back while the peer has nothing to deliver: when every answer is 0,
    no number of tries makes it return. *)
Theorem xclReadQueue_blocking_waits fuel q_hdl rd q :
  has_flag (qr_flag rd) XCL_QUEUE_REQ_NONBLOCKING = false ->
  qr_bufs rd <> [] ->
  (forall sent c, queue_reply sent c = 0) ->
  xclReadQueue fuel q_hdl rd q = None.
Proof.
  intros Hb Hbufs Hzero. unfold xclReadQueue. rewrite Hb.
  destruct (qr_bufs rd) as [|b rest]; [congruence|].
  cbn [read_bufs]. rewrite read_buf_waits by exact Hzero. reflexivity.
Qed.

End MoreProperties.

(** * Worked instances of the further properties *)

Section MoreInstances.

Local Abbreviation ack := Demo.ack_all.
Local Abbreviation two := Demo.first_two_done.
Local Abbreviation bank0 :=
  ({| Demo.bk_start := 0; Demo.bk_size := 0x100000; Demo.bk_used := 0 |}).

(** *** Buffer registry *)

(** The first buffer of 4 KiB on the running device: handle 0, and its
    properties read back. *)
Lemma xclAllocBO_then_properties_witness :
  (@xclAllocBO (Demo.platform ack) 4096 0 0 (Demo.started ack)).1 = 0
  /\ @xclGetBOProperties (Demo.platform ack) 0 (Demo.with_one_bo ack)
     = (0, Some (0, 4096, 0)).
Proof.
  destruct (@xclAllocBO_then_properties (Demo.platform ack) 4096 0 0
              (Demo.started ack) bank0) as (H1 & _ & H3 & _).
  - lia.
  - vm_compute; reflexivity.
  - intros E; vm_compute in E; discriminate E.
  - intros E; vm_compute in E; discriminate E.
  - split; [exact H1|exact H3].
Defined.

(** The second buffer on a device that holds one. *)
Lemma xclAllocBO_keeps_handles_witness :
  @handles_below_count (Demo.platform ack)
    (@xclAllocBO (Demo.platform ack) 4096 0 0 (Demo.with_one_bo ack)).2.
Proof.
  destruct (@xclAllocBO_keeps_handles (Demo.platform ack) 4096 0 0
              (Demo.with_one_bo ack)) as (H1 & _).
  - intros h Hh. apply elem_of_dom in Hh.
    assert (Hd : dom (mXoclObjMap (Demo.with_one_bo ack)) = {[ 0 ]})
      by (vm_compute; reflexivity).
    rewrite Hd in Hh. apply elem_of_singleton in Hh. subst h.
    change (0 <= 0 < 1). lia.
  - change (0 <= 1 < 2 ^ 32 - 1). lia.
  - exact H1.
Defined.

Lemma xclFreeBO_removes_one_witness :
  @xclGetBOProperties (Demo.platform ack) 0
    (@xclFreeBO (Demo.platform ack) 0 (Demo.with_one_bo ack)).2
  = (-1, None).
Proof.
  edestruct (@xclFreeBO_removes_one (Demo.platform ack) 0
               (Demo.with_one_bo ack)) as (H1 & _).
  - vm_compute; reflexivity.
  - exact H1.
Defined.

Lemma xclAllocBO_then_xclFreeBO_witness :
  mXoclObjMap (@xclFreeBO (Demo.platform ack) 0 (Demo.with_one_bo ack)).2 = ∅.
Proof.
  destruct (@xclAllocBO_then_xclFreeBO (Demo.platform ack) 4096 0 0
              (Demo.started ack)) as (H1 & _).
  - vm_compute; reflexivity.
  - eexists; vm_compute; reflexivity.
  - exact H1.
Defined.

Lemma xclAllocUserPtrBO_records_pointer_witness :
  exists bo,
    mXoclObjMap
      (@xclAllocUserPtrBO (Demo.platform ack) 0x5000 4096 0
         (Demo.started ack)).2 !! 0 = Some bo
    /\ bo_userptr bo = 0x5000.
Proof.
  destruct (@xclAllocUserPtrBO_records_pointer (Demo.platform ack)
              0x5000 4096 0 (Demo.started ack)) as (_ & H2).
  - vm_compute; reflexivity.
  - vm_compute; reflexivity.
  - destruct (mXoclObjMap
                (@xclAllocUserPtrBO (Demo.platform ack) 0x5000 4096 0
                   (Demo.started ack)).2 !! 0) as [bo|] eqn:E.
    + exists bo. split; [reflexivity|]. apply H2. exact E.
    + vm_compute in E. discriminate E.
Defined.

(** *** Bank set-up *)

Lemma initMemoryManager_layout_witness :
  length
    (mDDRMemoryManager
       (@initMemoryManager (Demo.platform ack)
          (DemoMore.host ack DemoMore.q_all) DemoMore.two_banks
          (DemoMore.without_banks ack)))
  = length DemoMore.two_banks.
Proof.
  destruct (@initMemoryManager_layout (Demo.platform ack)
              (DemoMore.host ack DemoMore.q_all)
              ltac:(intros; reflexivity) ltac:(intros; reflexivity)
              DemoMore.two_banks (DemoMore.without_banks ack))
    as (H1 & _).
  - reflexivity.
  - repeat constructor; simpl; lia.
  - vm_compute; reflexivity.
  - exact H1.
Defined.

(** *** Session supervisor *)

(** Three launches in a row on a new object. *)
Lemma launchDeviceProcess_forks_once_witness :
  is_Some (sock (@launch_times (Demo.platform ack) 3 false (Demo.fresh ack)))
  /\ binaryCounter (@launch_times (Demo.platform ack) 3 false (Demo.fresh ack))
     = 3.
Proof.
  destruct (@launchDeviceProcess_forks_once (Demo.platform ack) false 2
              (Demo.fresh ack)) as (H1 & H2 & _).
  - reflexivity.
  - change (0 <= 0 < 2 ^ 32). lia.
  - split; [exact H1|exact H2].
Defined.


Lemma xclClose_without_socket_witness :
  exists s',
    @xclClose (Demo.platform ack) (DemoMore.host ack DemoMore.q_all) 0
      (Demo.fresh ack) = Some s'
    /\ sock s' = None.
Proof.
  destruct (@xclClose_without_socket (Demo.platform ack)
              (DemoMore.host ack DemoMore.q_all) 0 (Demo.fresh ack))
    as (s' & evs & H1 & H2 & _).
  - reflexivity.
  - exists s'. split; [exact H1|exact H2].
Defined.

(** *** Loading a binary *)

(** The first name for the metadata file is taken: one pass of the search
    finds the next one. *)
Lemma dumpXML_writes_fresh_file_witness :
  exists r loc s',
    @dumpXML (Demo.platform ack) 1 (Some Demo.good_container) ""
      (DemoMore.with_xmltmp ack) = Done (r, loc) s'
    /\ loc ∉ files (DemoMore.with_xmltmp ack).
Proof.
  destruct (@dumpXML_writes_fresh_file (Demo.platform ack) 1
              Demo.good_container
              {| m_sectionOffset := 64; m_sectionSize := 16 |} ""
              (DemoMore.with_xmltmp ack))
    as (r & loc & s' & H1 & H2 & _).
  - vm_compute; reflexivity.
  - reflexivity.
  - intros E; vm_compute in E; discriminate E.
  - simpl; lia.
  - exists r, loc, s'. split; [exact H1|exact H2].
Defined.

Lemma xclLoadXclBin_returns_witness :
  @xclLoadXclBin (Demo.platform ack) 2 (Some Demo.good_container)
    (DemoMore.with_xmltmp ack) <> OutOfFuel.
Proof.
  apply (@xclLoadXclBin_returns (Demo.platform ack) 2
           (Some Demo.good_container) (DemoMore.with_xmltmp ack)).
  simpl; lia.
Defined.

Lemma xclLoadXclBin_success_witness :
  match @xclLoadXclBin (Demo.platform ack) 0 (Some Demo.good_container)
          (Demo.fresh ack) with
  | Done r s' => r = 0 /\ @loaded (Demo.platform ack) (Demo.fresh ack) s'
  | _ => False
  end.
Proof.
  assert (Hr : match @xclLoadXclBin (Demo.platform ack) 0
                       (Some Demo.good_container) (Demo.fresh ack) with
               | Done r _ => Some r
               | _ => None
               end = Some 0) by (vm_compute; reflexivity).
  revert Hr.
  destruct (@xclLoadXclBin (Demo.platform ack) 0 (Some Demo.good_container)
              (Demo.fresh ack)) as [r s'|c s'|s'|] eqn:E;
    intros Hr; try discriminate Hr.
  injection Hr as ->. split; [reflexivity|].
  exact (proj2 (@xclLoadXclBin_success (Demo.platform ack) 0
                  Demo.good_container (Demo.fresh ack) s' E)).
Defined.

Lemma xclLoadXclBin_no_metadata_witness :
  @xclLoadXclBin (Demo.platform ack) 0 (Some DemoMore.bare_container)
    (Demo.fresh ack) = Done (-1) (Demo.fresh ack).
Proof.
  apply (@xclLoadXclBin_no_metadata (Demo.platform ack) 0
           DemoMore.bare_container (Demo.fresh ack)).
  - vm_compute; reflexivity.
  - reflexivity.
  - exact I.
Defined.

Lemma xclLoadXclBin_null_header_witness :
  exists s',
    @xclLoadXclBin (Demo.platform ack) 0 None (Demo.fresh ack) = Done 0 s'
    /\ is_Some (sock s').
Proof.
  destruct (@xclLoadXclBin_null_header (Demo.platform ack) 0 (Demo.fresh ack))
    as (s' & H1 & H2 & _).
  - reflexivity.
  - exists s'. split; [exact H1|exact H2].
Defined.


(** *** Transfers *)

(** 16 MiB at a message size of 8 MiB. *)
Lemma transfer_covers_size_witness :
  exists s' msgs,
    @xclCopyBufferHost2Device (Demo.platform ack) 2 0 0x5000 0x1000000 0
      (Demo.started ack) = Some (0x1000000, s')
    /\ sum_Z (copied_bytes <$> msgs) = 0x1000000.
Proof.
  destruct (@transfer_covers_size (Demo.platform ack) 2 0 0x5000 0x1000000 0
              (Demo.started ack))
    as ((s' & msgs & H1 & _ & H3 & _) & _).
  - change (0 < 0x800000 < 2 ^ 32). lia.
  - lia.
  - vm_compute; lia.
  - exists s', msgs. split; [exact H1|exact H3].
Defined.

(** *** Completion poll and queues *)

Lemma xclPollCompletion_fills_slots_witness :
  match @xclPollCompletion (Demo.platform two) 1 2 5 ∅ 0
          (DemoMore.five_ordered two) with
  | Some (actual, comps', s') =>
      actual = 2
      /\ sublist (mReqList s') (mReqList (DemoMore.five_ordered two))
      /\ exists c, comps' !! 0 = Some c /\ 0 < nbytes c
  | None => False
  end.
Proof.
  assert (Hr : match @xclPollCompletion (Demo.platform two) 1 2 5 ∅ 0
                       (DemoMore.five_ordered two) with
               | Some (actual, _, _) => Some actual
               | None => None
               end = Some 2) by (vm_compute; reflexivity).
  revert Hr.
  destruct (@xclPollCompletion (Demo.platform two) 1 2 5 ∅ 0
              (DemoMore.five_ordered two)) as [[[actual comps'] s']|] eqn:E;
    intros Hr; [|discriminate Hr].
  injection Hr as ->. split; [reflexivity|].
  destruct (@xclPollCompletion_fills_slots (Demo.platform two) 1 2 5 ∅ 0
              (DemoMore.five_ordered two) 2 comps' s' E) as (H1 & H2 & _).
  split; [exact H1|].
  destruct (H2 0) as (c & Hc & Hn & _); [lia|].
  exists c. split; [exact Hc|exact Hn].
Defined.

(** A second non-blocking request behind one that is outstanding. *)
Lemma submission_keeps_requests_ordered_witness :
  @requests_ordered (Demo.platform ack)
    (q_shim
       (@xclWriteQueue (Demo.platform ack) (DemoMore.host ack DemoMore.q_all)
          7 DemoMore.nonblocking_request
          (@xclWriteQueue (Demo.platform ack)
             (DemoMore.host ack DemoMore.q_all)
             7 DemoMore.nonblocking_request (DemoMore.qdma ack)).2).2).
Proof.
  destruct (@submission_keeps_requests_ordered (Demo.platform ack)
              (DemoMore.host ack DemoMore.q_all) 1 7
              DemoMore.nonblocking_request
              (@xclWriteQueue (Demo.platform ack)
                 (DemoMore.host ack DemoMore.q_all)
                 7 DemoMore.nonblocking_request (DemoMore.qdma ack)).2)
    as (H1 & _).
  - change (0 <= 1 < 2 ^ 64 - 1). lia.
  - unfold requests_ordered. simpl. repeat constructor.
  - exact H1.
Defined.

Lemma xclPollCompletion_keeps_requests_ordered_witness :
  match @xclPollCompletion (Demo.platform two) 1 2 5 ∅ 0
          (DemoMore.five_ordered two) with
  | Some (_, _, s') => @requests_ordered (Demo.platform two) s'
  | None => False
  end.
Proof.
  assert (Hr : match @xclPollCompletion (Demo.platform two) 1 2 5 ∅ 0
                       (DemoMore.five_ordered two) with
               | Some (actual, _, _) => Some actual
               | None => None
               end = Some 2) by (vm_compute; reflexivity).
  revert Hr.
  destruct (@xclPollCompletion (Demo.platform two) 1 2 5 ∅ 0
              (DemoMore.five_ordered two)) as [[[actual comps'] s']|] eqn:E;
    intros Hr; [|discriminate Hr].
  apply (@xclPollCompletion_keeps_requests_ordered (Demo.platform two)
           1 2 5 ∅ 0 (DemoMore.five_ordered two) actual comps' s');
    [|exact E].
  unfold requests_ordered. simpl. repeat constructor.
Defined.

(** The peer reports eight bytes for request 0: the private data 1000
    comes back in slot 0. *)
Lemma write_then_poll_returns_priv_data_witness :
  exists q',
    @q_poll (Demo.platform two) 1 1 5 ∅ 0
      (@xclWriteQueue (Demo.platform two) (DemoMore.host two DemoMore.q_all)
         7 DemoMore.nonblocking_request (DemoMore.qdma two)).2
    = Some (1, <[0 := {| priv_data := 1000; nbytes := 8 |}]> ∅, q')
    /\ mReqList (q_shim q') = [].
Proof.
  destruct (@write_then_poll_returns_priv_data (Demo.platform two)
              (DemoMore.host two DemoMore.q_all) 0 7
              DemoMore.nonblocking_request (DemoMore.qdma two) 5 ∅ 0)
    as (q' & H1 & H2 & _).
  - vm_compute; reflexivity.
  - reflexivity.
  - vm_compute; reflexivity.
  - exists q'. split; [exact H1|exact H2].
Defined.

Lemma xclReadQueue_nonblocking_witness :
  exists r q',
    @xclReadQueue (Demo.platform ack) (DemoMore.host ack DemoMore.q_none)
      1 7 DemoMore.nonblocking_request (DemoMore.qdma ack) = Some (r, q')
    /\ length (q_sent q') = 2%nat.
Proof.
  destruct (@xclReadQueue_nonblocking (Demo.platform ack)
              (DemoMore.host ack DemoMore.q_none) 0 7
              DemoMore.nonblocking_request (DemoMore.qdma ack))
    as (r & q' & H1 & H2 & _).
  - vm_compute; reflexivity.
  - exists r, q'. split; [exact H1|]. rewrite H2. reflexivity.
Defined.

Lemma xclReadQueue_blocking_waits_witness :
  @xclReadQueue (Demo.platform ack) (DemoMore.host ack DemoMore.q_none)
    1000 7 DemoMore.blocking_request (DemoMore.qdma ack) = None.
Proof.
  apply (@xclReadQueue_blocking_waits (Demo.platform ack)
           (DemoMore.host ack DemoMore.q_none)).
  - vm_compute; reflexivity.
  - discriminate.
  - intros; reflexivity.
Defined.

End MoreInstances.
